(** * RadioStation booking platform: the booking / payment consistency core

    A shallow embedding of the NestJS services of the backend
    ([payment.service.ts], [advertisementslot.service.ts]) over the data model
    of [schema.prisma], and the properties of the payment workflow proved on
    it.

    - The persistent store is a record of finite maps, one per collection,
      keyed by the document id.
    - A service method is a program in a small free monad [Prog]: every
      [await] of the source is one [Await] node, so that a method can be run
      to completion ([run]) or interleaved with other requests at its awaits
      ([run_schedule]).
    - What the services call but do not define (the HMAC of node's [crypto],
      the Razorpay client, the mail transport, the clock, fresh object ids)
      is collected in the record [Env]. *)

From Stdlib Require Import ZArith Floats Uint63 Lia.
From stdpp Require Import gmap strings list pretty.

Local Open Scope string_scope.

(** Decimal amounts such as 199.995 stand for the nearest binary64 number,
    as they do in JavaScript. *)
#[local] Set Warnings "-inexact-float".

(** ** JavaScript values *)

(** [!s] for a value of type [string]: only the empty string is falsy. *)
Definition falsy (s : string) : bool :=
  match s with
  | EmptyString => true
  | String _ _ => false
  end.

(** [a || b] on strings. *)
Definition or_else (a b : string) : string := if falsy a then b else a.

(** [s.slice(0, n)]. *)
Definition slice0 (n : nat) (s : string) : string := String.substring 0 n s.

(** An integer as a binary64 number; exact for [|n| < 2^53]. *)
Definition Z_to_float (n : Z) : float :=
  if (n <? 0)%Z then PrimFloat.opp (PrimFloat.of_uint63 (Uint63.of_Z (- n)))
  else PrimFloat.of_uint63 (Uint63.of_Z n).

(** The integer nearest to the fraction [num / den] ([den] positive), a tie
    going towards +infinity. *)
Definition round_half_up (num den : Z) : Z := ((2 * num + den) / (2 * den))%Z.

(** [Math.round]: the integer nearest to [x], a tie going towards +infinity;
    NaN, the infinities and the zeros are returned as they are, and a result
    of zero keeps the sign of a negative argument.  The rounding is computed
    on the exact value [(-1)^s * m * 2^e] of the binary64 number. *)
Definition Math_round (x : float) : float :=
  match Prim2SF x with
  | S754_finite s m e =>
      if (0 <=? e)%Z then x
      else
        let n := round_half_up (if s then Z.neg m else Z.pos m) (2 ^ (- e)) in
        if (n =? 0)%Z && s then (-0)%float else Z_to_float n
  | _ => x
  end.

(** The exact value of a binary64 number, as a fraction [(num, den)] whose
    denominator is a power of two; NaN and the infinities have none. *)
Definition exact_value (x : float) : option (Z * Z) :=
  match Prim2SF x with
  | S754_zero _ => Some (0, 1)%Z
  | S754_finite s m e =>
      let sm := if s then Z.neg m else Z.pos m in
      if (0 <=? e)%Z then Some (sm * 2 ^ e, 1)%Z else Some (sm, 2 ^ (- e))%Z
  | _ => None
  end.

(** The binary64 number [x] is the integer [n]. *)
Definition is_integer (x : float) (n : Z) : bool :=
  match exact_value x with
  | Some (num, den) => (num =? n * den)%Z
  | None => false
  end.

(** [n] is the integer nearest to the fraction [num / den] ([den]
    positive), a tie going towards +infinity: [n - 1/2 <= num / den < n + 1/2]. *)
Definition nearest_half_up (num den n : Z) : Prop :=
  (2 * den * n - den <= 2 * num /\ 2 * num < 2 * den * n + den)%Z.

(** ** HTTP status codes and exceptions *)

Module HttpStatus.
Definition BAD_REQUEST : Z := 400.
Definition NOT_FOUND : Z := 404.
Definition CONFLICT : Z := 409.
Definition INTERNAL_SERVER_ERROR : Z := 500.
End HttpStatus.

(** [Prisma.PrismaClientKnownRequestError]: [code], [meta.target],
    [message]. *)
Module PrismaError.
Record t := mk { code : string; target : string; message : string }.
End PrismaError.

(** The error object the Razorpay client rejects with:
    [{ statusCode, error: { code, description, field } }]; a failure that is
    not an API answer (network) has neither and only a [message]. *)
Module RazorpayError.
Record body := mkBody { code : string; description : string; field : string }.
Record t := mk { statusCode : option Z; error : option body; message : string }.
End RazorpayError.

Inductive Exception :=
| HttpException (message : string) (status : Z)
| PrismaClientKnownRequestError (e : PrismaError.t)
| RazorpayRejection (e : RazorpayError.t)
| OtherError (message : string).

Definition NotFoundException (m : string) := HttpException m HttpStatus.NOT_FOUND.
Definition ConflictException (m : string) := HttpException m HttpStatus.CONFLICT.
Definition InternalServerErrorException (m : string) :=
  HttpException m HttpStatus.INTERNAL_SERVER_ERROR.

(** The status the HTTP boundary answers with: an [HttpException] carries its
    own, anything else that escapes a handler is a 500. *)
Definition http_status (e : Exception) : Z :=
  match e with
  | HttpException _ st => st
  | _ => HttpStatus.INTERNAL_SERVER_ERROR
  end.

Definition error_message (e : Exception) : string :=
  match e with
  | HttpException m _ => m
  | PrismaClientKnownRequestError e => PrismaError.message e
  | RazorpayRejection e => RazorpayError.message e
  | OtherError m => m
  end.

(** ** Data model ([schema.prisma]) *)

Module SlotStatus.
Inductive t := AVAILABLE | BOOKED.
#[global] Instance slot_status_eq_dec : EqDecision t.
Proof. solve_decision. Defined.
End SlotStatus.

Module BookingStatus.
Inductive t := PENDING | APPROVED | REJECTED.
#[global] Instance booking_status_eq_dec : EqDecision t.
Proof. solve_decision. Defined.
Definition to_string (s : t) : string :=
  match s with
  | PENDING => "PENDING"
  | APPROVED => "APPROVED"
  | REJECTED => "REJECTED"
  end.
End BookingStatus.

Module PaymentStatus.
Inductive t := PENDING | COMPLETED | FAILED.
#[global] Instance payment_status_eq_dec : EqDecision t.
Proof. solve_decision. Defined.
Definition to_string (s : t) : string :=
  match s with
  | PENDING => "PENDING"
  | COMPLETED => "COMPLETED"
  | FAILED => "FAILED"
  end.
End PaymentStatus.

Module RadioStation.
Record t := mk {
  stationName : string;
  location : string;
  contactEmail : string;
  contactPhone : string;
  description : option string
}.
End RadioStation.

Module RJ.
Record t := mk {
  stationId : string;
  rjName : string;
  showName : string;
  showTiming : string
}.
End RJ.

Module AdvertisementSlot.
Record t := mk {
  stationId : string;
  rjId : string;
  slotTime : string;
  availabilityStatus : SlotStatus.t;
  price : float
}.
End AdvertisementSlot.

(** [slotId] is declared [@unique]: see [booking_create]. *)
Module Booking.
Record t := mk {
  userId : string;
  stationId : string;
  rjId : string;
  slotId : string;
  bookingStatus : BookingStatus.t;
  bookingDate : string
}.
End Booking.

(** [bookingId], [razorpayOrderId] and [razorpayPaymentId] are declared
    [@unique].  [amountInPaise] is the JavaScript number the service hands to
    the store (the column is an [Int]). *)
Module Payment.
Record t := mk {
  bookingId : string;
  userId : string;
  amountInPaise : float;
  currency : string;
  paymentStatus : PaymentStatus.t;
  transactionId : string;
  paymentDate : string;
  razorpayOrderId : option string;
  razorpayPaymentId : option string;
  razorpaySignature : option string
}.
End Payment.

(** The store: one finite map per collection, from the document id to the
    document.  Of a user only the existence matters to the services. *)
Record Store := mkStore {
  users : gset string;
  stations : gmap string RadioStation.t;
  rjs : gmap string RJ.t;
  slots : gmap string AdvertisementSlot.t;
  bookings : gmap string Booking.t;
  payments : gmap string Payment.t
}.

Definition set_slots (f : gmap string AdvertisementSlot.t -> gmap string AdvertisementSlot.t)
  (s : Store) : Store :=
  mkStore (users s) (stations s) (rjs s) (f (slots s)) (bookings s) (payments s).

Definition set_bookings (f : gmap string Booking.t -> gmap string Booking.t)
  (s : Store) : Store :=
  mkStore (users s) (stations s) (rjs s) (slots s) (f (bookings s)) (payments s).

Definition set_payments (f : gmap string Payment.t -> gmap string Payment.t)
  (s : Store) : Store :=
  mkStore (users s) (stations s) (rjs s) (slots s) (bookings s) (f (payments s)).

(** Some document of the collection satisfies [f]. *)
Definition map_any {V} (f : string -> V -> bool) (m : gmap string V) : bool :=
  existsb (fun kv => f kv.1 kv.2) (map_to_list m).

(** The number of documents of the collection that satisfy [f]. *)
Definition map_count {V} (f : string -> V -> bool) (m : gmap string V) : nat :=
  length (List.filter (fun kv => f kv.1 kv.2) (map_to_list m)).

Definition opt_eqb (a : option string) (b : string) : bool :=
  match a with
  | Some x => String.eqb x b
  | None => false
  end.

(** ** The Prisma client *)

(** The [data] of [payment.update]: the fields that are given are written. *)
Module PaymentUpdateInput.
Record t := mk {
  paymentStatus : option PaymentStatus.t;
  razorpayPaymentId : option string;
  razorpaySignature : option string
}.
Definition apply (d : t) (p : Payment.t) : Payment.t :=
  Payment.mk (Payment.bookingId p) (Payment.userId p) (Payment.amountInPaise p)
    (Payment.currency p)
    (default (Payment.paymentStatus p) (paymentStatus d))
    (Payment.transactionId p) (Payment.paymentDate p)
    (Payment.razorpayOrderId p)
    (from_option Some (Payment.razorpayPaymentId p) (razorpayPaymentId d))
    (from_option Some (Payment.razorpaySignature p) (razorpaySignature d)).
End PaymentUpdateInput.

(** The [data] of [payment.create] in [createPayment]. *)
Module PaymentCreateInput.
Record t := mk {
  booking_connect : string;
  user_connect : string;
  amountInPaise : float;
  currency : string;
  paymentStatus : PaymentStatus.t;
  razorpayOrderId : string;
  transactionId : string
}.
End PaymentCreateInput.

(** The [data] of [booking.create]. *)
Module BookingCreateInput.
Record t := mk {
  userId : string;
  stationId : string;
  rjId : string;
  slotId : string
}.
End BookingCreateInput.

(** [include: { booking: { select: { id, slotId } } }]. *)
Module BookingRef.
Record t := mk { id : string; slotId : string }.
End BookingRef.

Module PaymentWithBooking.
Record t := mk { id : string; payment : Payment.t; booking : option BookingRef.t }.
End PaymentWithBooking.

(** [select: { bookingStatus: true, station: true }]. *)
Module BookingWithStation.
Record t := mk { bookingStatus : BookingStatus.t; station : RadioStation.t }.
End BookingWithStation.

Definition slot_set_status (st : SlotStatus.t) (x : AdvertisementSlot.t) : AdvertisementSlot.t :=
  AdvertisementSlot.mk (AdvertisementSlot.stationId x) (AdvertisementSlot.rjId x)
    (AdvertisementSlot.slotTime x) st (AdvertisementSlot.price x).

(** The queries the services build.  A query is a value (a PrismaPromise): it
    runs when it is awaited, alone or inside [$transaction]. *)
Inductive Query : Type -> Type :=
| payment_findUnique_include_booking (id : string) : Query (option PaymentWithBooking.t)
| payment_update (id : string) (data : PaymentUpdateInput.t) : Query (string * Payment.t)
| payment_create (data : PaymentCreateInput.t) : Query (string * Payment.t)
| advertisementSlot_findUnique (id : string) : Query (option string)
| advertisementSlot_update (id : string) (availabilityStatus : SlotStatus.t)
    : Query (string * AdvertisementSlot.t)
| advertisementSlot_delete (id : string) : Query (string * AdvertisementSlot.t)
| radioStation_findUnique (id : string) : Query (option string)
| rJ_findUnique (id : string) : Query (option string)
| booking_findUnique_select (id : string) : Query (option BookingWithStation.t)
| booking_count_slotId (slotId : string) : Query nat
| booking_create (data : BookingCreateInput.t) : Query (string * Booking.t)
| transaction2 {X Y : Type} (a : Query X) (b : Query Y) : Query (X * Y).

(** The writes a query asks for. *)
Inductive Write :=
| W_payment_update (id : string) (data : PaymentUpdateInput.t)
| W_payment_create (data : PaymentCreateInput.t)
| W_slot_update (id : string) (availabilityStatus : SlotStatus.t)
| W_slot_delete (id : string)
| W_booking_create (data : BookingCreateInput.t).

Fixpoint query_writes {R} (q : Query R) : list Write :=
  match q with
  | payment_update id d => [W_payment_update id d]
  | payment_create d => [W_payment_create d]
  | advertisementSlot_update id st => [W_slot_update id st]
  | advertisementSlot_delete id => [W_slot_delete id]
  | booking_create d => [W_booking_create d]
  | transaction2 a b => query_writes a ++ query_writes b
  | _ => []
  end.

Definition P2002 (target : string) : Exception :=
  PrismaClientKnownRequestError
    (PrismaError.mk "P2002" target "Unique constraint failed").
Definition P2025 : Exception :=
  PrismaClientKnownRequestError
    (PrismaError.mk "P2025" EmptyString "Record to update or delete does not exist").

(** What is outside the repository: the secret of the environment, node's
    [crypto], the Razorpay client, the mail transport, the clock, and the
    object id the store gives to the next document it creates. *)
Module OrderOptions.
Record notes_t := mkNotes {
  bookingId : string; userId : string; transactionId : string; clientDateTime : string
}.
Record t := mk { amount : float; currency : string; receipt : string; notes : notes_t }.
End OrderOptions.

Module Order.
Record t := mk { id : string; amount : float; currency : string }.
End Order.

Module MailOptions.
Record t := mk { from : string; to : string; subject : string; html : string }.
End MailOptions.

Record Env := mkEnv {
  RAZORPAY_KEYSECRET : string;
  (** [crypto.createHmac('sha256', key).update(data).digest('hex')] *)
  createHmac_sha256_hex : string -> string -> string;
  (** [crypto.randomBytes(4).toString('hex')] *)
  randomBytes4_hex : string;
  (** [new Date().toISOString()] *)
  Date_toISOString : string;
  (** a number inside a template literal *)
  Number_toString : float -> string;
  (** [razorpay.orders.create]: the order, or what the client rejects with *)
  orders_create : OrderOptions.t -> RazorpayError.t + Order.t;
  (** [transporter.sendMail]: [Some message] is the error it rejects with *)
  sendMail_error : MailOptions.t -> option string;
  config_SENDER_EMAIL : string;
  (** [@default(auto())] and [@default(now())] *)
  auto_ObjectId : Store -> string;
  now : string
}.

(** *** Programs: what a service method awaits *)

Inductive Op : Type -> Type :=
| prisma {R : Type} (q : Query R) : Op R
| razorpay_orders_create (options : OrderOptions.t) : Op Order.t
| transporter_sendMail (mailOptions : MailOptions.t) : Op unit.

(** What a request did to the world, in order: a query that asked for writes
    (and whether the store applied them), an order created at the gateway, a
    mail sent. *)
Inductive Event :=
| EvWrite (ws : list Write) (applied : bool)
| EvOrderCreate (options : OrderOptions.t) (ok : bool)
| EvSendMail (mailOptions : MailOptions.t) (ok : bool).

Definition is_inr {A B} (r : A + B) : bool :=
  match r with
  | inl _ => false
  | inr _ => true
  end.

(** A method body: it returns, throws, or awaits an operation and goes on
    with what the operation answered or threw. *)
Inductive Prog (A : Type) : Type :=
| Return (a : A)
| Throw (e : Exception)
| Await {X : Type} (op : Op X) (k : Exception + X -> Prog A).

Arguments Return {A} a.
Arguments Throw {A} e.
Arguments Await {A X} op k.

Fixpoint bind {A B} (p : Prog A) (f : A -> Prog B) : Prog B :=
  match p with
  | Return a => f a
  | Throw e => Throw e
  | Await op k => Await op (fun r => bind (k r) f)
  end.

(** [try { p } catch (error) { h error }]. *)
Fixpoint try_catch {A} (p : Prog A) (h : Exception -> Prog A) : Prog A :=
  match p with
  | Return a => Return a
  | Throw e => h e
  | Await op k => Await op (fun r => try_catch (k r) h)
  end.

(** [await op]: an operation that throws, throws here. *)
Definition await {X} (op : Op X) : Prog X :=
  Await op (fun r => match r with
                     | inl e => Throw e
                     | inr x => Return x
                     end).

#[global] Instance Prog_ret : MRet Prog := @Return.
#[global] Instance Prog_bind : MBind Prog := fun A B f p => bind p f.

(** The outcome of a request that ran alone. *)
Record Run (A : Type) := mkRun {
  result : Exception + A;
  final : Store;
  trace : list Event
}.
Arguments mkRun {A} _ _ _.
Arguments result {A} _.
Arguments final {A} _.
Arguments trace {A} _.

(** The body and the answer of [completePayment]. *)
Module CompleteBody.
Record t := mk {
  razorpayOrderId : string;
  razorpayPaymentId : string;
  razorpaySignature : string
}.
End CompleteBody.

Module CompleteResult.
Record t := mk { message : string; bookingId : string; slotId : string }.
End CompleteResult.

(** The double quote, for the messages that quote an id. *)
Definition dquote : string := String (Ascii.ascii_of_nat 34) EmptyString.

(** The answer of [createPayment]. *)
Module CreatePaymentResult.
Record t := mk { paymentId : string; orderId : string; amount : float; currency : string }.
End CreatePaymentResult.

(** ** What a trace says about commits *)

(** The event is the commit of [completePayment] for the payment: the
    transaction that writes COMPLETED to it and BOOKED to a slot. *)
Definition commit_attempt (paymentId : string) (ev : Event) : bool :=
  match ev with
  | EvWrite [W_payment_update id d; W_slot_update _ SlotStatus.BOOKED] _ =>
      String.eqb id paymentId
      && bool_decide (PaymentUpdateInput.paymentStatus d = Some PaymentStatus.COMPLETED)
  | _ => false
  end.

Definition applied (ev : Event) : bool :=
  match ev with
  | EvWrite _ ok => ok
  | EvOrderCreate _ ok => ok
  | EvSendMail _ ok => ok
  end.

(** How many commits for the payment the store applied. *)
Definition commits (paymentId : string) (tr : list Event) : nat :=
  length (List.filter (fun ev => commit_attempt paymentId ev && applied ev) tr).

(** How many writes of BOOKED to the slot the store applied. *)
Definition slot_bookings (slotId : string) (tr : list Event) : nat :=
  length (List.filter
            (fun ev =>
               match ev with
               | EvWrite ws true =>
                   existsb (fun w =>
                              match w with
                              | W_slot_update id SlotStatus.BOOKED => String.eqb id slotId
                              | _ => false
                              end) ws
               | _ => false
               end) tr).

Section Services.

Context (env : Env).

(** *** The store's answer to a query

    A unique constraint binds the values that are present; a document that
    has no value in the column conflicts with nothing. *)

(** Another payment already carries the gateway's payment id. *)
Definition paymentId_taken (s : Store) (id razorpayPaymentId : string) : bool :=
  map_any (fun k q => negb (String.eqb k id)
                      && opt_eqb (Payment.razorpayPaymentId q) razorpayPaymentId)
    (payments s).

Definition payment_update_exec (id : string) (d : PaymentUpdateInput.t) (s : Store)
  : Exception + (string * Payment.t) * Store :=
  match payments s !! id with
  | None => inl P2025
  | Some p =>
      let taken :=
        match PaymentUpdateInput.razorpayPaymentId d with
        | Some v => paymentId_taken s id v
        | None => false
        end in
      if taken then inl (P2002 "razorpayPaymentId")
      else
        let p' := PaymentUpdateInput.apply d p in
        inr ((id, p'), set_payments (insert id p') s)
  end.

Definition payment_create_exec (d : PaymentCreateInput.t) (s : Store)
  : Exception + (string * Payment.t) * Store :=
  let id := auto_ObjectId env s in
  if bool_decide (is_Some (payments s !! id)) then inl (P2002 "_id")
  else if negb (bool_decide (is_Some (bookings s !! PaymentCreateInput.booking_connect d)))
          || negb (bool_decide (PaymentCreateInput.user_connect d ∈ users s))
  then inl P2025
  else if map_any (fun _ q => String.eqb (Payment.bookingId q)
                                (PaymentCreateInput.booking_connect d)) (payments s)
  then inl (P2002 "bookingId")
  else if map_any (fun _ q => opt_eqb (Payment.razorpayOrderId q)
                                (PaymentCreateInput.razorpayOrderId d)) (payments s)
  then inl (P2002 "razorpayOrderId")
  else
    let p := Payment.mk (PaymentCreateInput.booking_connect d)
               (PaymentCreateInput.user_connect d)
               (PaymentCreateInput.amountInPaise d) (PaymentCreateInput.currency d)
               (PaymentCreateInput.paymentStatus d) (PaymentCreateInput.transactionId d)
               (now env) (Some (PaymentCreateInput.razorpayOrderId d)) None None in
    inr ((id, p), set_payments (insert id p) s).

Definition advertisementSlot_update_exec (id : string) (st : SlotStatus.t) (s : Store)
  : Exception + (string * AdvertisementSlot.t) * Store :=
  match slots s !! id with
  | None => inl P2025
  | Some x =>
      let x' := slot_set_status st x in
      inr ((id, x'), set_slots (insert id x') s)
  end.

Definition advertisementSlot_delete_exec (id : string) (s : Store)
  : Exception + (string * AdvertisementSlot.t) * Store :=
  match slots s !! id with
  | None => inl P2025
  | Some x => inr ((id, x), set_slots (delete id) s)
  end.

(** [slotId String @unique]: the store refuses a second booking of a slot. *)
Definition booking_create_exec (d : BookingCreateInput.t) (s : Store)
  : Exception + (string * Booking.t) * Store :=
  let id := auto_ObjectId env s in
  if bool_decide (is_Some (bookings s !! id)) then inl (P2002 "_id")
  else if map_any (fun _ b => String.eqb (Booking.slotId b) (BookingCreateInput.slotId d))
            (bookings s)
  then inl (P2002 "slotId")
  else
    let b := Booking.mk (BookingCreateInput.userId d) (BookingCreateInput.stationId d)
               (BookingCreateInput.rjId d) (BookingCreateInput.slotId d)
               BookingStatus.PENDING (now env) in
    inr ((id, b), set_bookings (insert id b) s).

(** A relation that the schema requires and whose target is missing makes
    the client throw. *)
Definition inconsistent (field : string) : Exception :=
  OtherError ("Inconsistent query result: Field " +:+ field
              +:+ " is required to return data, got `null` instead.").

Definition payment_findUnique_exec (id : string) (s : Store)
  : Exception + option PaymentWithBooking.t :=
  match payments s !! id with
  | None => inr None
  | Some p =>
      match bookings s !! Payment.bookingId p with
      | None => inl (inconsistent "booking")
      | Some b =>
          inr (Some (PaymentWithBooking.mk id p
                       (Some (BookingRef.mk (Payment.bookingId p) (Booking.slotId b)))))
      end
  end.

Definition booking_findUnique_exec (id : string) (s : Store)
  : Exception + option BookingWithStation.t :=
  match bookings s !! id with
  | None => inr None
  | Some b =>
      match stations s !! Booking.stationId b with
      | None => inl (inconsistent "station")
      | Some st => inr (Some (BookingWithStation.mk (Booking.bookingStatus b) st))
      end
  end.

(** A query either answers and leaves the store it has written, or throws
    and leaves the store as it was.  [$transaction([a, b])] runs [a] then [b]
    and keeps the writes of both or of none. *)
Fixpoint query_exec {R} (q : Query R) (s : Store) : Exception + R * Store :=
  match q in Query R return Exception + R * Store with
  | payment_findUnique_include_booking id =>
      match payment_findUnique_exec id s with
      | inl e => inl e
      | inr r => inr (r, s)
      end
  | payment_update id d => payment_update_exec id d s
  | payment_create d => payment_create_exec d s
  | advertisementSlot_findUnique id => inr ((fun _ => id) <$> slots s !! id, s)
  | advertisementSlot_update id st => advertisementSlot_update_exec id st s
  | advertisementSlot_delete id => advertisementSlot_delete_exec id s
  | radioStation_findUnique id => inr ((fun _ => id) <$> stations s !! id, s)
  | rJ_findUnique id => inr ((fun _ => id) <$> rjs s !! id, s)
  | booking_findUnique_select id =>
      match booking_findUnique_exec id s with
      | inl e => inl e
      | inr r => inr (r, s)
      end
  | booking_count_slotId sid =>
      inr (map_count (fun _ b => String.eqb (Booking.slotId b) sid) (bookings s), s)
  | booking_create d => booking_create_exec d s
  | transaction2 a b =>
      match query_exec a s with
      | inl e => inl e
      | inr (x, s1) =>
          match query_exec b s1 with
          | inl e => inl e
          | inr (y, s2) => inr ((x, y), s2)
          end
      end
  end.

(** *** Running a program on the store *)

Definition op_exec {X} (op : Op X) (s : Store) : (Exception + X) * Store * list Event :=
  match op in Op X return (Exception + X) * Store * list Event with
  | prisma q =>
      let r := query_exec q s in
      let ev :=
        match query_writes q with
        | [] => []
        | ws => [EvWrite ws (is_inr r)]
        end in
      match r with
      | inl e => (inl e, s, ev)
      | inr (x, s') => (inr x, s', ev)
      end
  | razorpay_orders_create o =>
      match orders_create env o with
      | inl e => (inl (RazorpayRejection e), s, [EvOrderCreate o false])
      | inr order => (inr order, s, [EvOrderCreate o true])
      end
  | transporter_sendMail m =>
      match sendMail_error env m with
      | Some msg => (inl (OtherError msg), s, [EvSendMail m false])
      | None => (inr tt, s, [EvSendMail m true])
      end
  end.

Fixpoint run_from {A} (p : Prog A) (s : Store) (tr : list Event) : Run A :=
  match p with
  | Return a => mkRun (inr a) s tr
  | Throw e => mkRun (inl e) s tr
  | Await op k =>
      let '(r, s', ev) := op_exec op s in
      run_from (k r) s' (tr ++ ev)
  end.

Definition run {A} (p : Prog A) (s : Store) : Run A := run_from p s [].

(** ** [PaymentService.completePayment] *)

Definition commit_data (body : CompleteBody.t) : PaymentUpdateInput.t :=
  PaymentUpdateInput.mk (Some PaymentStatus.COMPLETED)
    (Some (CompleteBody.razorpayPaymentId body))
    (Some (CompleteBody.razorpaySignature body)).

Definition failed_data : PaymentUpdateInput.t :=
  PaymentUpdateInput.mk (Some PaymentStatus.FAILED) None None.

(** The signature the service recomputes: the HMAC, under the secret, of the
    stored order id, a bar, and the payment id of the request. *)
Definition generatedSignature (storedOrderId razorpayPaymentId : string) : string :=
  createHmac_sha256_hex env (RAZORPAY_KEYSECRET env)
    (storedOrderId +:+ "|" +:+ razorpayPaymentId).

Definition completePayment (paymentId : string) (body : CompleteBody.t)
  : Prog CompleteResult.t :=
  let razorpayOrderId := CompleteBody.razorpayOrderId body in
  let razorpayPaymentId := CompleteBody.razorpayPaymentId body in
  let razorpaySignature := CompleteBody.razorpaySignature body in
  if falsy paymentId || falsy razorpayOrderId || falsy razorpayPaymentId
     || falsy razorpaySignature
  then Throw (HttpException "Missing required payment details for verification."
                HttpStatus.BAD_REQUEST)
  else
    found ← await (prisma (payment_findUnique_include_booking paymentId));
    match found with
    | None => Throw (HttpException "Payment record not found." HttpStatus.NOT_FOUND)
    | Some payment =>
        let row := PaymentWithBooking.payment payment in
        match PaymentWithBooking.booking payment with
        | None =>
            Throw (HttpException "Associated booking or slot not found for this payment."
                     HttpStatus.INTERNAL_SERVER_ERROR)
        | Some booking =>
            if falsy (BookingRef.slotId booking)
            then Throw (HttpException "Associated booking or slot not found for this payment."
                          HttpStatus.INTERNAL_SERVER_ERROR)
            else if bool_decide (Payment.paymentStatus row = PaymentStatus.COMPLETED)
            then Return (CompleteResult.mk "Payment already verified and completed."
                           (Payment.bookingId row) (BookingRef.slotId booking))
            else if negb (bool_decide (Payment.paymentStatus row = PaymentStatus.PENDING))
            then Throw (HttpException
                          ("Payment cannot be completed in its current state: "
                           +:+ PaymentStatus.to_string (Payment.paymentStatus row))
                          HttpStatus.BAD_REQUEST)
            else
              match Payment.razorpayOrderId row with
              | None => Throw (HttpException "Order ID mismatch." HttpStatus.BAD_REQUEST)
              | Some storedOrderId =>
                  if negb (String.eqb storedOrderId razorpayOrderId)
                  then Throw (HttpException "Order ID mismatch." HttpStatus.BAD_REQUEST)
                  else if negb (String.eqb (generatedSignature storedOrderId razorpayPaymentId)
                                  razorpaySignature)
                  then
                    _ ← await (prisma (payment_update paymentId failed_data));
                    Throw (HttpException "Invalid payment signature." HttpStatus.BAD_REQUEST)
                  else
                    try_catch
                      ('(updatedPayment, updatedSlot) ←
                         await (prisma (transaction2
                                          (payment_update paymentId (commit_data body))
                                          (advertisementSlot_update (BookingRef.slotId booking)
                                             SlotStatus.BOOKED)));
                       Return (CompleteResult.mk
                                 "Payment verified successfully. Slot booked. Awaiting admin approval for booking."
                                 (Payment.bookingId row) (fst updatedSlot)))
                      (fun error =>
                         Throw (HttpException
                                  "Payment verified, but failed to update booking/slot status in database. Please contact support immediately."
                                  HttpStatus.INTERNAL_SERVER_ERROR))
              end
        end
    end.

(** ** [PaymentService.createPayment] *)

Definition SendMail (stationName email : string) (amount : float) (paymentID : string)
  : Prog (bool * string) :=
  let SENDER_EMAIL := config_SENDER_EMAIL env in
  let mailOptions :=
    MailOptions.mk SENDER_EMAIL email
      "A payment has been done to book an advertisement slot in your booking app."
      ("<p>" +:+ stationName +:+ " received " +:+ Number_toString env amount
       +:+ " from the payment id:" +:+ paymentID +:+ " </p>") in
  try_catch
    (_ ← await (transporter_sendMail mailOptions);
     Return (true, "Mail Sent to " +:+ email))
    (fun error =>
       Throw (HttpException ("Error sending email: " +:+ error_message error) 500)).

(** The [catch] of [createPayment]: what was thrown inside the [try] is
    turned into an [HttpException]. *)
Definition createPayment_catch {A} (error : Exception) : Prog A :=
  let fallback :=
    Throw (HttpException
             (or_else (error_message error)
                "Failed to create payment order due to an unexpected error.")
             HttpStatus.INTERNAL_SERVER_ERROR) in
  match error with
  | PrismaClientKnownRequestError e =>
      if String.eqb (PrismaError.code e) "P2002"
      then Throw (HttpException ("Database constraint violation: " +:+ PrismaError.target e)
                    HttpStatus.CONFLICT)
      else Throw (HttpException ("Database error: " +:+ PrismaError.message e)
                    HttpStatus.INTERNAL_SERVER_ERROR)
  | RazorpayRejection e =>
      match RazorpayError.statusCode e, RazorpayError.error e with
      | Some statusCode, Some err =>
          if (statusCode =? 0)%Z then fallback
          else if String.eqb (RazorpayError.code err) "BAD_REQUEST_ERROR"
          then Throw (HttpException
                        ("Payment gateway validation error: "
                         +:+ or_else (RazorpayError.description err) "Invalid input.")
                        HttpStatus.BAD_REQUEST)
          else Throw (HttpException
                        ("Razorpay Error: "
                         +:+ or_else (RazorpayError.description err) "Unknown Razorpay Error"
                         +:+ " (Code: " +:+ or_else (RazorpayError.code err) "N/A" +:+ ")")
                        statusCode)
      | _, _ => fallback
      end
  | _ => fallback
  end.

(** [amountInRupees] has the type [number], so the [typeof] test of the first
    guard never fires and the guard is [amountInRupees <= 0]. *)
Definition createPayment (bookingId userId : string) (amountInRupees : float)
  (transactionId : string) : Prog CreatePaymentResult.t :=
  if PrimFloat.leb amountInRupees 0
  then Throw (HttpException "Invalid payment amount provided." HttpStatus.BAD_REQUEST)
  else
    let amountPaise := Math_round (amountInRupees * 100)%float in
    if PrimFloat.leb amountPaise 0
    then Throw (HttpException "Amount must be positive." HttpStatus.BAD_REQUEST)
    else
      found ← await (prisma (booking_findUnique_select bookingId));
      match found with
      | None => Throw (HttpException "Booking not found." HttpStatus.NOT_FOUND)
      | Some booking =>
          if negb (bool_decide (BookingWithStation.bookingStatus booking
                                = BookingStatus.PENDING))
          then Throw (HttpException
                        ("Booking status ("
                         +:+ BookingStatus.to_string (BookingWithStation.bookingStatus booking)
                         +:+ ") does not allow payment.")
                        HttpStatus.BAD_REQUEST)
          else
            let shortRandom := randomBytes4_hex env in
            let receiptId := slice0 40 ("rcpt_" +:+ bookingId +:+ "_" +:+ shortRandom) in
            let options :=
              OrderOptions.mk amountPaise "INR" receiptId
                (OrderOptions.mkNotes bookingId userId transactionId (Date_toISOString env)) in
            try_catch
              (order ← await (razorpay_orders_create options);
               payment ← await (prisma (payment_create
                                          (PaymentCreateInput.mk bookingId userId amountPaise
                                             (Order.currency order) PaymentStatus.PENDING
                                             (Order.id order) transactionId)));
               _ ← SendMail (RadioStation.stationName (BookingWithStation.station booking))
                     (RadioStation.contactEmail (BookingWithStation.station booking))
                     (Payment.amountInPaise (snd payment) / 100)%float
                     (fst payment);
               Return (CreatePaymentResult.mk (fst payment) (Order.id order)
                         (Order.amount order) (Order.currency order)))
              createPayment_catch
      end.

(** ** [AdvertisementSlotService.remove] *)

Definition remove (id : string) : Prog (string * (string * AdvertisementSlot.t)) :=
  slotExists ← await (prisma (advertisementSlot_findUnique id));
  match slotExists with
  | None =>
      Throw (NotFoundException
               ("Advertisement Slot with ID " +:+ dquote +:+ id +:+ dquote +:+ " not found."))
  | Some _ =>
      relatedBookingsCount ← await (prisma (booking_count_slotId id));
      if (0 <? relatedBookingsCount)%nat
      then Throw (ConflictException
                    ("Cannot delete this slot. It has "
                     +:+ Number_toString env (Z_to_float (Z.of_nat relatedBookingsCount))
                     +:+ " associated booking(s). Please cancel or reassign the bookings first."))
      else
        try_catch
          (deletedSlot ← await (prisma (advertisementSlot_delete id));
           Return ("Slot " +:+ id +:+ " deleted successfully.", deletedSlot))
          (fun error =>
             match error with
             | PrismaClientKnownRequestError e =>
                 if String.eqb (PrismaError.code e) "P2014"
                 then Throw (ConflictException
                               ("Deletion conflict: Slot " +:+ id
                                +:+ " might still have associated bookings. Please refresh."))
                 else Throw (InternalServerErrorException
                               ("Could not delete slot " +:+ id
                                +:+ " due to an internal error."))
             | _ => Throw (InternalServerErrorException
                             ("Could not delete slot " +:+ id
                              +:+ " due to an internal error."))
             end)
  end.

(** ** [createBooking] *)

(** Modelled from the spec: the error mapping of [createBooking], whose
    service is not among the sources.  The store's refusal of a second
    booking of the slot (P2002) is reported as [Conflict]; anything else is
    thrown on. *)
Definition createBooking_catch {A} (error : Exception) : Prog A :=
  match error with
  | PrismaClientKnownRequestError e =>
      if String.eqb (PrismaError.code e) "P2002"
      then Throw (ConflictException "Slot already has a booking.")
      else Throw error
  | _ => Throw error
  end.

(** Modelled from the spec: the last step of [createBooking].  A missing
    slot, station or RJ is [NotFound]; otherwise the booking is inserted,
    with no check of an existing booking before the insert. *)
Definition createBooking_insert (d : BookingCreateInput.t) (slot station rj : option string)
  : Prog (string * Booking.t) :=
  match slot, station, rj with
  | Some _, Some _, Some _ =>
      try_catch (await (prisma (booking_create d))) createBooking_catch
  | _, _, _ => Throw (NotFoundException "Slot, station or RJ not found.")
  end.

(** Modelled from the spec: [createBooking] of the booking service, which is
    not among the sources (only the schema's [Booking] model and the DTO
    are).  The spec, section 4.1: the slot, the station and the RJ are looked
    up and a missing one is [NotFound]; the booking is then inserted with the
    status PENDING; the store refuses a second booking of the slot, which is
    reported as [Conflict]; there is no existence check before the insert and
    the slot's status is not touched. *)
Definition createBooking (d : BookingCreateInput.t) : Prog (string * Booking.t) :=
  slot ← await (prisma (advertisementSlot_findUnique (BookingCreateInput.slotId d)));
  station ← await (prisma (radioStation_findUnique (BookingCreateInput.stationId d)));
  rj ← await (prisma (rJ_findUnique (BookingCreateInput.rjId d)));
  createBooking_insert d slot station rj.

(** Modelled from the spec: where a [createBooking] request whose lookups
    succeed can be, before its first, second or third lookup, or before its
    insert. *)
Definition createBooking_at (d : BookingCreateInput.t) (n : nat)
  : Prog (string * Booking.t) :=
  match n with
  | 0 => createBooking d
  | 1 =>
      station ← await (prisma (radioStation_findUnique (BookingCreateInput.stationId d)));
      rj ← await (prisma (rJ_findUnique (BookingCreateInput.rjId d)));
      createBooking_insert d (Some (BookingCreateInput.slotId d)) station rj
  | 2 =>
      rj ← await (prisma (rJ_findUnique (BookingCreateInput.rjId d)));
      createBooking_insert d (Some (BookingCreateInput.slotId d))
        (Some (BookingCreateInput.stationId d)) rj
  | _ =>
      createBooking_insert d (Some (BookingCreateInput.slotId d))
        (Some (BookingCreateInput.stationId d)) (Some (BookingCreateInput.rjId d))
  end.

(** ** Vocabulary of the properties *)

(** The request carries its four details: it passes the first guard. *)
Definition details_present (paymentId : string) (body : CompleteBody.t) : bool :=
  negb (falsy paymentId || falsy (CompleteBody.razorpayOrderId body)
        || falsy (CompleteBody.razorpayPaymentId body)
        || falsy (CompleteBody.razorpaySignature body)).

(** The payment is in the store and its booking is too, with a slot id: it
    passes the load. *)
Definition linked (s : Store) (paymentId : string) (p : Payment.t) (slotId : string) : Prop :=
  payments s !! paymentId = Some p
  /\ (exists b, bookings s !! Payment.bookingId p = Some b /\ Booking.slotId b = slotId)
  /\ falsy slotId = false.

(** The payment after a commit: COMPLETED, with the payment id and the
    signature of the request. *)
Definition completed_payment (body : CompleteBody.t) (p : Payment.t) : Payment.t :=
  Payment.mk (Payment.bookingId p) (Payment.userId p) (Payment.amountInPaise p)
    (Payment.currency p) PaymentStatus.COMPLETED (Payment.transactionId p)
    (Payment.paymentDate p) (Payment.razorpayOrderId p)
    (Some (CompleteBody.razorpayPaymentId body))
    (Some (CompleteBody.razorpaySignature body)).

(** The payment after a signature mismatch: FAILED, nothing else touched. *)
Definition failed_payment (p : Payment.t) : Payment.t :=
  Payment.mk (Payment.bookingId p) (Payment.userId p) (Payment.amountInPaise p)
    (Payment.currency p) PaymentStatus.FAILED (Payment.transactionId p)
    (Payment.paymentDate p) (Payment.razorpayOrderId p)
    (Payment.razorpayPaymentId p) (Payment.razorpaySignature p).

(** The slot after a commit: BOOKED, nothing else touched. *)
Definition booked_slot (x : AdvertisementSlot.t) : AdvertisementSlot.t :=
  AdvertisementSlot.mk (AdvertisementSlot.stationId x) (AdvertisementSlot.rjId x)
    (AdvertisementSlot.slotTime x) SlotStatus.BOOKED (AdvertisementSlot.price x).

(** The status of a payment in the store. *)
Definition status_of (s : Store) (paymentId : string) : option PaymentStatus.t :=
  Payment.paymentStatus <$> payments s !! paymentId.

(** The messages of the answers and of the errors of [completePayment]. *)
Definition msg_completed : string :=
  "Payment verified successfully. Slot booked. Awaiting admin approval for booking.".
Definition msg_already : string := "Payment already verified and completed.".
Definition err_missing : Exception :=
  HttpException "Missing required payment details for verification."
    HttpStatus.BAD_REQUEST.
Definition err_state (st : PaymentStatus.t) : Exception :=
  HttpException ("Payment cannot be completed in its current state: "
                 +:+ PaymentStatus.to_string st) HttpStatus.BAD_REQUEST.
Definition err_order : Exception :=
  HttpException "Order ID mismatch." HttpStatus.BAD_REQUEST.
Definition err_signature : Exception :=
  HttpException "Invalid payment signature." HttpStatus.BAD_REQUEST.
Definition err_commit : Exception :=
  HttpException
    "Payment verified, but failed to update booking/slot status in database. Please contact support immediately."
    HttpStatus.INTERNAL_SERVER_ERROR.

(** The writes of the commit of [completePayment]. *)
Definition commit_writes (paymentId : string) (body : CompleteBody.t) (slotId : string)
  : list Write :=
  [W_payment_update paymentId (commit_data body); W_slot_update slotId SlotStatus.BOOKED].

(** What a replay on a FAILED payment answers: the terminal-state guard when
    the request carries its details, the first guard when it does not. *)
Definition failed_answer (paymentId : string) (body : CompleteBody.t) : Exception :=
  if details_present paymentId body then err_state PaymentStatus.FAILED else err_missing.

(** The number of bookings that reference the slot: what [booking.count]
    answers. *)
Definition bookings_of (s : Store) (slotId : string) : nat :=
  map_count (fun _ b => String.eqb (Booking.slotId b) slotId) (bookings s).

(** No two bookings of the store reference the same slot. *)
Definition slot_unique (s : Store) : Prop :=
  forall i j bi bj,
    bookings s !! i = Some bi -> bookings s !! j = Some bj ->
    Booking.slotId bi = Booking.slotId bj -> i = j.

(** The slot, the station and the RJ a booking request names are in the
    store. *)
Definition refs_present (s : Store) (d : BookingCreateInput.t) : Prop :=
  is_Some (slots s !! BookingCreateInput.slotId d)
  /\ is_Some (stations s !! BookingCreateInput.stationId d)
  /\ is_Some (rjs s !! BookingCreateInput.rjId d).

(** The booking that [booking.create] inserts for a request. *)
Definition new_booking (now : string) (d : BookingCreateInput.t) : Booking.t :=
  Booking.mk (BookingCreateInput.userId d) (BookingCreateInput.stationId d)
    (BookingCreateInput.rjId d) (BookingCreateInput.slotId d) BookingStatus.PENDING now.

Definition err_slot_taken : Exception := ConflictException "Slot already has a booking.".

(** The request is over: it has returned or thrown. *)
Definition finished {A} (p : Prog A) : bool :=
  match p with
  | Await _ _ => false
  | _ => true
  end.

(** The payment is PENDING in the store: 1, or 0. *)
Definition pending (s : Store) (paymentId : string) : nat :=
  if bool_decide (status_of s paymentId = Some PaymentStatus.PENDING) then 1 else 0.

(** ** Requests one after another, and requests that overlap *)

(** [completePayment] calls that run one after another: each starts on the
    store the one before left. *)
Fixpoint run_calls (calls : list (string * CompleteBody.t)) (s : Store)
  : list (Run CompleteResult.t) :=
  match calls with
  | [] => []
  | (paymentId, body) :: rest =>
      let r := run (completePayment paymentId body) s in
      r :: run_calls rest (final r)
  end.

(** A request advances to its next [await]: the operation it waits for is
    executed on the store as it is now. *)
Definition step {A} (p : Prog A) (s : Store) : Prog A * Store * list Event :=
  match p with
  | Await op k => let '(r, s', ev) := op_exec op s in (k r, s', ev)
  | _ => (p, s, [])
  end.

(** Requests in flight take their steps in the order of [schedule], a list
    of request numbers. *)
Fixpoint run_schedule {A} (schedule : list nat) (reqs : list (Prog A)) (s : Store)
  (tr : list Event) : list (Prog A) * Store * list Event :=
  match schedule with
  | [] => (reqs, s, tr)
  | i :: rest =>
      match reqs !! i with
      | None => run_schedule rest reqs s tr
      | Some p =>
          let '(p', s', ev) := step p s in
          run_schedule rest (<[i := p']> reqs) s' (tr ++ ev)
      end
  end.

(** The states of two [createBooking] requests for one free slot, started on
    the store [s]: both still before their insert; one has inserted and the
    other is still before its insert; one has inserted and the other was
    refused. *)
Inductive race (s : Store) (d1 d2 : BookingCreateInput.t)
  : list (Prog (string * Booking.t)) -> Store -> Prop :=
| race_open a b :
    a <= 3 -> b <= 3 ->
    race s d1 d2 [createBooking_at d1 a; createBooking_at d2 b] s
| race_first b :
    b <= 3 ->
    race s d1 d2
      [Return (auto_ObjectId env s, new_booking (now env) d1); createBooking_at d2 b]
      (set_bookings (insert (auto_ObjectId env s) (new_booking (now env) d1)) s)
| race_second a :
    a <= 3 ->
    race s d1 d2
      [createBooking_at d1 a; Return (auto_ObjectId env s, new_booking (now env) d2)]
      (set_bookings (insert (auto_ObjectId env s) (new_booking (now env) d2)) s)
| race_first_only :
    race s d1 d2
      [Return (auto_ObjectId env s, new_booking (now env) d1); Throw err_slot_taken]
      (set_bookings (insert (auto_ObjectId env s) (new_booking (now env) d1)) s)
| race_second_only :
    race s d1 d2
      [Throw err_slot_taken; Return (auto_ObjectId env s, new_booking (now env) d2)]
      (set_bookings (insert (auto_ObjectId env s) (new_booking (now env) d2)) s).

End Services.

(** ** A concrete world, to evaluate the services on *)

Module Demo.

(** A stand-in for the HMAC: it only has to be a function of the key and the
    data. *)
Definition hmac (key data : string) : string := "sig[" +:+ key +:+ "/" +:+ data +:+ "]".

Definition env : Env :=
  mkEnv "secret" hmac "a1b2c3d4" "2025-01-01T00:00:00.000Z" (fun _ => "200")
    (fun o => inr (Order.mk "order_2" (OrderOptions.amount o) (OrderOptions.currency o)))
    (fun _ => None) "sender@example.com" (fun _ => "new1") "2025-01-01T00:00:00.000Z".

Definition station1 : RadioStation.t :=
  RadioStation.mk "Radio One" "Pune" "one@example.com" "000" None.

Definition rj1 : RJ.t := RJ.mk "st1" "Asha" "Morning Drive" "07:00-10:00".

Definition slot1 : AdvertisementSlot.t :=
  AdvertisementSlot.mk "st1" "rj1" "2025-02-01T10:00:00.000Z" SlotStatus.AVAILABLE 200%float.

Definition booking1 : Booking.t :=
  Booking.mk "u1" "st1" "rj1" "s1" BookingStatus.PENDING "2025-01-01T00:00:00.000Z".

Definition payment1 : Payment.t :=
  Payment.mk "b1" "u1" 20000%float "INR" PaymentStatus.PENDING "txn1"
    "2025-01-01T00:00:00.000Z" (Some "order_1") None None.

Definition store : Store :=
  mkStore {[ "u1" ]} {[ "st1" := station1 ]} {[ "rj1" := rj1 ]} {[ "s1" := slot1 ]}
    {[ "b1" := booking1 ]} {[ "p1" := payment1 ]}.

(** A callback with the right signature, and one whose payment id was
    tampered with after signing. *)
Definition good : CompleteBody.t :=
  CompleteBody.mk "order_1" "pay_1" (hmac "secret" "order_1|pay_1").

Definition tampered : CompleteBody.t :=
  CompleteBody.mk "order_1" "pay_X" (hmac "secret" "order_1|pay_1").

(** A callback for another order. *)
Definition wrong_order : CompleteBody.t :=
  CompleteBody.mk "order_9" "pay_1" (hmac "secret" "order_9|pay_1").

(** The payment and the store after the commit of [good], and after the
    mismatch of [tampered]. *)
Definition payment1_completed : Payment.t := completed_payment good payment1.

Definition store_completed : Store :=
  set_slots (insert "s1" (booked_slot slot1))
    (set_payments (insert "p1" payment1_completed) store).

Definition store_failed : Store :=
  set_payments (insert "p1" (failed_payment payment1)) store.

(** A second slot, that nobody has booked, and two users who ask for it. *)
Definition slot2 : AdvertisementSlot.t :=
  AdvertisementSlot.mk "st1" "rj1" "2025-02-01T11:00:00.000Z" SlotStatus.AVAILABLE 150%float.

Definition store2 : Store := set_slots (insert "s2" slot2) store.

Definition ask_u1 : BookingCreateInput.t := BookingCreateInput.mk "u1" "st1" "rj1" "s2".
Definition ask_u2 : BookingCreateInput.t := BookingCreateInput.mk "u2" "st1" "rj1" "s2".

(** The gateway's callback delivered twice, and a schedule in which both
    requests load the payment before either commits. *)
Definition duplicate_callbacks : list (Prog CompleteResult.t) :=
  [completePayment env "p1" good; completePayment env "p1" good].

Definition overlap : list nat := [0; 1; 0; 1].

End Demo.

(** * Further services and vocabulary *)

From Stdlib Require Import Sorting.Sorted.

(** ** Payments over time *)

(** What one request may do to the status of a payment: leave it, or take
    it from PENDING to COMPLETED or to FAILED. *)
Definition transition_ok (before after : option PaymentStatus.t) : Prop :=
  before = after
  \/ (before = Some PaymentStatus.PENDING
      /\ (after = Some PaymentStatus.COMPLETED \/ after = Some PaymentStatus.FAILED)).

(** Every BOOKED slot is the slot of the booking of a COMPLETED payment. *)
Definition booked_is_paid (s : Store) : Prop :=
  forall slotId x,
    slots s !! slotId = Some x ->
    AdvertisementSlot.availabilityStatus x = SlotStatus.BOOKED ->
    exists paymentId p b,
      payments s !! paymentId = Some p
      /\ Payment.paymentStatus p = PaymentStatus.COMPLETED
      /\ bookings s !! Payment.bookingId p = Some b
      /\ Booking.slotId b = slotId.

(** The store after [completePayment] calls that ran one after another. *)
Fixpoint after_calls (env : Env) (calls : list (string * CompleteBody.t)) (s : Store)
  : Store :=
  match calls with
  | [] => s
  | (paymentId, body) :: rest =>
      after_calls env rest (final (run env (completePayment env paymentId body) s))
  end.

(** ** [createPayment]: the pieces of a run *)

(** The exception that the [catch] of [createPayment] throws for what it
    caught. *)
Definition createPayment_error (error : Exception) : Exception :=
  match createPayment_catch (A := unit) error with
  | Throw e => e
  | _ => error
  end.

Section CreatePaymentPieces.

Context (env : Env).

(** The order [createPayment] asks the gateway for. *)
Definition order_options (bookingId userId : string) (amountInRupees : float)
  (transactionId : string) : OrderOptions.t :=
  OrderOptions.mk (Math_round (amountInRupees * 100)%float) "INR"
    (slice0 40 ("rcpt_" +:+ bookingId +:+ "_" +:+ randomBytes4_hex env))
    (OrderOptions.mkNotes bookingId userId transactionId (Date_toISOString env)).

(** The payment it asks the store to create for the order. *)
Definition payment_data (bookingId userId : string) (amountInRupees : float)
  (transactionId : string) (order : Order.t) : PaymentCreateInput.t :=
  PaymentCreateInput.mk bookingId userId (Math_round (amountInRupees * 100)%float)
    (Order.currency order) PaymentStatus.PENDING (Order.id order) transactionId.

(** The mail it sends to the station about the payment. *)
Definition payment_mail (station : RadioStation.t) (payment : string * Payment.t)
  : MailOptions.t :=
  MailOptions.mk (config_SENDER_EMAIL env) (RadioStation.contactEmail station)
    "A payment has been done to book an advertisement slot in your booking app."
    ("<p>" +:+ RadioStation.stationName station +:+ " received "
     +:+ Number_toString env (Payment.amountInPaise (snd payment) / 100)%float
     +:+ " from the payment id:" +:+ fst payment +:+ " </p>").

End CreatePaymentPieces.

(** The amount passes the two guards of [createPayment]. *)
Definition amount_accepted (amountInRupees : float) : bool :=
  negb (PrimFloat.leb amountInRupees 0)
  && negb (PrimFloat.leb (Math_round (amountInRupees * 100)%float) 0).

(** The payment that [payment.create] stores for the data. *)
Definition created_payment (now : string) (d : PaymentCreateInput.t) : Payment.t :=
  Payment.mk (PaymentCreateInput.booking_connect d) (PaymentCreateInput.user_connect d)
    (PaymentCreateInput.amountInPaise d) (PaymentCreateInput.currency d)
    (PaymentCreateInput.paymentStatus d) (PaymentCreateInput.transactionId d)
    now (Some (PaymentCreateInput.razorpayOrderId d)) None None.

(** The booking is in the store, PENDING, with its station. *)
Definition payable (s : Store) (bookingId : string) (station : RadioStation.t) : Prop :=
  exists b,
    bookings s !! bookingId = Some b
    /\ Booking.bookingStatus b = BookingStatus.PENDING
    /\ stations s !! Booking.stationId b = Some station.

(** The store has room for a payment of the booking under the order id: the
    next object id is free, the user exists, and no payment has the booking
    or the order id. *)
Definition payment_insertable (env : Env) (s : Store) (bookingId userId orderId : string)
  : Prop :=
  payments s !! auto_ObjectId env s = None
  /\ userId ∈ users s
  /\ forall k q, payments s !! k = Some q ->
                 Payment.bookingId q <> bookingId
                 /\ Payment.razorpayOrderId q <> Some orderId.

(** The shapes a trace of [createPayment] can have. *)
Inductive createPayment_trace : list Event -> Prop :=
| cpt_nothing : createPayment_trace []
| cpt_no_order o : createPayment_trace [EvOrderCreate o false]
| cpt_no_payment o d :
    createPayment_trace [EvOrderCreate o true; EvWrite [W_payment_create d] false]
| cpt_payment o d m ok :
    createPayment_trace
      [EvOrderCreate o true; EvWrite [W_payment_create d] true; EvSendMail m ok].

(** ** [PaymentController] *)

(** The body of [POST /payments]. *)
Module CreatePaymentBody.
Record t := mk { bookingId : string; amount : float; transactionId : string }.
End CreatePaymentBody.

(** The handlers of the controller: they check the body and hand it to the
    service.  The body has the types its handler declares; [usr_id] is the id
    of the user the guard has authenticated. *)
Module PaymentController.

Definition createPayment (env : Env) (body : CreatePaymentBody.t) (usr_id : string)
  : Prog CreatePaymentResult.t :=
  if PrimFloat.leb (CreatePaymentBody.amount body) 0
  then Throw (HttpException "Invalid amount: must be a positive number."
                HttpStatus.BAD_REQUEST)
  else if falsy (CreatePaymentBody.bookingId body)
  then Throw (HttpException "Invalid bookingId." HttpStatus.BAD_REQUEST)
  else if falsy (CreatePaymentBody.transactionId body)
  then Throw (HttpException "Invalid transactionId." HttpStatus.BAD_REQUEST)
  else createPayment env (CreatePaymentBody.bookingId body) usr_id
         (CreatePaymentBody.amount body) (CreatePaymentBody.transactionId body).

Definition completePayment (env : Env) (paymentId : string) (body : CompleteBody.t)
  : Prog CompleteResult.t :=
  if falsy (CompleteBody.razorpayOrderId body)
     || falsy (CompleteBody.razorpayPaymentId body)
     || falsy (CompleteBody.razorpaySignature body)
  then Throw (HttpException "Missing Razorpay payment details in request body."
                HttpStatus.BAD_REQUEST)
  else completePayment env paymentId body.

End PaymentController.

(** ** Reading lists from the store *)

(** What the list queries and the slot service need from outside the
    repository: the store's order on [DateTime] values, JavaScript's
    [new Date(x).toISOString()] ([None] when it throws a RangeError), the
    client's reading of a [DateTime] given as a string ([None] when it
    refuses the string), and [String.prototype.toUpperCase]. *)
Record Platform := mkPlatform {
  DateTime_leb : string -> string -> bool;
  Date_toISOString_of : string -> option string;
  DateTime_of_string : string -> option string;
  toUpperCase : string -> string
}.

(** [orderBy]: the documents in the order [leb]; which of two documents
    with equal keys comes first is not promised by the store and is not
    used by the properties. *)
Fixpoint insert_sorted {A} (leb : A -> A -> bool) (x : A) (l : list A) : list A :=
  match l with
  | [] => [x]
  | y :: l' => if leb x y then x :: l else y :: insert_sorted leb x l'
  end.

Definition sort_by {A} (leb : A -> A -> bool) (l : list A) : list A :=
  foldr (insert_sorted leb) [] l.

(** [Promise.all] of reads that may throw: the first that throws decides. *)
Fixpoint mapM_sum {A B} (f : A -> Exception + B) (l : list A) : Exception + list B :=
  match l with
  | [] => inr []
  | x :: l' =>
      match f x with
      | inl e => inl e
      | inr y =>
          match mapM_sum f l' with
          | inl e => inl e
          | inr ys => inr (y :: ys)
          end
      end
  end.

(** An element of the answer of [listPaymentsByUser]. *)
Module PaymentView.
Record t := mk {
  paymentId : string;
  bookingId : string;
  amount : float;
  currency : string;
  status : PaymentStatus.t;
  transactionId : string;
  paymentDate : string;
  razorpayOrderId : option string
}.
End PaymentView.

Section Listing.

Context (pf : Platform).

(** [include: { booking: { select: { id, slotId } } }] for one payment. *)
Definition payment_with_booking (s : Store) (kv : string * Payment.t)
  : Exception + PaymentWithBooking.t :=
  match bookings s !! Payment.bookingId kv.2 with
  | None => inl (inconsistent "booking")
  | Some b =>
      inr (PaymentWithBooking.mk kv.1 kv.2
             (Some (BookingRef.mk (Payment.bookingId kv.2) (Booking.slotId b))))
  end.

(** [where: { userId }, orderBy: { paymentDate: 'desc' }]: the payments of
    the user, newest first. *)
Definition user_rows (userId : string) (s : Store) : list (string * Payment.t) :=
  sort_by (fun a b => DateTime_leb pf (Payment.paymentDate b.2) (Payment.paymentDate a.2))
    (List.filter (fun kv => String.eqb (Payment.userId kv.2) userId)
       (map_to_list (payments s))).

(** [payment.findMany({ where: { userId }, orderBy: { paymentDate: 'desc' },
    include: ... })]. *)
Definition payment_findMany_userId (userId : string) (s : Store)
  : Exception + list PaymentWithBooking.t :=
  mapM_sum (payment_with_booking s) (user_rows userId s).

(** The projection of [listPaymentsByUser]: the amount goes back to rupees. *)
Definition payment_view (p : PaymentWithBooking.t) : PaymentView.t :=
  let row := PaymentWithBooking.payment p in
  PaymentView.mk (PaymentWithBooking.id p) (Payment.bookingId row)
    (Payment.amountInPaise row / 100)%float (Payment.currency row)
    (Payment.paymentStatus row) (Payment.transactionId row) (Payment.paymentDate row)
    (Payment.razorpayOrderId row).

(** [PaymentService.listPaymentsByUser]: it only reads, so it is a function
    of the store. *)
Definition listPaymentsByUser (userId : string) (s : Store)
  : Exception + list PaymentView.t :=
  match payment_findMany_userId userId s with
  | inl e => inl e
  | inr payments => inr (map payment_view payments)
  end.

End Listing.

(** The view of a stored payment. *)
Definition view_of (id : string) (p : Payment.t) : PaymentView.t :=
  PaymentView.mk id (Payment.bookingId p) (Payment.amountInPaise p / 100)%float
    (Payment.currency p) (Payment.paymentStatus p) (Payment.transactionId p)
    (Payment.paymentDate p) (Payment.razorpayOrderId p).

(** An order that is total and transitive, as the order of the store on
    dates is. *)
Definition total_order {A} (leb : A -> A -> bool) : Prop :=
  (forall a b, leb a b = true \/ leb b a = true)
  /\ (forall a b c, leb a b = true -> leb b c = true -> leb a c = true).

(** ** [AdvertisementSlotService]: the other methods *)

Definition BadRequestException (m : string) := HttpException m HttpStatus.BAD_REQUEST.

(** Modelled from the spec: [CreateSlotDto], whose file is not among the
    sources.  Its fields are the ones the service reads, which with the
    default status are the fields of a Slot in the data model of the spec:
    station, RJ, time and price. *)
Module CreateSlotDto.
Record t := mk { stationId : string; rjId : string; slotTime : string; price : float }.
End CreateSlotDto.

(** Modelled from the spec: [UpdateSlotDto], whose file is not among the
    sources: the fields of [CreateSlotDto], each of them optional. *)
Module UpdateSlotDto.
Record t := mk {
  stationId : option string;
  rjId : option string;
  slotTime : option string;
  price : option float
}.
End UpdateSlotDto.

(** [include: { station: true, rj: true }]. *)
Module SlotWithStationRj.
Record t := mk {
  id : string;
  slot : AdvertisementSlot.t;
  station : RadioStation.t;
  rj : RJ.t
}.
End SlotWithStationRj.

(** [include: { station: true, rj: true, booking: true }]. *)
Module SlotWithRelations.
Record t := mk {
  id : string;
  slot : AdvertisementSlot.t;
  station : RadioStation.t;
  rj : RJ.t;
  booking : option (string * Booking.t)
}.
End SlotWithRelations.

(** The name of a status, and the status a name stands for. *)
Definition SlotStatus_to_string (st : SlotStatus.t) : string :=
  match st with
  | SlotStatus.AVAILABLE => "AVAILABLE"
  | SlotStatus.BOOKED => "BOOKED"
  end.

Definition SlotStatus_of_string (v : string) : option SlotStatus.t :=
  if String.eqb v "AVAILABLE" then Some SlotStatus.AVAILABLE
  else if String.eqb v "BOOKED" then Some SlotStatus.BOOKED
  else None.

(** No two slots of the store have the same station, RJ and time. *)
Definition same_slot_key (x y : AdvertisementSlot.t) : Prop :=
  AdvertisementSlot.stationId x = AdvertisementSlot.stationId y
  /\ AdvertisementSlot.rjId x = AdvertisementSlot.rjId y
  /\ AdvertisementSlot.slotTime x = AdvertisementSlot.slotTime y.

Definition slot_keys_unique (s : Store) : Prop :=
  forall i j x y,
    slots s !! i = Some x -> slots s !! j = Some y -> same_slot_key x y -> i = j.

Module AdvertisementSlotService.

Section Methods.

Context (env : Env) (pf : Platform).

(** The booking of a slot: the relation is one to at most one, the booking
    is the one whose [slotId] is the slot. *)
Definition slot_booking (s : Store) (id : string) : option (string * Booking.t) :=
  List.find (fun kv => String.eqb (Booking.slotId kv.2) id) (map_to_list (bookings s)).

Definition with_station_rj (s : Store) (id : string) (x : AdvertisementSlot.t)
  : Exception + SlotWithStationRj.t :=
  match stations s !! AdvertisementSlot.stationId x with
  | None => inl (inconsistent "station")
  | Some st =>
      match rjs s !! AdvertisementSlot.rjId x with
      | None => inl (inconsistent "rj")
      | Some rj => inr (SlotWithStationRj.mk id x st rj)
      end
  end.

Definition with_relations (s : Store) (kv : string * AdvertisementSlot.t)
  : Exception + SlotWithRelations.t :=
  match with_station_rj s kv.1 kv.2 with
  | inl e => inl e
  | inr v =>
      inr (SlotWithRelations.mk kv.1 kv.2 (SlotWithStationRj.station v)
             (SlotWithStationRj.rj v) (slot_booking s kv.1))
  end.

(** [where] and [orderBy: { slotTime: 'asc' }]. *)
Definition slots_by_time (keep : AdvertisementSlot.t -> bool) (s : Store)
  : list (string * AdvertisementSlot.t) :=
  sort_by (fun a b => DateTime_leb pf (AdvertisementSlot.slotTime a.2)
                        (AdvertisementSlot.slotTime b.2))
    (List.filter (fun kv => keep kv.2) (map_to_list (slots s))).

Definition findAll (s : Store) : Exception + list SlotWithRelations.t :=
  mapM_sum (with_relations s) (slots_by_time (fun _ => true) s).

(** The status of the filter is upper-cased and given to the store, which
    refuses a name that is not a status. *)
Definition findAllAvailableSlotsWithFilter (availabilityStatus : option string) (s : Store)
  : Exception + list SlotWithRelations.t :=
  match availabilityStatus with
  | None => findAll s
  | Some v =>
      if falsy v then findAll s
      else
        match SlotStatus_of_string (toUpperCase pf v) with
        | None => inl (OtherError "Invalid value for argument `availabilityStatus`.")
        | Some st =>
            mapM_sum (with_relations s)
              (slots_by_time
                 (fun x => bool_decide (AdvertisementSlot.availabilityStatus x = st)) s)
        end
  end.

Definition findOne (id : string) (s : Store) : Exception + SlotWithRelations.t :=
  match slots s !! id with
  | None => inl (NotFoundException ("Slot with ID " +:+ dquote +:+ id +:+ dquote
                                    +:+ " not found."))
  | Some x => with_relations s (id, x)
  end.

(** [advertisementSlot.create]: the status takes its default; the slot is
    written when its station and RJ can be read back with it. *)
Definition slot_create_exec (data : CreateSlotDto.t) (s : Store)
  : (Exception + SlotWithStationRj.t) * Store :=
  let id := auto_ObjectId env s in
  if bool_decide (is_Some (slots s !! id)) then (inl (P2002 "_id"), s)
  else
    let x := AdvertisementSlot.mk (CreateSlotDto.stationId data) (CreateSlotDto.rjId data)
               (CreateSlotDto.slotTime data) SlotStatus.AVAILABLE
               (CreateSlotDto.price data) in
    match with_station_rj s id x with
    | inl e => (inl e, s)
    | inr v => (inr v, set_slots (insert id x) s)
    end.

(** The slot has the station, the RJ and the time. *)
Definition slot_at (stationId rjId slotTime : string) (x : AdvertisementSlot.t) : bool :=
  String.eqb (AdvertisementSlot.stationId x) stationId
  && String.eqb (AdvertisementSlot.rjId x) rjId
  && String.eqb (AdvertisementSlot.slotTime x) slotTime.

Definition create (data : CreateSlotDto.t) (s : Store)
  : (Exception + SlotWithStationRj.t) * Store :=
  match Date_toISOString_of pf (CreateSlotDto.slotTime data) with
  | None => (inl (OtherError "Invalid time value"), s)
  | Some slotTimeISOString =>
      let existingSlot :=
        map_any (fun _ x => slot_at (CreateSlotDto.stationId data) (CreateSlotDto.rjId data)
                              slotTimeISOString x) (slots s) in
      if existingSlot
      then (inl (BadRequestException
                   "A slot already exists for this station, RJ, and exact time."), s)
      else
        slot_create_exec
          (CreateSlotDto.mk (CreateSlotDto.stationId data) (CreateSlotDto.rjId data)
             slotTimeISOString (CreateSlotDto.price data)) s
  end.

(** [advertisementSlot.update]: the fields that are given are written; a
    time the client cannot read is refused. *)
Definition slot_update_exec (id : string) (data : UpdateSlotDto.t) (s : Store)
  : (Exception + SlotWithStationRj.t) * Store :=
  match slots s !! id with
  | None => (inl P2025, s)
  | Some x =>
      let time :=
        match UpdateSlotDto.slotTime data with
        | None => Some (AdvertisementSlot.slotTime x)
        | Some t => DateTime_of_string pf t
        end in
      match time with
      | None => (inl (OtherError "Invalid value for argument `slotTime`."), s)
      | Some slotTime =>
          let x' := AdvertisementSlot.mk
                      (default (AdvertisementSlot.stationId x) (UpdateSlotDto.stationId data))
                      (default (AdvertisementSlot.rjId x) (UpdateSlotDto.rjId data))
                      slotTime (AdvertisementSlot.availabilityStatus x)
                      (default (AdvertisementSlot.price x) (UpdateSlotDto.price data)) in
          match with_station_rj s id x' with
          | inl e => (inl e, s)
          | inr v => (inr v, set_slots (insert id x') s)
          end
      end
  end.

(** [Number(data.price)] is the price itself, the price being a number. *)
Definition update (id : string) (data : UpdateSlotDto.t) (s : Store)
  : (Exception + SlotWithStationRj.t) * Store :=
  match slots s !! id with
  | None => (inl (NotFoundException ("Slot with ID " +:+ dquote +:+ id +:+ dquote
                                     +:+ " not found.")), s)
  | Some _ =>
      let updatedData :=
        UpdateSlotDto.mk (UpdateSlotDto.stationId data) (UpdateSlotDto.rjId data)
          (UpdateSlotDto.slotTime data) (UpdateSlotDto.price data) in
      slot_update_exec id updatedData s
  end.

End Methods.

End AdvertisementSlotService.

(** ** A scenario for the further properties *)

Module Scenario.

(** A stand-in for the platform: dates are ISO-8601 texts in UTC, which
    sort as their instants do; a date without a time is midnight; upper
    case is that of the ASCII letters. *)
Definition upper (c : Ascii.ascii) : Ascii.ascii :=
  let n := Ascii.nat_of_ascii c in
  if Nat.leb 97 n && Nat.leb n 122 then Ascii.ascii_of_nat (n - 32) else c.

Fixpoint toUpperCase (s : string) : string :=
  match s with
  | EmptyString => EmptyString
  | String c s' => String (upper c) (toUpperCase s')
  end.

Definition iso_of (t : string) : option string :=
  if Nat.eqb (String.length t) 24 then Some t
  else if Nat.eqb (String.length t) 10 then Some (t +:+ "T00:00:00.000Z")
  else None.

Definition pf : Platform := mkPlatform String.leb iso_of iso_of toUpperCase.

(** A booking of the free slot of the demo, which has no payment yet. *)
Definition booking2 : Booking.t :=
  Booking.mk "u1" "st1" "rj1" "s2" BookingStatus.PENDING "2025-01-02T00:00:00.000Z".

Definition store3 : Store := set_bookings (insert "b2" booking2) Demo.store2.

(** The payment of 150 rupees that [createPayment] stores for it under the
    order of the demo's gateway, and the callback that completes it. *)
Definition order2 : Order.t := Order.mk "order_2" 15000%float "INR".

Definition payment2 : Payment.t :=
  Payment.mk "b2" "u1" 15000%float "INR" PaymentStatus.PENDING "txn2"
    "2025-01-01T00:00:00.000Z" (Some "order_2") None None.

(** The store when that payment has been made and completed some days
    later than the first payment of the demo was made. *)
Definition payment2_completed : Payment.t :=
  Payment.mk "b2" "u1" 15000%float "INR" PaymentStatus.COMPLETED "txn2"
    "2025-01-05T00:00:00.000Z" (Some "order_2") (Some "pay_2")
    (Some (Demo.hmac "secret" "order_2|pay_2")).

Definition store4 : Store := set_payments (insert "p2" payment2_completed) store3.

Definition callback2 : CompleteBody.t :=
  CompleteBody.mk "order_2" "pay_2" (Demo.hmac "secret" "order_2|pay_2").

(** The demo with the mail server down, and with a gateway that refuses
    every order as a bad request. *)
Definition env_mail_down : Env :=
  mkEnv "secret" Demo.hmac "a1b2c3d4" "2025-01-01T00:00:00.000Z" (fun _ => "150")
    (fun o => inr (Order.mk "order_2" (OrderOptions.amount o) (OrderOptions.currency o)))
    (fun _ => Some "connect ECONNREFUSED") "sender@example.com" (fun _ => "new1")
    "2025-01-01T00:00:00.000Z".

Definition refusal : RazorpayError.t :=
  RazorpayError.mk (Some 400%Z)
    (Some (RazorpayError.mkBody "BAD_REQUEST_ERROR" "The amount must be an integer."
             "amount"))
    "Bad Request".

Definition env_gateway_down : Env :=
  mkEnv "secret" Demo.hmac "a1b2c3d4" "2025-01-01T00:00:00.000Z" (fun _ => "150")
    (fun _ => inl refusal) (fun _ => None) "sender@example.com" (fun _ => "new1")
    "2025-01-01T00:00:00.000Z".

(** A FAILED payment met through the controller with an empty body. *)
Definition empty_body : CompleteBody.t := CompleteBody.mk EmptyString EmptyString EmptyString.

(** A request for a payment of nothing. *)
Definition nothing : CreatePaymentBody.t := CreatePaymentBody.mk "b2" 0.004%float "txn2".

(** A new slot on the first of March; one at the time of the first slot of
    the demo; and the update that moves the second slot to that time. *)
Definition march : CreateSlotDto.t := CreateSlotDto.mk "st1" "rj1" "2025-03-01" 300%float.

Definition march_slot : AdvertisementSlot.t :=
  AdvertisementSlot.mk "st1" "rj1" "2025-03-01T00:00:00.000Z" SlotStatus.AVAILABLE 300%float.

Definition again : CreateSlotDto.t :=
  CreateSlotDto.mk "st1" "rj1" "2025-02-01T10:00:00.000Z" 300%float.

Definition move : UpdateSlotDto.t :=
  UpdateSlotDto.mk None None (Some "2025-02-01T10:00:00.000Z") None.

End Scenario.

(** * Properties *)

(** ** Collections *)

Lemma map_any_false {V} (f : string -> V -> bool) (m : gmap string V) :
  map_any f m = false <-> forall k v, m !! k = Some v -> f k v = false.
Proof.
  unfold map_any. split.
  - intros H k v Hk.
    destruct (f k v) eqn:E; [|done].
    assert (existsb (fun kv => f kv.1 kv.2) (map_to_list m) = true) as Ht; [|congruence].
    apply existsb_exists. exists (k, v). split; [|done].
    apply list_elem_of_In, elem_of_map_to_list, Hk.
  - intros H. apply not_true_is_false. intros Ht.
    apply existsb_exists in Ht as ([k v] & Hin & Hf).
    apply list_elem_of_In, elem_of_map_to_list in Hin.
    simpl in Hf. rewrite (H k v Hin) in Hf. done.
Qed.

Lemma map_count_zero {V} (f : string -> V -> bool) (m : gmap string V) :
  map_count f m = 0 <-> forall k v, m !! k = Some v -> f k v = false.
Proof.
  unfold map_count. rewrite <- map_any_false. unfold map_any.
  induction (map_to_list m) as [|[k v] l IH]; simpl; [done|].
  destruct (f k v); simpl; [split; discriminate | exact IH].
Qed.

(** ** Rounding *)

Lemma round_half_up_nearest num den :
  (0 < den)%Z ->
  (2 * den * round_half_up num den - den <= 2 * num
   /\ 2 * num < 2 * den * round_half_up num den + den)%Z.
Proof.
  intros Hden. unfold round_half_up.
  pose proof (Z.div_mod (2 * num + den) (2 * den) ltac:(lia)) as Hdm.
  pose proof (Z.mod_pos_bound (2 * num + den) (2 * den) ltac:(lia)) as Hb.
  set (q := ((2 * num + den) / (2 * den))%Z) in *.
  set (r := ((2 * num + den) mod (2 * den))%Z) in *.
  nia.
Qed.

(** ** [Math.round] on binary64 numbers *)

Section BinaryRounding.

Local Open Scope Z_scope.

Lemma digits2_pos_bounds p :
  2 ^ (Z.pos (digits2_pos p) - 1) <= Z.pos p < 2 ^ Z.pos (digits2_pos p).
Proof.
  induction p as [p IH|p IH|]; cbn [digits2_pos]; [| |by vm_compute].
  - rewrite Pos2Z.inj_succ.
    replace (Z.succ (Z.pos (digits2_pos p)) - 1) with (Z.succ (Z.pos (digits2_pos p) - 1))
      by lia.
    rewrite !Z.pow_succ_r by lia. lia.
  - rewrite Pos2Z.inj_succ.
    replace (Z.succ (Z.pos (digits2_pos p)) - 1) with (Z.succ (Z.pos (digits2_pos p) - 1))
      by lia.
    rewrite !Z.pow_succ_r by lia. lia.
Qed.

Lemma digits2_pos_le p k :
  0 <= k -> Z.pos p < 2 ^ k -> Z.pos (digits2_pos p) <= k.
Proof.
  intros Hk Hp. destruct (digits2_pos_bounds p) as [Hlo _].
  destruct (Z.le_gt_cases (Z.pos (digits2_pos p)) k) as [H|H]; [done|].
  assert (2 ^ k <= 2 ^ (Z.pos (digits2_pos p) - 1)) by (apply Z.pow_le_mono_r; lia).
  lia.
Qed.

Lemma digits2_pos_iter p k :
  digits2_pos (Pos.iter xO p k) = (digits2_pos p + k)%positive.
Proof.
  induction k as [|k IH] using Pos.peano_ind.
  - cbn. lia.
  - rewrite Pos.iter_succ. cbn [digits2_pos]. rewrite IH. lia.
Qed.

Lemma binary_round_aux_exact sx mz ez :
  Z.pos (digits2_pos mz) = 53 -> -1074 <= ez <= 971 ->
  binary_round_aux prec emax sx (Z.pos mz) ez loc_Exact = S754_finite sx mz ez.
Proof.
  intros Hd He. unfold binary_round_aux, shr_fexp. cbn [Zdigits2 shr_record_of_loc].
  assert (fexp prec emax (Z.pos (digits2_pos mz) + ez) - ez = 0) as ->.
  { rewrite Hd. unfold fexp, SpecFloat.emin, prec, emax. lia. }
  cbn [shr shr_m loc_of_shr_record round_nearest_even Zdigits2 shr_record_of_loc shr_r shr_s].
  assert (fexp prec emax (Z.pos (digits2_pos mz) + ez) - ez = 0) as ->.
  { rewrite Hd. unfold fexp, SpecFloat.emin, prec, emax. lia. }
  cbn [shr shr_m].
  assert ((ez <=? emax - prec) = true) as -> by (apply Z.leb_le; unfold prec, emax; lia).
  reflexivity.
Qed.

(** The binary64 number of a positive integer below [2^53]: the integer
    itself, with its mantissa shifted to 53 digits. *)
Lemma of_pos_spec p :
  Z.pos p < 2 ^ 53 ->
  exists m e,
    Prim2SF (of_uint63 (Uint63.of_Z (Z.pos p))) = S754_finite false m e
    /\ e <= 0 /\ Z.pos m = Z.pos p * 2 ^ (- e).
Proof.
  intros Hp. pose proof (digits2_pos_le p 53 ltac:(lia) Hp) as Hd.
  rewrite of_uint63_spec, Uint63.of_Z_spec.
  assert (2 ^ 53 < wB) as HwB by reflexivity.
  rewrite Z.mod_small by lia.
  cbn [binary_normalize]. unfold binary_round.
  assert (fexp prec emax (Z.pos (digits2_pos p) + 0) = Z.pos (digits2_pos p) - 53) as ->.
  { unfold fexp, SpecFloat.emin, prec, emax. lia. }
  unfold shl_align.
  destruct (Z.pos (digits2_pos p) - 53 - 0) as [|k|k] eqn:Hk; [|lia|].
  - exists p, 0. rewrite binary_round_aux_exact by lia. repeat split; lia.
  - exists (Pos.iter xO p k), (Z.pos (digits2_pos p) - 53).
    rewrite binary_round_aux_exact.
    + repeat split; [lia|].
      change (Pos.iter xO p k) with (shift_pos k p). rewrite shift_pos_correct.
      change (Z.pow_pos 2 k) with (2 ^ Z.pos k).
      replace (- (Z.pos (digits2_pos p) - 53)) with (Z.pos k) by lia. lia.
    + rewrite digits2_pos_iter. lia.
    + lia.
Qed.

Lemma finite_bounds x s m e :
  Prim2SF x = S754_finite s m e -> Z.pos m < 2 ^ 53.
Proof.
  intros Hx. pose proof (Prim2SF_valid x) as Hv. rewrite Hx in Hv.
  cbn in Hv. unfold bounded, canonical_mantissa in Hv.
  apply andb_true_iff in Hv as [Hc _]. apply Z.eqb_eq in Hc.
  unfold fexp, SpecFloat.emin, prec, emax in Hc.
  destruct (digits2_pos_bounds m) as [_ Hhi].
  assert (2 ^ Z.pos (digits2_pos m) <= 2 ^ 53) by (apply Z.pow_le_mono_r; lia).
  lia.
Qed.

Lemma exact_value_finite x s m e k :
  Prim2SF x = S754_finite s m e -> e <= 0 ->
  (if s then Z.neg m else Z.pos m) = k * 2 ^ (- e) ->
  is_integer x k = true.
Proof.
  intros Hx He Hm. unfold is_integer, exact_value. rewrite Hx.
  destruct (0 <=? e) eqn:E; apply Z.eqb_eq.
  - apply Z.leb_le in E. assert (e = 0) as -> by lia. cbn in Hm |- *. lia.
  - done.
Qed.

(** [Z_to_float] is exact below [2^53], and keeps the sign. *)
Lemma Z_to_float_spec n :
  - 2 ^ 53 < n < 2 ^ 53 ->
  is_integer (Z_to_float n) n = true
  /\ PrimFloat.leb (Z_to_float n) 0 = (n <=? 0).
Proof.
  intros Hn. destruct n as [|p|p].
  - by vm_compute.
  - destruct (of_pos_spec p ltac:(lia)) as (m & e & Hx & He & Hm).
    change (Z_to_float (Z.pos p)) with (of_uint63 (of_Z (Z.pos p))). split.
    + by apply (exact_value_finite _ false m e).
    + by rewrite FloatAxioms.leb_spec, Hx.
  - destruct (of_pos_spec p ltac:(lia)) as (m & e & Hx & He & Hm).
    change (Z_to_float (Z.neg p)) with (PrimFloat.opp (of_uint63 (of_Z (Z.pos p)))).
    assert (Prim2SF (PrimFloat.opp (of_uint63 (of_Z (Z.pos p)))) = S754_finite true m e) as Hx'
        by (by rewrite FloatAxioms.opp_spec, Hx).
    split.
    + apply (exact_value_finite _ true m e); [done..|]. lia.
    + by rewrite FloatAxioms.leb_spec, Hx'.
Qed.

(** [Math.round] of a finite number is the integer nearest to its exact
    value, a tie going up; it is positive exactly when that integer is. *)
Lemma Math_round_spec x num den :
  exact_value x = Some (num, den) ->
  exists n,
    is_integer (Math_round x) n = true
    /\ nearest_half_up num den n
    /\ PrimFloat.leb (Math_round x) 0 = (n <=? 0).
Proof.
  unfold exact_value, Math_round.
  destruct (Prim2SF x) as [s| | |s m e] eqn:Hx; [|done..|].
  - intros [= <- <-]. exists 0. unfold is_integer, exact_value. rewrite FloatAxioms.leb_spec, Hx.
    by repeat split.
  - pose proof (finite_bounds x s m e Hx) as Hm.
    destruct (0 <=? e) eqn:He.
    + intros [= <- <-]. apply Z.leb_le in He.
      exists ((if s then Z.neg m else Z.pos m) * 2 ^ e). split; [|split].
      * unfold is_integer, exact_value. rewrite Hx.
        rewrite (proj2 (Z.leb_le 0 e) He). apply Z.eqb_eq. lia.
      * unfold nearest_half_up. lia.
      * rewrite FloatAxioms.leb_spec, Hx.
        assert (0 < 2 ^ e) by (apply Z.pow_pos_nonneg; lia).
        destruct s; cbn; symmetry; [apply Z.leb_le|apply Z.leb_gt]; nia.
    + intros [= <- <-]. apply Z.leb_gt in He.
      set (sm := if s then Z.neg m else Z.pos m).
      set (den := 2 ^ (- e)).
      assert (2 <= den) as Hden.
      { unfold den. change 2 with (2 ^ 1) at 1. apply Z.pow_le_mono_r; lia. }
      pose proof (round_half_up_nearest sm den ltac:(lia)) as Hn.
      set (n := round_half_up sm den) in *.
      assert (- 2 ^ 53 < n < 2 ^ 53) as Hb by (unfold sm in *; destruct s; nia).
      exists n. split; [|split; [exact Hn|]].
      * destruct ((n =? 0) && s) eqn:E; [|by apply Z_to_float_spec].
        apply andb_true_iff in E as [E _]. apply Z.eqb_eq in E. by rewrite E.
      * destruct ((n =? 0) && s) eqn:E; [|by apply Z_to_float_spec].
        apply andb_true_iff in E as [E _]. apply Z.eqb_eq in E. by rewrite E.
Qed.

Lemma exact_value_den_pos x num den : exact_value x = Some (num, den) -> 0 < den.
Proof.
  unfold exact_value. destruct (Prim2SF x) as [s| | |s m e]; [|done..|].
  - intros [= <- <-]. lia.
  - destruct (0 <=? e) eqn:He; intros [= <- <-]; [lia|].
    apply Z.leb_gt in He. apply Z.pow_pos_nonneg; lia.
Qed.

End BinaryRounding.

(** ** [completePayment], one request *)

Section CompletePayment.

Context (env : Env).

Lemma details_absent paymentId body :
  details_present paymentId body = false ->
  completePayment env paymentId body = Throw err_missing.
Proof.
  unfold details_present, completePayment. intros H.
  apply negb_false_iff in H. by rewrite H.
Qed.

(** Every path of [completePayment] that stops before the signature check
    leaves the store and the trace as they were. *)
Lemma completePayment_missing s paymentId body :
  details_present paymentId body = false ->
  run env (completePayment env paymentId body) s = mkRun (inl err_missing) s [].
Proof. intros H. by rewrite details_absent. Qed.

Lemma completePayment_not_found s paymentId body :
  details_present paymentId body = true ->
  payments s !! paymentId = None ->
  run env (completePayment env paymentId body) s
  = mkRun (inl (HttpException "Payment record not found." HttpStatus.NOT_FOUND)) s [].
Proof.
  intros Hd Hp. unfold details_present in Hd. apply negb_true_iff in Hd.
  unfold run, completePayment. rewrite Hd. cbn.
  unfold payment_findUnique_exec. by rewrite Hp.
Qed.

Lemma completePayment_dangling s paymentId body p :
  details_present paymentId body = true ->
  payments s !! paymentId = Some p ->
  bookings s !! Payment.bookingId p = None ->
  run env (completePayment env paymentId body) s
  = mkRun (inl (inconsistent "booking")) s [].
Proof.
  intros Hd Hp Hb. unfold details_present in Hd. apply negb_true_iff in Hd.
  unfold run, completePayment. rewrite Hd. cbn.
  unfold payment_findUnique_exec. by rewrite Hp, Hb.
Qed.

Lemma completePayment_unlinked s paymentId body p b :
  details_present paymentId body = true ->
  payments s !! paymentId = Some p ->
  bookings s !! Payment.bookingId p = Some b ->
  falsy (Booking.slotId b) = true ->
  run env (completePayment env paymentId body) s
  = mkRun (inl (HttpException "Associated booking or slot not found for this payment."
                  HttpStatus.INTERNAL_SERVER_ERROR)) s [].
Proof.
  intros Hd Hp Hb Hf. unfold details_present in Hd. apply negb_true_iff in Hd.
  unfold run, completePayment. rewrite Hd. cbn.
  unfold payment_findUnique_exec. rewrite Hp, Hb. cbn. by rewrite Hf.
Qed.

Ltac load Hd Hp Hb Hs Hf :=
  unfold details_present in Hd; apply negb_true_iff in Hd;
  unfold run, completePayment; rewrite Hd; cbn;
  unfold payment_findUnique_exec; rewrite Hp; cbn; rewrite Hb; cbn;
  rewrite Hs, Hf; cbn.

Ltac status_pending Hst :=
  rewrite Hst;
  change (bool_decide (PaymentStatus.PENDING = PaymentStatus.COMPLETED)) with false;
  change (bool_decide (PaymentStatus.PENDING = PaymentStatus.PENDING)) with true;
  cbn.

Lemma completePayment_completed s paymentId body p slotId :
  details_present paymentId body = true ->
  linked s paymentId p slotId ->
  Payment.paymentStatus p = PaymentStatus.COMPLETED ->
  run env (completePayment env paymentId body) s
  = mkRun (inr (CompleteResult.mk msg_already (Payment.bookingId p) slotId)) s [].
Proof.
  intros Hd (Hp & (b & Hb & Hs) & Hf) Hst.
  load Hd Hp Hb Hs Hf. by rewrite Hst.
Qed.

Lemma completePayment_failed s paymentId body p slotId :
  details_present paymentId body = true ->
  linked s paymentId p slotId ->
  Payment.paymentStatus p = PaymentStatus.FAILED ->
  run env (completePayment env paymentId body) s
  = mkRun (inl (err_state PaymentStatus.FAILED)) s [].
Proof.
  intros Hd (Hp & (b & Hb & Hs) & Hf) Hst.
  load Hd Hp Hb Hs Hf. by rewrite Hst.
Qed.

Lemma completePayment_order_mismatch s paymentId body p slotId :
  details_present paymentId body = true ->
  linked s paymentId p slotId ->
  Payment.paymentStatus p = PaymentStatus.PENDING ->
  Payment.razorpayOrderId p <> Some (CompleteBody.razorpayOrderId body) ->
  run env (completePayment env paymentId body) s = mkRun (inl err_order) s [].
Proof.
  intros Hd (Hp & (b & Hb & Hs) & Hf) Hst Ho.
  load Hd Hp Hb Hs Hf. status_pending Hst.
  destruct (Payment.razorpayOrderId p) as [o|]; [|done].
  destruct (String.eqb_spec o (CompleteBody.razorpayOrderId body)); [congruence|done].
Qed.

Lemma completePayment_bad_signature s paymentId body p slotId :
  details_present paymentId body = true ->
  linked s paymentId p slotId ->
  Payment.paymentStatus p = PaymentStatus.PENDING ->
  Payment.razorpayOrderId p = Some (CompleteBody.razorpayOrderId body) ->
  generatedSignature env (CompleteBody.razorpayOrderId body)
    (CompleteBody.razorpayPaymentId body) <> CompleteBody.razorpaySignature body ->
  run env (completePayment env paymentId body) s
  = mkRun (inl err_signature)
      (set_payments (insert paymentId (failed_payment p)) s)
      [EvWrite [W_payment_update paymentId failed_data] true].
Proof.
  intros Hd (Hp & (b & Hb & Hs) & Hf) Hst Ho Hsig.
  load Hd Hp Hb Hs Hf. status_pending Hst. rewrite Ho. cbn.
  rewrite String.eqb_refl. cbn.
  destruct (String.eqb_spec
              (generatedSignature env (CompleteBody.razorpayOrderId body)
                 (CompleteBody.razorpayPaymentId body))
              (CompleteBody.razorpaySignature body)); [congruence|].
  cbn. unfold payment_update_exec. rewrite Hp. cbn. reflexivity.
Qed.

Lemma completePayment_commit s paymentId body p slotId :
  details_present paymentId body = true ->
  linked s paymentId p slotId ->
  Payment.paymentStatus p = PaymentStatus.PENDING ->
  Payment.razorpayOrderId p = Some (CompleteBody.razorpayOrderId body) ->
  generatedSignature env (CompleteBody.razorpayOrderId body)
    (CompleteBody.razorpayPaymentId body) = CompleteBody.razorpaySignature body ->
  run env (completePayment env paymentId body) s
  = match slots s !! slotId with
    | Some x =>
        if paymentId_taken s paymentId (CompleteBody.razorpayPaymentId body)
        then mkRun (inl err_commit) s [EvWrite (commit_writes paymentId body slotId) false]
        else mkRun (inr (CompleteResult.mk msg_completed (Payment.bookingId p) slotId))
               (set_slots (insert slotId (booked_slot x))
                  (set_payments (insert paymentId (completed_payment body p)) s))
               [EvWrite (commit_writes paymentId body slotId) true]
    | None => mkRun (inl err_commit) s [EvWrite (commit_writes paymentId body slotId) false]
    end.
Proof.
  intros Hd (Hp & (b & Hb & Hs) & Hf) Hst Ho Hsig.
  load Hd Hp Hb Hs Hf. status_pending Hst. rewrite Ho. cbn.
  rewrite String.eqb_refl, Hsig, String.eqb_refl. cbn.
  unfold payment_update_exec. rewrite Hp. cbn.
  destruct (paymentId_taken s paymentId (CompleteBody.razorpayPaymentId body)); cbn.
  - by destruct (slots s !! slotId).
  - unfold advertisementSlot_update_exec. cbn.
    by destruct (slots s !! slotId).
Qed.

End CompletePayment.

(** ** [completePayment]: one request and its replays *)

Section Replays.

Context (env : Env).

(** C10.  Once the payment is COMPLETED, [completePayment] answers success
    whatever order id, payment id and signature the request carries: the
    test of COMPLETED comes before the comparison of the order id and before
    the signature check.  The answer names the booking and the slot of the
    payment, the store is left as it was (so the external ids and the
    signature stay as first recorded) and nothing is written. *)
Theorem completed_short_circuit s paymentId body p slotId :
  details_present paymentId body = true ->
  linked s paymentId p slotId ->
  Payment.paymentStatus p = PaymentStatus.COMPLETED ->
  forall r, r = run env (completePayment env paymentId body) s ->
  result r = inr (CompleteResult.mk msg_already (Payment.bookingId p) slotId)
  /\ final r = s
  /\ trace r = []
  /\ payments (final r) !! paymentId = Some p.
Proof.
  intros Hd Hl Hst r ->.
  rewrite (completePayment_completed env s paymentId body p slotId Hd Hl Hst).
  cbn. repeat split. apply Hl.
Qed.

(** C8 (amended).  A request whose order id is not the one stored with the
    PENDING payment is refused with the message "Order ID mismatch." and the
    status 400 BAD_REQUEST, not 409; the store is left as it was and nothing
    is written. *)
Theorem order_mismatch_bad_request s paymentId body p slotId :
  details_present paymentId body = true ->
  linked s paymentId p slotId ->
  Payment.paymentStatus p = PaymentStatus.PENDING ->
  Payment.razorpayOrderId p <> Some (CompleteBody.razorpayOrderId body) ->
  forall r, r = run env (completePayment env paymentId body) s ->
  result r = inl (HttpException "Order ID mismatch." HttpStatus.BAD_REQUEST)
  /\ (forall e, result r = inl e -> http_status e = 400%Z)
  /\ final r = s
  /\ trace r = [].
Proof.
  intros Hd Hl Hst Ho r ->.
  rewrite (completePayment_order_mismatch env s paymentId body p slotId Hd Hl Hst Ho).
  cbn. repeat split. intros e [= <-]. reflexivity.
Qed.

(** C5.  For a PENDING payment whose stored order id is the one of the
    request, [completePayment] reaches the commit exactly when the signature
    of the request is the HMAC-SHA256, under the secret, of the stored order
    id, a bar and the payment id of the request. *)
Theorem signature_gate s paymentId body p slotId storedOrderId :
  details_present paymentId body = true ->
  linked s paymentId p slotId ->
  Payment.paymentStatus p = PaymentStatus.PENDING ->
  Payment.razorpayOrderId p = Some storedOrderId ->
  storedOrderId = CompleteBody.razorpayOrderId body ->
  existsb (commit_attempt paymentId)
    (trace (run env (completePayment env paymentId body) s)) = true
  <-> CompleteBody.razorpaySignature body
      = createHmac_sha256_hex env (RAZORPAY_KEYSECRET env)
          (storedOrderId +:+ "|" +:+ CompleteBody.razorpayPaymentId body).
Proof.
  intros Hd Hl Hst Ho ->.
  fold (generatedSignature env (CompleteBody.razorpayOrderId body)
          (CompleteBody.razorpayPaymentId body)).
  destruct (decide (generatedSignature env (CompleteBody.razorpayOrderId body)
                      (CompleteBody.razorpayPaymentId body)
                    = CompleteBody.razorpaySignature body)) as [Heq|Hne].
  - rewrite (completePayment_commit env s paymentId body p slotId Hd Hl Hst Ho Heq).
    split; [done|]. intros _.
    assert (commit_attempt paymentId
              (EvWrite (commit_writes paymentId body slotId) false) = true
            /\ commit_attempt paymentId
                 (EvWrite (commit_writes paymentId body slotId) true) = true) as [Ha Hb].
    { cbn. rewrite String.eqb_refl. done. }
    destruct (slots s !! slotId);
      [destruct (paymentId_taken s paymentId (CompleteBody.razorpayPaymentId body))|];
      cbn [trace existsb]; rewrite ?Ha, ?Hb; done.
  - rewrite (completePayment_bad_signature env s paymentId body p slotId Hd Hl Hst Ho Hne).
    cbn. split; [done|]. intros E. by destruct Hne.
Qed.

(** C4.  When the signature check passes on a PENDING payment, the commit is
    all or nothing.  All: the payment becomes COMPLETED with the payment id
    and the signature of the request, its slot becomes BOOKED, and every
    other document, the booking and its status among them, is as before.
    Nothing: the store is as before and the request fails with the 500 of
    the commit.  The commit is applied when the slot exists and the payment
    id is not already on another payment. *)
Theorem commit_frame s paymentId body p slotId :
  details_present paymentId body = true ->
  linked s paymentId p slotId ->
  Payment.paymentStatus p = PaymentStatus.PENDING ->
  Payment.razorpayOrderId p = Some (CompleteBody.razorpayOrderId body) ->
  generatedSignature env (CompleteBody.razorpayOrderId body)
    (CompleteBody.razorpayPaymentId body) = CompleteBody.razorpaySignature body ->
  forall r, r = run env (completePayment env paymentId body) s ->
  match slots s !! slotId, paymentId_taken s paymentId (CompleteBody.razorpayPaymentId body) with
  | Some x, false =>
      result r = inr (CompleteResult.mk msg_completed (Payment.bookingId p) slotId)
      /\ payments (final r) = <[paymentId := completed_payment body p]> (payments s)
      /\ slots (final r) = <[slotId := booked_slot x]> (slots s)
      /\ bookings (final r) = bookings s
      /\ users (final r) = users s
      /\ stations (final r) = stations s
      /\ rjs (final r) = rjs s
      /\ trace r = [EvWrite (commit_writes paymentId body slotId) true]
  | _, _ =>
      result r = inl err_commit
      /\ final r = s
      /\ trace r = [EvWrite (commit_writes paymentId body slotId) false]
  end.
Proof.
  intros Hd Hl Hst Ho Hsig r ->.
  rewrite (completePayment_commit env s paymentId body p slotId Hd Hl Hst Ho Hsig).
  destruct (slots s !! slotId);
    [destruct (paymentId_taken s paymentId (CompleteBody.razorpayPaymentId body))|];
    cbn; repeat split.
Qed.

Lemma linked_after_commit s paymentId body p slotId x :
  linked s paymentId p slotId ->
  linked (set_slots (insert slotId (booked_slot x))
            (set_payments (insert paymentId (completed_payment body p)) s))
    paymentId (completed_payment body p) slotId.
Proof.
  intros (Hp & Hb & Hf). repeat split; [|exact Hb|exact Hf].
  cbn. apply lookup_insert_eq.
Qed.

Lemma linked_after_failure s paymentId p slotId :
  linked s paymentId p slotId ->
  linked (set_payments (insert paymentId (failed_payment p)) s)
    paymentId (failed_payment p) slotId.
Proof.
  intros (Hp & Hb & Hf). repeat split; [|exact Hb|exact Hf].
  cbn. apply lookup_insert_eq.
Qed.

(** C1.  Two calls of [completePayment] with the same valid arguments on a
    PENDING payment whose slot is AVAILABLE: the first commits and the slot
    becomes BOOKED; the second sees COMPLETED, writes nothing and leaves the
    store as the first left it; the store applied one write of BOOKED to the
    slot in all; and both answers carry the same booking id and slot id
    (their messages differ). *)
Theorem completePayment_idempotent s paymentId body p slotId x :
  details_present paymentId body = true ->
  linked s paymentId p slotId ->
  Payment.paymentStatus p = PaymentStatus.PENDING ->
  Payment.razorpayOrderId p = Some (CompleteBody.razorpayOrderId body) ->
  generatedSignature env (CompleteBody.razorpayOrderId body)
    (CompleteBody.razorpayPaymentId body) = CompleteBody.razorpaySignature body ->
  slots s !! slotId = Some x ->
  AdvertisementSlot.availabilityStatus x = SlotStatus.AVAILABLE ->
  paymentId_taken s paymentId (CompleteBody.razorpayPaymentId body) = false ->
  forall first second,
    first = run env (completePayment env paymentId body) s ->
    second = run env (completePayment env paymentId body) (final first) ->
    result first = inr (CompleteResult.mk msg_completed (Payment.bookingId p) slotId)
    /\ result second = inr (CompleteResult.mk msg_already (Payment.bookingId p) slotId)
    /\ AdvertisementSlot.availabilityStatus <$> slots (final first) !! slotId
       = Some SlotStatus.BOOKED
    /\ status_of (final first) paymentId = Some PaymentStatus.COMPLETED
    /\ slot_bookings slotId (trace first ++ trace second) = 1
    /\ trace second = []
    /\ final second = final first.
Proof.
  intros Hd Hl Hst Ho Hsig Hx Hav Htaken first second -> ->.
  rewrite (completePayment_commit env s paymentId body p slotId Hd Hl Hst Ho Hsig).
  rewrite Hx, Htaken. cbn [final result trace].
  rewrite (completePayment_completed env _ paymentId body (completed_payment body p) slotId
             Hd (linked_after_commit s paymentId body p slotId x Hl) eq_refl).
  cbn [final result trace]. repeat split.
  - cbn. by rewrite lookup_insert_eq.
  - unfold status_of. cbn. by rewrite lookup_insert_eq.
  - cbn. by rewrite String.eqb_refl.
Qed.

Lemma replay_on_failed s paymentId p slotId bodies :
  linked s paymentId p slotId ->
  Payment.paymentStatus p = PaymentStatus.FAILED ->
  Forall2 (fun body r =>
             result r = inl (failed_answer paymentId body) /\ final r = s /\ trace r = [])
    bodies (run_calls env (map (pair paymentId) bodies) s).
Proof.
  intros Hl Hst. induction bodies as [|body bodies IH]; cbn; [constructor|].
  assert (run env (completePayment env paymentId body) s
          = mkRun (inl (failed_answer paymentId body)) s []) as ->.
  { unfold failed_answer. destruct (details_present paymentId body) eqn:Hd.
    - by apply (completePayment_failed env s paymentId body p slotId).
    - by apply completePayment_missing. }
  constructor; [done|]. exact IH.
Qed.

(** C3.  A signature that does not match marks the PENDING payment FAILED
    and fails with "Invalid payment signature.".  FAILED is terminal: every
    later call on the payment fails and writes nothing, the payment stays
    FAILED and its slot is not touched; a later call that carries its
    details, the right signature included, fails at the terminal-state
    guard. *)
Theorem invalid_signature_is_terminal s paymentId body p slotId :
  details_present paymentId body = true ->
  linked s paymentId p slotId ->
  Payment.paymentStatus p = PaymentStatus.PENDING ->
  Payment.razorpayOrderId p = Some (CompleteBody.razorpayOrderId body) ->
  generatedSignature env (CompleteBody.razorpayOrderId body)
    (CompleteBody.razorpayPaymentId body) <> CompleteBody.razorpaySignature body ->
  forall r, r = run env (completePayment env paymentId body) s ->
  result r = inl (HttpException "Invalid payment signature." HttpStatus.BAD_REQUEST)
  /\ status_of (final r) paymentId = Some PaymentStatus.FAILED
  /\ slots (final r) = slots s
  /\ forall later : list CompleteBody.t,
       Forall2 (fun body' r' =>
                  result r' = inl (failed_answer paymentId body')
                  /\ final r' = final r
                  /\ trace r' = [])
         later (run_calls env (map (pair paymentId) later) (final r)).
Proof.
  intros Hd Hl Hst Ho Hsig r ->.
  rewrite (completePayment_bad_signature env s paymentId body p slotId Hd Hl Hst Ho Hsig).
  cbn [final result trace]. repeat split.
  - unfold status_of. cbn. by rewrite lookup_insert_eq.
  - intros later.
    apply (replay_on_failed _ paymentId (failed_payment p) slotId); [|done].
    by apply linked_after_failure.
Qed.

End Replays.

(** ** [completePayment]: commits across requests *)

Section Commits.

Context (env : Env).

Lemma commits_app paymentId tr1 tr2 :
  commits paymentId (tr1 ++ tr2) = commits paymentId tr1 + commits paymentId tr2.
Proof. unfold commits. by rewrite List.filter_app, length_app. Qed.

Lemma pending_le_1 s paymentId : pending s paymentId <= 1.
Proof. unfold pending. case_bool_decide; lia. Qed.

Lemma pending_insert_other s id q paymentId :
  id <> paymentId ->
  pending (set_payments (insert id q) s) paymentId = pending s paymentId.
Proof.
  intros Hne. unfold pending, status_of. cbn. by rewrite lookup_insert_ne.
Qed.

Lemma pending_set_slots s f paymentId :
  pending (set_slots f s) paymentId = pending s paymentId.
Proof. reflexivity. Qed.

(** A request never raises the number of commits still possible for a
    payment: what it commits for the payment, it takes from [pending]. *)
Lemma call_spends_pending s id body paymentId :
  commits paymentId (trace (run env (completePayment env id body) s))
  + pending (final (run env (completePayment env id body) s)) paymentId
  <= pending s paymentId.
Proof.
  destruct (details_present id body) eqn:Hd;
    [|by rewrite completePayment_missing].
  destruct (payments s !! id) as [p|] eqn:Hp;
    [|by rewrite completePayment_not_found].
  destruct (bookings s !! Payment.bookingId p) as [b|] eqn:Hb;
    [|by rewrite (completePayment_dangling env s id body p)].
  destruct (falsy (Booking.slotId b)) eqn:Hf;
    [by rewrite (completePayment_unlinked env s id body p b)|].
  assert (linked s id p (Booking.slotId b)) as Hl by (repeat split; eauto).
  destruct (Payment.paymentStatus p) eqn:Hst; cycle 1.
  { by rewrite (completePayment_completed env s id body p _ Hd Hl Hst). }
  { by rewrite (completePayment_failed env s id body p _ Hd Hl Hst). }
  destruct (decide (Payment.razorpayOrderId p = Some (CompleteBody.razorpayOrderId body)))
    as [Ho|Ho]; cycle 1.
  { by rewrite (completePayment_order_mismatch env s id body p _ Hd Hl Hst Ho). }
  destruct (decide (generatedSignature env (CompleteBody.razorpayOrderId body)
                      (CompleteBody.razorpayPaymentId body)
                    = CompleteBody.razorpaySignature body)) as [Hsig|Hsig]; cycle 1.
  { rewrite (completePayment_bad_signature env s id body p _ Hd Hl Hst Ho Hsig).
    cbn [trace final]. cbn [commits List.filter commit_attempt andb length].
    destruct (decide (id = paymentId)) as [->|Hne].
    - unfold pending at 1, status_of. cbn. rewrite lookup_insert_eq. cbn.
      rewrite bool_decide_eq_false_2 by done. lia.
    - by rewrite pending_insert_other. }
  rewrite (completePayment_commit env s id body p _ Hd Hl Hst Ho Hsig).
  destruct (slots s !! Booking.slotId b) as [x|];
    [destruct (paymentId_taken s id (CompleteBody.razorpayPaymentId body))|];
    cbn [trace final]; try (cbn; rewrite andb_false_r; cbn; lia).
  rewrite pending_set_slots.
  destruct (decide (id = paymentId)) as [->|Hne].
  - unfold pending, status_of. cbn. rewrite lookup_insert_eq, Hp. cbn.
    rewrite Hst, String.eqb_refl.
    repeat case_bool_decide; try congruence; cbn; lia.
  - rewrite pending_insert_other by done.
    cbn. apply String.eqb_neq in Hne. rewrite Hne. cbn. lia.
Qed.

Lemma commits_sequential_le_pending calls s paymentId :
  commits paymentId (concat (trace <$> run_calls env calls s)) <= pending s paymentId.
Proof.
  revert s. induction calls as [|[id body] calls IH]; intros s; [cbn; lia|].
  cbn [run_calls]. rewrite fmap_cons. cbn [concat]. rewrite commits_app.
  pose proof (IH (final (run env (completePayment env id body) s))).
  pose proof (call_spends_pending s id body paymentId). lia.
Qed.

(** The commit is an update by id: the store applies it to the payment
    whatever its status is at that moment. *)
Lemma commit_ignores_status s paymentId body slotId p x :
  payments s !! paymentId = Some p ->
  slots s !! slotId = Some x ->
  paymentId_taken s paymentId (CompleteBody.razorpayPaymentId body) = false ->
  query_exec env
    (transaction2 (payment_update paymentId (commit_data body))
       (advertisementSlot_update slotId SlotStatus.BOOKED)) s
  = inr ((paymentId, completed_payment body p, (slotId, booked_slot x)),
         set_slots (insert slotId (booked_slot x))
           (set_payments (insert paymentId (completed_payment body p)) s)).
Proof.
  intros Hp Hx Ht. cbn. unfold payment_update_exec. rewrite Hp. cbn. rewrite Ht.
  unfold advertisementSlot_update_exec. cbn. by rewrite Hx.
Qed.

(** C2 (amended).  The commit of [completePayment] is an update by payment
    id that the store applies whatever the status of the payment is at that
    moment; the test of PENDING is made on the record loaded at the start of
    the request.  For requests that run one after another, from any store
    and for any payment, the store applies at most one commit of the
    COMPLETED/BOOKED pair. *)
Theorem commit_once_when_sequential :
  (forall s paymentId body slotId p x,
      payments s !! paymentId = Some p ->
      slots s !! slotId = Some x ->
      paymentId_taken s paymentId (CompleteBody.razorpayPaymentId body) = false ->
      is_inr (query_exec env
                (transaction2 (payment_update paymentId (commit_data body))
                   (advertisementSlot_update slotId SlotStatus.BOOKED)) s) = true)
  /\ (forall calls s paymentId,
         commits paymentId (concat (trace <$> run_calls env calls s)) <= 1).
Proof.
  split.
  - intros s paymentId body slotId p x Hp Hx Ht.
    by rewrite (commit_ignores_status s paymentId body slotId p x Hp Hx Ht).
  - intros calls s paymentId.
    pose proof (commits_sequential_le_pending calls s paymentId).
    pose proof (pending_le_1 s paymentId). lia.
Qed.

End Commits.

(** C2, as stated, fails.  The callback for the PENDING payment "p1" is
    delivered twice and both requests load the payment before either
    commits: both commits are applied and both requests answer success.  The
    commit is also applied to a payment that is COMPLETED at that moment. *)
Lemma overlapping_callbacks_commit_twice :
  (let '(reqs, s, tr) :=
     run_schedule Demo.env Demo.overlap Demo.duplicate_callbacks Demo.store [] in
   reqs = [Return (CompleteResult.mk msg_completed "b1" "s1");
           Return (CompleteResult.mk msg_completed "b1" "s1")]
   /\ commits "p1" tr = 2
   /\ ~ commits "p1" tr <= 1)
  /\ status_of Demo.store_completed "p1" = Some PaymentStatus.COMPLETED
  /\ is_inr (query_exec Demo.env
               (transaction2 (payment_update "p1" (commit_data Demo.good))
                  (advertisementSlot_update "s1" SlotStatus.BOOKED))
               Demo.store_completed) = true.
Proof.
  vm_compute. repeat split; try reflexivity. lia.
Qed.

(** ** [AdvertisementSlotService.remove] *)

Section Remove.

Context (env : Env).

Lemma remove_run s id :
  run env (remove env id) s
  = match slots s !! id with
    | None =>
        mkRun (inl (NotFoundException
                      ("Advertisement Slot with ID " +:+ dquote +:+ id +:+ dquote
                       +:+ " not found."))) s []
    | Some x =>
        if (0 <? bookings_of s id)%nat
        then mkRun (inl (ConflictException
                           ("Cannot delete this slot. It has "
                            +:+ Number_toString env (Z_to_float (Z.of_nat (bookings_of s id)))
                            +:+ " associated booking(s). Please cancel or reassign the bookings first.")))
               s []
        else mkRun (inr ("Slot " +:+ id +:+ " deleted successfully.", (id, x)))
               (set_slots (delete id) s) [EvWrite [W_slot_delete id] true]
    end.
Proof.
  unfold run, remove. cbn.
  destruct (slots s !! id) as [x|] eqn:Hx; cbn; [|done].
  fold (bookings_of s id).
  destruct (bookings_of s id); cbn; [|done].
  unfold advertisementSlot_delete_exec. by rewrite Hx.
Qed.

(** C9.  [remove] first looks the slot up and answers 404 when it is not
    there; it then counts the bookings that reference the slot, and a count
    above zero is refused with 409 and the store is left as it was, the slot
    in it; otherwise the slot is deleted.  So a slot that [remove] takes out
    of the store is the slot of the request and no booking references it. *)
Theorem remove_guard s id :
  forall r, r = run env (remove env id) s ->
  match slots s !! id with
  | None =>
      (exists m, result r = inl (HttpException m HttpStatus.NOT_FOUND))
      /\ final r = s /\ trace r = []
  | Some x =>
      if (0 <? bookings_of s id)%nat
      then (exists m, result r = inl (HttpException m HttpStatus.CONFLICT))
           /\ final r = s /\ trace r = [] /\ slots (final r) !! id = Some x
      else result r = inr ("Slot " +:+ id +:+ " deleted successfully.", (id, x))
           /\ final r = set_slots (delete id) s
           /\ trace r = [EvWrite [W_slot_delete id] true]
  end
  /\ (forall id' x',
         slots s !! id' = Some x' -> slots (final r) !! id' = None ->
         id' = id
         /\ bookings_of s id = 0
         /\ forall k b, bookings s !! k = Some b -> Booking.slotId b <> id).
Proof.
  intros r ->. rewrite remove_run. split.
  - destruct (slots s !! id) as [x|] eqn:Hx.
    + destruct (0 <? bookings_of s id)%nat; cbn; eauto 10.
    + cbn. eauto.
  - intros id' x' Hs Hn.
    destruct (slots s !! id) as [x|] eqn:Hx; cbn [final] in Hn; [|congruence].
    destruct (0 <? bookings_of s id)%nat eqn:Hc; cbn [final set_slots slots] in Hn;
      [congruence|].
    destruct (decide (id' = id)) as [->|Hne];
      [|rewrite lookup_delete_ne in Hn by done; congruence].
    apply Nat.ltb_ge in Hc.
    assert (bookings_of s id = 0) as H0 by lia.
    repeat split; [done|].
    intros k b Hk Heq.
    unfold bookings_of in H0.
    pose proof (proj1 (map_count_zero _ _) H0 k b Hk) as Hf. cbn in Hf.
    apply String.eqb_neq in Hf. done.
Qed.

End Remove.

(** ** [createPayment]: the amount *)

Section CreatePayment.

Context (env : Env).

Lemma run_from_trace {A} (p : Prog A) s tr :
  exists rest, trace (run_from env p s tr) = (tr ++ rest)%list.
Proof.
  revert s tr. induction p as [a|e|X op k IH]; intros s tr; cbn.
  - exists []. by rewrite app_nil_r.
  - exists []. by rewrite app_nil_r.
  - destruct (op_exec env op s) as [[r s'] ev].
    destruct (IH r s' (tr ++ ev)%list) as [rest ->].
    exists (ev ++ rest)%list. by rewrite app_assoc.
Qed.

(** What the two guards on the amount let through, in terms of the
    converted amount. *)
Lemma createPayment_guards :
  (forall s bookingId userId amountInRupees transactionId booking r,
      r = run env (createPayment env bookingId userId amountInRupees transactionId) s ->
      PrimFloat.leb amountInRupees 0 = false ->
      PrimFloat.leb (Math_round (amountInRupees * 100)%float) 0 = false ->
      booking_findUnique_exec bookingId s = inr (Some booking) ->
      BookingWithStation.bookingStatus booking = BookingStatus.PENDING ->
      exists options ok rest,
        trace r = EvOrderCreate options ok :: rest
        /\ OrderOptions.amount options = Math_round (amountInRupees * 100)%float)
  /\ (forall s bookingId userId amountInRupees transactionId r,
         r = run env (createPayment env bookingId userId amountInRupees transactionId) s ->
         PrimFloat.leb amountInRupees 0 = true
         \/ PrimFloat.leb (Math_round (amountInRupees * 100)%float) 0 = true ->
         result r = inl (HttpException
                           (if PrimFloat.leb amountInRupees 0
                            then "Invalid payment amount provided."
                            else "Amount must be positive.")
                           HttpStatus.BAD_REQUEST)
         /\ final r = s
         /\ trace r = []).
Proof.
  split.
  - intros s bookingId userId amountInRupees transactionId booking r -> H1 H2 Hb Hst.
    unfold run, createPayment. rewrite H1, H2. cbn. rewrite Hb. cbn.
    rewrite Hst. change (bool_decide (BookingStatus.PENDING = BookingStatus.PENDING)) with true.
    cbn.
    set (options := OrderOptions.mk _ _ _ _).
    destruct (orders_create env options) as [e|order].
    + match goal with
      | |- context [run_from env ?p ?s' ?tr] => destruct (run_from_trace p s' tr) as [rest ->]
      end.
      cbn. eauto.
    + match goal with
      | |- context [run_from env ?p ?s' ?tr] => destruct (run_from_trace p s' tr) as [rest ->]
      end.
      cbn. eauto.
  - intros s bookingId userId amountInRupees transactionId r -> H.
    unfold run, createPayment.
    destruct (PrimFloat.leb amountInRupees 0) eqn:H1; [done|].
    destruct H as [H|H]; [done|]. by rewrite H.
Qed.

(** C7.  [createPayment] converts the amount with [Math.round(amount * 100)]
    on binary64 numbers: the amount is multiplied by 100 as a binary64
    number, and the product is rounded to an integer.

    - [Math.round] gives the integer nearest to the exact value of the
      number it is given, a tie going up.
    - So, for an amount above zero whose binary64 product with 100 is a
      half or more, the amount of the order asked of the gateway is the
      integer nearest to that product, a tie going up, and it is positive.
    - An amount that is zero or negative, or whose binary64 product with
      100 is below a half, fails with 400 before anything else: no order is
      asked for, no payment is created, the store is as it was.
    - The binary64 product of 199.995 and 100 is 19999.5, which gives
      20000; the ties 0.5, 2.5 and -2.5 give 1, 3 and -2. *)
Theorem createPayment_amount :
  (forall x num den,
      exact_value x = Some (num, den) ->
      exists n, is_integer (Math_round x) n = true /\ nearest_half_up num den n)
  /\ (forall s bookingId userId amountInRupees transactionId booking num den r,
         r = run env (createPayment env bookingId userId amountInRupees transactionId) s ->
         PrimFloat.leb amountInRupees 0 = false ->
         exact_value (amountInRupees * 100)%float = Some (num, den) ->
         (den <= 2 * num)%Z ->
         booking_findUnique_exec bookingId s = inr (Some booking) ->
         BookingWithStation.bookingStatus booking = BookingStatus.PENDING ->
         exists options ok rest n,
           trace r = EvOrderCreate options ok :: rest
           /\ is_integer (OrderOptions.amount options) n = true
           /\ nearest_half_up num den n
           /\ (0 < n)%Z)
  /\ (forall s bookingId userId amountInRupees transactionId r,
         r = run env (createPayment env bookingId userId amountInRupees transactionId) s ->
         PrimFloat.leb amountInRupees 0 = true
         \/ (exists num den,
                exact_value (amountInRupees * 100)%float = Some (num, den)
                /\ (2 * num < den)%Z) ->
         result r = inl (HttpException
                           (if PrimFloat.leb amountInRupees 0
                            then "Invalid payment amount provided."
                            else "Amount must be positive.")
                           HttpStatus.BAD_REQUEST)
         /\ final r = s
         /\ trace r = [])
  /\ exact_value (199.995 * 100)%float = Some (39999 * 2 ^ 37, 2 ^ 38)%Z
  /\ Math_round (199.995 * 100)%float = 20000%float
  /\ Math_round 0.5%float = 1%float
  /\ Math_round 2.5%float = 3%float
  /\ Math_round (-2.5)%float = (-2)%float.
Proof.
  destruct createPayment_guards as [Hpass Hstop].
  split; [|split; [|split; [|by vm_compute]]].
  - intros x num den Hx. destruct (Math_round_spec x num den Hx) as (n & Hn & Hnear & _).
    eauto.
  - intros s bookingId userId amountInRupees transactionId booking num den r Hr H1 Hx Hhalf
      Hb Hst.
    destruct (Math_round_spec _ num den Hx) as (n & Hn & Hnear & Hleb).
    pose proof (exact_value_den_pos _ num den Hx) as Hden.
    assert (0 < n)%Z as Hpos by (destruct Hnear; nia).
    rewrite (proj2 (Z.leb_gt n 0) Hpos) in Hleb.
    destruct (Hpass s bookingId userId amountInRupees transactionId booking r Hr H1 Hleb Hb
                Hst) as (options & ok & rest & Htr & Hamount).
    exists options, ok, rest, n. rewrite Hamount. done.
  - intros s bookingId userId amountInRupees transactionId r Hr H.
    apply (Hstop s bookingId userId amountInRupees transactionId r Hr).
    destruct H as [H|(num & den & Hx & Hlow)]; [by left|right].
    destruct (Math_round_spec _ num den Hx) as (n & Hn & Hnear & Hleb).
    pose proof (exact_value_den_pos _ num den Hx) as Hden.
    rewrite Hleb. apply Z.leb_le. destruct Hnear. nia.
Qed.

End CreatePayment.

(** ** Bookings: one per slot *)

Section Bookings.

Context (env : Env).

Lemma booking_create_ok d s :
  bookings s !! auto_ObjectId env s = None ->
  bookings_of s (BookingCreateInput.slotId d) = 0 ->
  booking_create_exec env d s
  = inr ((auto_ObjectId env s, new_booking (now env) d),
         set_bookings (insert (auto_ObjectId env s) (new_booking (now env) d)) s).
Proof.
  intros Hid H0. unfold booking_create_exec. rewrite Hid.
  rewrite bool_decide_eq_false_2 by (intros [? ?]; done).
  unfold bookings_of in H0.
  pose proof (proj1 (map_count_zero _ _) H0) as H1.
  pose proof (proj2 (map_any_false _ _) H1) as H2. by rewrite H2.
Qed.

Lemma booking_create_taken d s :
  bookings_of s (BookingCreateInput.slotId d) <> 0 ->
  exists target, booking_create_exec env d s = inl (P2002 target).
Proof.
  intros H0. unfold booking_create_exec.
  case_bool_decide; [eauto|].
  destruct (map_any _ (bookings s)) eqn:E; [eauto|].
  destruct H0. apply map_count_zero. by apply map_any_false.
Qed.

Lemma booking_create_inv d s r s' :
  booking_create_exec env d s = inr (r, s') ->
  bookings s !! auto_ObjectId env s = None
  /\ (forall k b, bookings s !! k = Some b -> Booking.slotId b <> BookingCreateInput.slotId d)
  /\ s' = set_bookings (insert (auto_ObjectId env s) (new_booking (now env) d)) s.
Proof.
  unfold booking_create_exec. case_bool_decide as Hid; [done|].
  destruct (map_any _ (bookings s)) eqn:E; [done|]. intros [= <- <-].
  repeat split.
  - destruct (bookings s !! auto_ObjectId env s) eqn:E'; [|done].
    destruct Hid. eauto.
  - intros k b Hk Heq.
    pose proof (proj1 (map_any_false _ _) E k b Hk) as Hf. cbn in Hf.
    apply String.eqb_neq in Hf. done.
Qed.

Lemma slot_unique_insert s key b :
  slot_unique s ->
  (forall k b', bookings s !! k = Some b' -> Booking.slotId b' <> Booking.slotId b) ->
  slot_unique (set_bookings (insert key b) s).
Proof.
  intros Hu Hfree i j bi bj. cbn.
  destruct (decide (key = i)) as [Hi|Hi], (decide (key = j)) as [Hj|Hj];
    subst; rewrite ?lookup_insert_eq, ?lookup_insert_ne by done; [done|..].
  - intros [= <-] Hj' Heq. destruct (Hfree j bj Hj'). done.
  - intros Hi' [= <-] Heq. destruct (Hfree i bi Hi'). done.
  - apply Hu.
Qed.

(** Whatever query the store answers, it keeps the bookings one per slot. *)
Lemma query_exec_slot_unique {R} (q : Query R) s r s' :
  query_exec env q s = inr (r, s') -> slot_unique s -> slot_unique s'.
Proof.
  revert s r s'. induction q; intros s r s' Hq Hu; cbn in Hq.
  - destruct (payment_findUnique_exec id s); [done|]. by injection Hq as <- <-.
  - unfold payment_update_exec in Hq.
    destruct (payments s !! id); [|done].
    destruct (match PaymentUpdateInput.razorpayPaymentId data with
              | Some v => paymentId_taken s id v
              | None => false
              end); [done|].
    by injection Hq as <- <-.
  - unfold payment_create_exec in Hq.
    repeat (match type of Hq with
            | (if ?c then _ else _) = _ => destruct c; [done|]
            end).
    by injection Hq as <- <-.
  - by injection Hq as <- <-.
  - unfold advertisementSlot_update_exec in Hq.
    destruct (slots s !! id); [|done]. by injection Hq as <- <-.
  - unfold advertisementSlot_delete_exec in Hq.
    destruct (slots s !! id); [|done]. by injection Hq as <- <-.
  - by injection Hq as <- <-.
  - by injection Hq as <- <-.
  - destruct (booking_findUnique_exec id s); [done|]. by injection Hq as <- <-.
  - by injection Hq as <- <-.
  - apply booking_create_inv in Hq as (_ & Hfree & ->).
    apply slot_unique_insert; done.
  - destruct (query_exec env q1 s) as [|[x s1]] eqn:E1; [done|].
    destruct (query_exec env q2 s1) as [|[y s2]] eqn:E2; [done|].
    injection Hq as <- <-. eauto.
Qed.

Lemma op_exec_slot_unique {X} (op : Op X) s r s' ev :
  op_exec env op s = (r, s', ev) -> slot_unique s -> slot_unique s'.
Proof.
  destruct op; cbn.
  - destruct (query_exec env q s) as [e|[x s1]] eqn:E; intros [= <- <- <-]; [done|].
    by apply (query_exec_slot_unique q s x).
  - destruct (orders_create env options); by intros [= <- <- <-].
  - destruct (sendMail_error env mailOptions); by intros [= <- <- <-].
Qed.

Lemma step_slot_unique {A} (p : Prog A) s :
  slot_unique s -> slot_unique (step env p s).1.2.
Proof.
  destruct p; cbn; [done..|].
  destruct (op_exec env op s) as [[r s'] ev] eqn:E. cbn.
  by apply (op_exec_slot_unique op s r s' ev).
Qed.

Lemma run_schedule_slot_unique {A} schedule (reqs : list (Prog A)) s tr :
  slot_unique s -> slot_unique (run_schedule env schedule reqs s tr).1.2.
Proof.
  revert reqs s tr. induction schedule as [|i rest IH]; intros reqs s tr Hu; cbn; [done|].
  destruct (reqs !! i) as [p|]; [|by apply IH].
  pose proof (step_slot_unique p s Hu) as Hs.
  destruct (step env p s) as [[p' s'] ev]. by apply IH.
Qed.

(** *** Two requests for the same slot *)

Lemma refs_present_set_bookings s f d :
  refs_present s d -> refs_present (set_bookings f s) d.
Proof. done. Qed.

Lemma step_lookup s d n :
  refs_present s d -> n < 3 ->
  step env (createBooking_at d n) s = (createBooking_at d (S n), s, []).
Proof.
  intros ([x Hx] & [st Hst] & [rj Hrj]) Hn.
  destruct n as [|[|[|n]]]; [..|lia]; cbn; by rewrite ?Hx, ?Hst, ?Hrj.
Qed.

Lemma step_insert_free s d :
  bookings s !! auto_ObjectId env s = None ->
  bookings_of s (BookingCreateInput.slotId d) = 0 ->
  step env (createBooking_at d 3) s
  = (Return (auto_ObjectId env s, new_booking (now env) d),
     set_bookings (insert (auto_ObjectId env s) (new_booking (now env) d)) s,
     [EvWrite [W_booking_create d] true]).
Proof.
  intros Hid H0. cbn. by rewrite (booking_create_ok d s Hid H0).
Qed.

Lemma step_insert_taken s d :
  bookings_of s (BookingCreateInput.slotId d) <> 0 ->
  step env (createBooking_at d 3) s
  = (Throw err_slot_taken, s, [EvWrite [W_booking_create d] false]).
Proof.
  intros H0. cbn. by destruct (booking_create_taken d s H0) as [target ->].
Qed.

Lemma createBooking_at_unfinished d n : finished (createBooking_at d n) = false.
Proof. by destruct n as [|[|[|n]]]. Qed.

Arguments createBooking_at : simpl never.

Lemma bookings_of_after_insert s key d d' :
  BookingCreateInput.slotId d = BookingCreateInput.slotId d' ->
  bookings_of (set_bookings (insert key (new_booking (now env) d)) s)
    (BookingCreateInput.slotId d') <> 0.
Proof.
  intros Heq H0. unfold bookings_of in H0.
  pose proof (proj1 (map_count_zero _ _) H0 key (new_booking (now env) d)) as Hf.
  cbn in Hf. rewrite lookup_insert_eq in Hf. specialize (Hf eq_refl).
  apply String.eqb_neq in Hf. done.
Qed.

Lemma race_step s d1 d2 reqs s1 i p :
  refs_present s d1 -> refs_present s d2 ->
  BookingCreateInput.slotId d1 = BookingCreateInput.slotId d2 ->
  bookings s !! auto_ObjectId env s = None ->
  bookings_of s (BookingCreateInput.slotId d1) = 0 ->
  race env s d1 d2 reqs s1 ->
  reqs !! i = Some p ->
  race env s d1 d2 (<[i := (step env p s1).1.1]> reqs) (step env p s1).1.2.
Proof.
  intros R1 R2 Heq Hid H0 Hrace Hi.
  assert (bookings_of s (BookingCreateInput.slotId d2) = 0) as H0' by (by rewrite <- Heq).
  destruct Hrace as [a b Ha Hb|b Hb|a Ha| |];
    destruct i as [|[|i]]; cbn in Hi; try discriminate; injection Hi as <-.
  - destruct (decide (a = 3)) as [->|].
    + rewrite (step_insert_free s d1 Hid H0). cbn. by apply race_first.
    + rewrite (step_lookup s d1 a R1) by lia. cbn. apply race_open; lia.
  - destruct (decide (b = 3)) as [->|].
    + rewrite (step_insert_free s d2 Hid H0'). cbn. by apply race_second.
    + rewrite (step_lookup s d2 b R2) by lia. cbn. apply race_open; lia.
  - cbn. by apply race_first.
  - destruct (decide (b = 3)) as [->|].
    + rewrite step_insert_taken by (by apply bookings_of_after_insert).
      cbn. apply race_first_only.
    + rewrite step_lookup by (done || lia). cbn. apply race_first; lia.
  - destruct (decide (a = 3)) as [->|].
    + rewrite step_insert_taken by (by apply bookings_of_after_insert).
      cbn. apply race_second_only.
    + rewrite step_lookup by (done || lia). cbn. apply race_second; lia.
  - cbn. by apply race_second.
  - cbn. apply race_first_only.
  - cbn. apply race_first_only.
  - cbn. apply race_second_only.
  - cbn. apply race_second_only.
Qed.

Lemma race_schedule s d1 d2 schedule reqs s1 tr :
  refs_present s d1 -> refs_present s d2 ->
  BookingCreateInput.slotId d1 = BookingCreateInput.slotId d2 ->
  bookings s !! auto_ObjectId env s = None ->
  bookings_of s (BookingCreateInput.slotId d1) = 0 ->
  race env s d1 d2 reqs s1 ->
  race env s d1 d2 (run_schedule env schedule reqs s1 tr).1.1
    (run_schedule env schedule reqs s1 tr).1.2.
Proof.
  intros R1 R2 Heq Hid H0. revert reqs s1 tr.
  induction schedule as [|i rest IH]; intros reqs s1 tr Hrace; cbn; [done|].
  destruct (reqs !! i) as [p|] eqn:Hi; [|by apply IH].
  pose proof (race_step s d1 d2 reqs s1 i p R1 R2 Heq Hid H0 Hrace Hi) as Hnext.
  destruct (step env p s1) as [[p' s'] ev]. by apply IH.
Qed.

Lemma createBooking_free s d :
  refs_present s d ->
  bookings s !! auto_ObjectId env s = None ->
  bookings_of s (BookingCreateInput.slotId d) = 0 ->
  run env (createBooking d) s
  = mkRun (inr (auto_ObjectId env s, new_booking (now env) d))
      (set_bookings (insert (auto_ObjectId env s) (new_booking (now env) d)) s)
      [EvWrite [W_booking_create d] true].
Proof.
  intros ([x Hx] & [st Hst] & [rj Hrj]) Hid H0.
  unfold run, createBooking. cbn. rewrite Hx, Hst, Hrj. cbn.
  by rewrite (booking_create_ok d s Hid H0).
Qed.

Lemma createBooking_taken s d :
  refs_present s d ->
  bookings_of s (BookingCreateInput.slotId d) <> 0 ->
  run env (createBooking d) s
  = mkRun (inl err_slot_taken) s [EvWrite [W_booking_create d] false].
Proof.
  intros ([x Hx] & [st Hst] & [rj Hrj]) H0.
  unfold run, createBooking. cbn. rewrite Hx, Hst, Hrj. cbn.
  by destruct (booking_create_taken d s H0) as [target ->].
Qed.

(** C6.  At most one booking references a slot, and the store is what keeps
    it so.  [booking.create] inserts only when no booking references the
    slot.  Whatever requests run, and however their steps interleave, a
    store with one booking per slot at most stays so.  Of two
    [createBooking] requests for the same free slot, one after the other or
    interleaved in any order, one inserts its booking and the other is
    refused with 409 Conflict by the insert itself, no lookup of bookings
    coming before it. *)
Theorem one_booking_per_slot :
  (forall d s r s',
      booking_create_exec env d s = inr (r, s') ->
      forall k b, bookings s !! k = Some b ->
                  Booking.slotId b <> BookingCreateInput.slotId d)
  /\ (forall A schedule (reqs : list (Prog A)) s,
         slot_unique s -> slot_unique (run_schedule env schedule reqs s []).1.2)
  /\ (forall s d1 d2,
         refs_present s d1 -> refs_present s d2 ->
         BookingCreateInput.slotId d1 = BookingCreateInput.slotId d2 ->
         bookings s !! auto_ObjectId env s = None ->
         bookings_of s (BookingCreateInput.slotId d1) = 0 ->
         (forall first second,
             first = run env (createBooking d1) s ->
             second = run env (createBooking d2) (final first) ->
             result first = inr (auto_ObjectId env s, new_booking (now env) d1)
             /\ result second
                = inl (HttpException "Slot already has a booking." HttpStatus.CONFLICT)
             /\ final second = final first
             /\ trace second = [EvWrite [W_booking_create d2] false])
         /\ (forall schedule reqs s' tr,
                run_schedule env schedule [createBooking d1; createBooking d2] s []
                = (reqs, s', tr) ->
                forallb finished reqs = true ->
                (reqs = [Return (auto_ObjectId env s, new_booking (now env) d1);
                         Throw (HttpException "Slot already has a booking."
                                  HttpStatus.CONFLICT)]
                 /\ bookings s'
                    = <[auto_ObjectId env s := new_booking (now env) d1]> (bookings s))
                \/ (reqs = [Throw (HttpException "Slot already has a booking."
                                     HttpStatus.CONFLICT);
                            Return (auto_ObjectId env s, new_booking (now env) d2)]
                    /\ bookings s'
                       = <[auto_ObjectId env s := new_booking (now env) d2]> (bookings s)))).
Proof.
  split; [|split].
  - intros d s r s' H. by apply booking_create_inv in H as (_ & H & _).
  - intros A schedule reqs s Hu. by apply run_schedule_slot_unique.
  - intros s d1 d2 R1 R2 Heq Hid H0. split.
    + intros first second -> ->.
      rewrite (createBooking_free s d1 R1 Hid H0). cbn [final result trace].
      rewrite createBooking_taken;
        [done|by apply refs_present_set_bookings|by apply bookings_of_after_insert].
    + intros schedule reqs s' tr Hrun Hfin.
      pose proof (race_schedule s d1 d2 schedule [createBooking d1; createBooking d2] s []
                    R1 R2 Heq Hid H0 (race_open env s d1 d2 0 0 ltac:(lia) ltac:(lia))) as Hrace.
      rewrite Hrun in Hrace. cbn [fst snd] in Hrace.
      destruct Hrace as [a b Ha Hb|b Hb|a Ha| |]; cbn [forallb] in Hfin;
        rewrite ?createBooking_at_unfinished in Hfin; cbn in Hfin; try discriminate.
      * by left.
      * by right.
Qed.

End Bookings.

(** ** The properties on the concrete world *)

Lemma demo_linked : linked Demo.store "p1" Demo.payment1 "s1".
Proof. repeat split. exists Demo.booking1. by split. Defined.

Lemma demo_linked_completed :
  linked Demo.store_completed "p1" Demo.payment1_completed "s1".
Proof. repeat split. exists Demo.booking1. by split. Defined.

Lemma demo_refs_u1 : refs_present Demo.store2 Demo.ask_u1.
Proof. repeat split; eexists; reflexivity. Defined.

Lemma demo_refs_u2 : refs_present Demo.store2 Demo.ask_u2.
Proof. repeat split; eexists; reflexivity. Defined.

(** The duplicate callback of the demo: one commit, the same booking and
    slot in both answers. *)
Lemma completePayment_idempotent_witness :
  details_present "p1" Demo.good = true
  /\ linked Demo.store "p1" Demo.payment1 "s1"
  /\ Payment.paymentStatus Demo.payment1 = PaymentStatus.PENDING
  /\ slots Demo.store !! "s1" = Some Demo.slot1
  /\ AdvertisementSlot.availabilityStatus Demo.slot1 = SlotStatus.AVAILABLE
  /\ (let first := run Demo.env (completePayment Demo.env "p1" Demo.good) Demo.store in
      let second := run Demo.env (completePayment Demo.env "p1" Demo.good) (final first) in
      result first = inr (CompleteResult.mk msg_completed "b1" "s1")
      /\ result second = inr (CompleteResult.mk msg_already "b1" "s1")
      /\ AdvertisementSlot.availabilityStatus <$> slots (final first) !! "s1"
         = Some SlotStatus.BOOKED
      /\ status_of (final first) "p1" = Some PaymentStatus.COMPLETED
      /\ slot_bookings "s1" (trace first ++ trace second) = 1
      /\ trace second = []
      /\ final second = final first).
Proof.
  split; [reflexivity|]. split; [exact demo_linked|].
  split; [reflexivity|]. split; [reflexivity|]. split; [reflexivity|].
  exact (completePayment_idempotent Demo.env Demo.store "p1" Demo.good Demo.payment1 "s1"
           Demo.slot1 eq_refl demo_linked eq_refl eq_refl eq_refl eq_refl eq_refl eq_refl
           _ _ eq_refl eq_refl).
Defined.

Lemma commit_once_when_sequential_witness :
  is_inr (query_exec Demo.env
            (transaction2 (payment_update "p1" (commit_data Demo.good))
               (advertisementSlot_update "s1" SlotStatus.BOOKED))
            Demo.store_completed) = true
  /\ commits "p1"
       (concat (trace <$> run_calls Demo.env [("p1", Demo.good); ("p1", Demo.good)]
                            Demo.store)) <= 1.
Proof.
  split.
  - exact (proj1 (commit_once_when_sequential Demo.env) Demo.store_completed "p1" Demo.good
             "s1" Demo.payment1_completed (booked_slot Demo.slot1) eq_refl eq_refl eq_refl).
  - exact (proj2 (commit_once_when_sequential Demo.env)
             [("p1", Demo.good); ("p1", Demo.good)] Demo.store "p1").
Defined.

Lemma demo_tampered_mismatch :
  generatedSignature Demo.env (CompleteBody.razorpayOrderId Demo.tampered)
    (CompleteBody.razorpayPaymentId Demo.tampered)
  <> CompleteBody.razorpaySignature Demo.tampered.
Proof. vm_compute. discriminate. Defined.

(** The tampered callback of the demo, and then the genuine one and one
    without a signature. *)
Lemma invalid_signature_is_terminal_witness :
  details_present "p1" Demo.tampered = true
  /\ Payment.paymentStatus Demo.payment1 = PaymentStatus.PENDING
  /\ (let r := run Demo.env (completePayment Demo.env "p1" Demo.tampered) Demo.store in
      result r = inl (HttpException "Invalid payment signature." HttpStatus.BAD_REQUEST)
      /\ status_of (final r) "p1" = Some PaymentStatus.FAILED
      /\ slots (final r) = slots Demo.store
      /\ Forall2 (fun body' r' =>
                    result r' = inl (failed_answer "p1" body')
                    /\ final r' = final r
                    /\ trace r' = [])
           [Demo.good; CompleteBody.mk "order_1" "pay_1" EmptyString]
           (run_calls Demo.env
              (map (pair "p1") [Demo.good; CompleteBody.mk "order_1" "pay_1" EmptyString])
              (final r))).
Proof.
  split; [reflexivity|]. split; [reflexivity|].
  pose proof (invalid_signature_is_terminal Demo.env Demo.store "p1" Demo.tampered
                Demo.payment1 "s1" eq_refl demo_linked eq_refl eq_refl
                demo_tampered_mismatch _ eq_refl) as (H1 & H2 & H3 & H4).
  cbv zeta. split; [exact H1|]. split; [exact H2|]. split; [exact H3|].
  exact (H4 [Demo.good; CompleteBody.mk "order_1" "pay_1" EmptyString]).
Defined.

Lemma commit_frame_witness :
  details_present "p1" Demo.good = true
  /\ Payment.paymentStatus Demo.payment1 = PaymentStatus.PENDING
  /\ (let r := run Demo.env (completePayment Demo.env "p1" Demo.good) Demo.store in
      result r = inr (CompleteResult.mk msg_completed "b1" "s1")
      /\ payments (final r) = <[ "p1" := Demo.payment1_completed ]> (payments Demo.store)
      /\ slots (final r) = <[ "s1" := booked_slot Demo.slot1 ]> (slots Demo.store)
      /\ bookings (final r) = bookings Demo.store
      /\ users (final r) = users Demo.store
      /\ stations (final r) = stations Demo.store
      /\ rjs (final r) = rjs Demo.store
      /\ trace r = [EvWrite (commit_writes "p1" Demo.good "s1") true]).
Proof.
  split; [reflexivity|]. split; [reflexivity|].
  exact (commit_frame Demo.env Demo.store "p1" Demo.good Demo.payment1 "s1"
           eq_refl demo_linked eq_refl eq_refl eq_refl _ eq_refl).
Defined.

Lemma signature_gate_witness :
  details_present "p1" Demo.good = true
  /\ Payment.razorpayOrderId Demo.payment1 = Some "order_1"
  /\ (existsb (commit_attempt "p1")
        (trace (run Demo.env (completePayment Demo.env "p1" Demo.good) Demo.store)) = true
      <-> CompleteBody.razorpaySignature Demo.good
          = createHmac_sha256_hex Demo.env (RAZORPAY_KEYSECRET Demo.env)
              ("order_1" +:+ "|" +:+ CompleteBody.razorpayPaymentId Demo.good))
  /\ (existsb (commit_attempt "p1")
        (trace (run Demo.env (completePayment Demo.env "p1" Demo.tampered) Demo.store)) = true
      <-> CompleteBody.razorpaySignature Demo.tampered
          = createHmac_sha256_hex Demo.env (RAZORPAY_KEYSECRET Demo.env)
              ("order_1" +:+ "|" +:+ CompleteBody.razorpayPaymentId Demo.tampered)).
Proof.
  split; [reflexivity|]. split; [reflexivity|]. split.
  - exact (signature_gate Demo.env Demo.store "p1" Demo.good Demo.payment1 "s1" "order_1"
             eq_refl demo_linked eq_refl eq_refl eq_refl).
  - exact (signature_gate Demo.env Demo.store "p1" Demo.tampered Demo.payment1 "s1" "order_1"
             eq_refl demo_linked eq_refl eq_refl eq_refl).
Defined.

Lemma demo_wrong_order :
  Payment.razorpayOrderId Demo.payment1
  <> Some (CompleteBody.razorpayOrderId Demo.wrong_order).
Proof. vm_compute. discriminate. Defined.

Lemma order_mismatch_bad_request_witness :
  details_present "p1" Demo.wrong_order = true
  /\ Payment.paymentStatus Demo.payment1 = PaymentStatus.PENDING
  /\ (let r := run Demo.env (completePayment Demo.env "p1" Demo.wrong_order) Demo.store in
      result r = inl (HttpException "Order ID mismatch." HttpStatus.BAD_REQUEST)
      /\ (forall e, result r = inl e -> http_status e = 400%Z)
      /\ final r = Demo.store
      /\ trace r = []).
Proof.
  split; [reflexivity|]. split; [reflexivity|].
  exact (order_mismatch_bad_request Demo.env Demo.store "p1" Demo.wrong_order Demo.payment1
           "s1" eq_refl demo_linked eq_refl demo_wrong_order _ eq_refl).
Defined.

(** C8, as stated, fails.  The payment "p1" is PENDING with the order
    "order_1"; a callback for "order_9" is refused with the status 400, which
    is not 409 Conflict. *)
Lemma order_mismatch_is_not_conflict :
  Payment.paymentStatus Demo.payment1 = PaymentStatus.PENDING
  /\ Payment.razorpayOrderId Demo.payment1 = Some "order_1"
  /\ CompleteBody.razorpayOrderId Demo.wrong_order = "order_9"
  /\ exists e,
      result (run Demo.env (completePayment Demo.env "p1" Demo.wrong_order) Demo.store)
      = inl e
      /\ http_status e = HttpStatus.BAD_REQUEST
      /\ http_status e <> HttpStatus.CONFLICT.
Proof.
  repeat split.
  exists (HttpException "Order ID mismatch." HttpStatus.BAD_REQUEST).
  repeat split. vm_compute. discriminate.
Qed.

(** A replay with a wrong order id and a wrong signature on the completed
    payment of the demo. *)
Lemma completed_short_circuit_witness :
  details_present "p1" Demo.wrong_order = true
  /\ Payment.paymentStatus Demo.payment1_completed = PaymentStatus.COMPLETED
  /\ (let r := run Demo.env (completePayment Demo.env "p1" Demo.wrong_order)
                 Demo.store_completed in
      result r = inr (CompleteResult.mk msg_already "b1" "s1")
      /\ final r = Demo.store_completed
      /\ trace r = []
      /\ payments (final r) !! "p1" = Some Demo.payment1_completed).
Proof.
  split; [reflexivity|]. split; [reflexivity|].
  exact (completed_short_circuit Demo.env Demo.store_completed "p1" Demo.wrong_order
           Demo.payment1_completed "s1" eq_refl demo_linked_completed eq_refl _ eq_refl).
Defined.

(** The slot "s1" of the demo has a booking and stays; the slot "s2" has
    none and is deleted. *)
Lemma remove_guard_witness :
  (let r := run Demo.env (remove Demo.env "s1") Demo.store2 in
   (exists m, result r = inl (HttpException m HttpStatus.CONFLICT))
   /\ final r = Demo.store2 /\ trace r = []
   /\ slots (final r) !! "s1" = Some Demo.slot1)
  /\ (let r := run Demo.env (remove Demo.env "s2") Demo.store2 in
      result r = inr ("Slot " +:+ "s2" +:+ " deleted successfully.", ("s2", Demo.slot2))
      /\ final r = set_slots (delete "s2") Demo.store2
      /\ trace r = [EvWrite [W_slot_delete "s2"] true])
  /\ (slots Demo.store2 !! "s2" = Some Demo.slot2
      /\ slots (final (run Demo.env (remove Demo.env "s2") Demo.store2)) !! "s2" = None
      /\ bookings_of Demo.store2 "s2" = 0).
Proof.
  split; [|split].
  - exact (proj1 (remove_guard Demo.env Demo.store2 "s1" _ eq_refl)).
  - exact (proj1 (remove_guard Demo.env Demo.store2 "s2" _ eq_refl)).
  - split; [reflexivity|]. split; [reflexivity|].
    exact (proj1 (proj2 (proj2 (remove_guard Demo.env Demo.store2 "s2" _ eq_refl)
                           "s2" Demo.slot2 eq_refl eq_refl))).
Defined.

Lemma demo_booking_found :
  booking_findUnique_exec "b1" Demo.store
  = inr (Some (BookingWithStation.mk BookingStatus.PENDING Demo.station1)).
Proof. reflexivity. Defined.

(** Amounts of the demo: 0 and 0.004 are refused before anything is done;
    199.995 reaches the gateway as 20000, the integer nearest to the
    product 19999.5. *)
Lemma createPayment_amount_witness :
  PrimFloat.leb 0 0 = true
  /\ (let r := run Demo.env (createPayment Demo.env "b1" "u1" 0%float "txn2") Demo.store in
      result r = inl (HttpException "Invalid payment amount provided."
                        HttpStatus.BAD_REQUEST)
      /\ final r = Demo.store /\ trace r = [])
  /\ exact_value (0.004 * 100)%float = Some (7205759403792794, 2 ^ 54)%Z
  /\ (let r := run Demo.env (createPayment Demo.env "b1" "u1" 0.004%float "txn2")
                 Demo.store in
      result r = inl (HttpException "Amount must be positive." HttpStatus.BAD_REQUEST)
      /\ final r = Demo.store /\ trace r = [])
  /\ exact_value (199.995 * 100)%float = Some (39999 * 2 ^ 37, 2 ^ 38)%Z
  /\ (let r := run Demo.env (createPayment Demo.env "b1" "u1" 199.995%float "txn2")
                 Demo.store in
      exists options ok rest n,
        trace r = EvOrderCreate options ok :: rest
        /\ is_integer (OrderOptions.amount options) n = true
        /\ nearest_half_up (39999 * 2 ^ 37) (2 ^ 38) n
        /\ (0 < n)%Z).
Proof.
  pose proof (createPayment_amount Demo.env) as (_ & Hpass & Hstop & _).
  split; [reflexivity|]. split.
  { exact (Hstop Demo.store "b1" "u1" 0%float "txn2" _ eq_refl (or_introl eq_refl)). }
  split; [reflexivity|]. split.
  { refine (Hstop Demo.store "b1" "u1" 0.004%float "txn2" _ eq_refl
              (or_intror (ex_intro _ 7205759403792794%Z
                            (ex_intro _ (2 ^ 54)%Z (conj eq_refl _))))).
    reflexivity. }
  split; [reflexivity|].
  refine (Hpass Demo.store "b1" "u1" 199.995%float "txn2" _ (39999 * 2 ^ 37)%Z (2 ^ 38)%Z _
            eq_refl eq_refl eq_refl _ demo_booking_found eq_refl).
  vm_compute. discriminate.
Defined.

(** C7, as stated, fails for amounts: multiplying by 100 and rounding half
    up is not what the conversion does to every amount.  The decimal 1.005
    times 100 is 100.5, which rounds half up to 101; [createPayment] stores
    100, because the binary64 product is below 100.5.  The binary64 number
    0.015 times 100 is, exactly, below 1.5 and nearest to 1;
    [createPayment] stores 2, because the binary64 product is 1.5. *)
Lemma amount_times_100_is_not_rounded_half_up :
  round_half_up (1005 * 100) 1000 = 101%Z
  /\ Payment.amountInPaise
       <$> payments (final (run Demo.env (createPayment Demo.env "b2" "u1" 1.005%float "txn2")
                              Scenario.store3)) !! "new1"
     = Some 100%float
  /\ is_integer 100%float 100 = true
  /\ (exists num den,
         exact_value 0.015%float = Some (num, den)
         /\ nearest_half_up (100 * num) den 1)
  /\ Payment.amountInPaise
       <$> payments (final (run Demo.env (createPayment Demo.env "b2" "u1" 0.015%float "txn2")
                              Scenario.store3)) !! "new1"
     = Some 2%float
  /\ is_integer 2%float 2 = true.
Proof.
  split; [reflexivity|]. split; [reflexivity|]. split; [reflexivity|].
  split; [|split; reflexivity].
  exists 8646911284551352%Z, (2 ^ 59)%Z. split; [reflexivity|].
  unfold nearest_half_up. split; by vm_compute.
Qed.

(** Two users ask for the free slot "s2" of the demo, their steps
    alternating: the first to insert has the booking, the other has 409. *)
Lemma one_booking_per_slot_witness :
  refs_present Demo.store2 Demo.ask_u1
  /\ refs_present Demo.store2 Demo.ask_u2
  /\ bookings_of Demo.store2 "s2" = 0
  /\ (let first := run Demo.env (createBooking Demo.ask_u1) Demo.store2 in
      let second := run Demo.env (createBooking Demo.ask_u2) (final first) in
      result first = inr ("new1", new_booking (now Demo.env) Demo.ask_u1)
      /\ result second
         = inl (HttpException "Slot already has a booking." HttpStatus.CONFLICT)
      /\ final second = final first
      /\ trace second = [EvWrite [W_booking_create Demo.ask_u2] false])
  /\ (forall reqs s' tr,
         run_schedule Demo.env [0; 1; 0; 1; 0; 1; 1; 0]
           [createBooking Demo.ask_u1; createBooking Demo.ask_u2] Demo.store2 []
         = (reqs, s', tr) ->
         forallb finished reqs = true ->
         (reqs = [Return ("new1", new_booking (now Demo.env) Demo.ask_u1);
                  Throw (HttpException "Slot already has a booking." HttpStatus.CONFLICT)]
          /\ bookings s'
             = <[ "new1" := new_booking (now Demo.env) Demo.ask_u1 ]> (bookings Demo.store2))
         \/ (reqs = [Throw (HttpException "Slot already has a booking."
                              HttpStatus.CONFLICT);
                     Return ("new1", new_booking (now Demo.env) Demo.ask_u2)]
             /\ bookings s'
                = <[ "new1" := new_booking (now Demo.env) Demo.ask_u2 ]>
                    (bookings Demo.store2))).
Proof.
  pose proof (proj2 (proj2 (one_booking_per_slot Demo.env)) Demo.store2 Demo.ask_u1
                Demo.ask_u2 demo_refs_u1 demo_refs_u2 eq_refl eq_refl eq_refl) as [Hseq Hany].
  split; [exact demo_refs_u1|]. split; [exact demo_refs_u2|]. split; [reflexivity|].
  split.
  - exact (Hseq _ _ eq_refl eq_refl).
  - exact (Hany [0; 1; 0; 1; 0; 1; 1; 0]).
Defined.

(** * Further properties *)

(** ** [completePayment]: every path *)

Section Paths.

Context (env : Env).

(** The four ways a [completePayment] request ends: without a write; with
    the payment marked FAILED; with the commit applied; with the commit
    refused by the store. *)
Lemma completePayment_cases s id body :
  let r := run env (completePayment env id body) s in
  (final r = s /\ trace r = []
   /\ (forall p slotId,
          details_present id body = true -> linked s id p slotId ->
          Payment.paymentStatus p <> PaymentStatus.PENDING
          \/ Payment.razorpayOrderId p <> Some (CompleteBody.razorpayOrderId body)))
  \/ (exists p slotId,
         linked s id p slotId
         /\ Payment.paymentStatus p = PaymentStatus.PENDING
         /\ generatedSignature env (CompleteBody.razorpayOrderId body)
              (CompleteBody.razorpayPaymentId body) <> CompleteBody.razorpaySignature body
         /\ r = mkRun (inl err_signature)
                  (set_payments (insert id (failed_payment p)) s)
                  [EvWrite [W_payment_update id failed_data] true])
  \/ (exists p slotId x,
         linked s id p slotId
         /\ Payment.paymentStatus p = PaymentStatus.PENDING
         /\ generatedSignature env (CompleteBody.razorpayOrderId body)
              (CompleteBody.razorpayPaymentId body) = CompleteBody.razorpaySignature body
         /\ slots s !! slotId = Some x
         /\ r = mkRun (inr (CompleteResult.mk msg_completed (Payment.bookingId p) slotId))
                  (set_slots (insert slotId (booked_slot x))
                     (set_payments (insert id (completed_payment body p)) s))
                  [EvWrite (commit_writes id body slotId) true])
  \/ (exists slotId,
         r = mkRun (inl err_commit) s [EvWrite (commit_writes id body slotId) false]).
Proof.
  cbv zeta.
  destruct (details_present id body) eqn:Hd;
    [|left; rewrite completePayment_missing by done; by repeat split].
  destruct (payments s !! id) as [p|] eqn:Hp; cycle 1.
  { left. rewrite completePayment_not_found by done. repeat split.
    intros p slotId _ (Hp' & _). congruence. }
  destruct (bookings s !! Payment.bookingId p) as [b|] eqn:Hb; cycle 1.
  { left. rewrite (completePayment_dangling env s id body p) by done. repeat split.
    intros p' slotId _ (Hp' & (b' & Hb' & _) & _). congruence. }
  destruct (falsy (Booking.slotId b)) eqn:Hf.
  { left. rewrite (completePayment_unlinked env s id body p b) by done. repeat split.
    intros p' slotId _ (Hp' & (b' & Hb' & Hs') & Hf'). congruence. }
  assert (linked s id p (Booking.slotId b)) as Hl by (repeat split; eauto).
  assert (forall p' slotId',
             linked s id p' slotId' -> p' = p) as Hsame.
  { intros p' slotId' (Hp' & _). congruence. }
  destruct (Payment.paymentStatus p) eqn:Hst; cycle 1.
  { left. rewrite (completePayment_completed env s id body p _ Hd Hl Hst). repeat split.
    intros p' slotId' _ Hl'. left. rewrite (Hsame _ _ Hl'). congruence. }
  { left. rewrite (completePayment_failed env s id body p _ Hd Hl Hst). repeat split.
    intros p' slotId' _ Hl'. left. rewrite (Hsame _ _ Hl'). congruence. }
  destruct (decide (Payment.razorpayOrderId p = Some (CompleteBody.razorpayOrderId body)))
    as [Ho|Ho]; cycle 1.
  { left. rewrite (completePayment_order_mismatch env s id body p _ Hd Hl Hst Ho).
    repeat split. intros p' slotId' _ Hl'. right. by rewrite (Hsame _ _ Hl'). }
  destruct (decide (generatedSignature env (CompleteBody.razorpayOrderId body)
                      (CompleteBody.razorpayPaymentId body)
                    = CompleteBody.razorpaySignature body)) as [Hsig|Hsig]; cycle 1.
  { right; left. exists p, (Booking.slotId b).
    by rewrite (completePayment_bad_signature env s id body p _ Hd Hl Hst Ho Hsig). }
  rewrite (completePayment_commit env s id body p _ Hd Hl Hst Ho Hsig).
  destruct (slots s !! Booking.slotId b) as [x|] eqn:Hx;
    [destruct (paymentId_taken s id (CompleteBody.razorpayPaymentId body))|].
  - right; right; right. eauto.
  - right; right; left. exists p, (Booking.slotId b), x. by rewrite Hx.
  - right; right; right. eauto.
Qed.

Lemma transition_ok_trans a b c :
  transition_ok a b -> transition_ok b c -> transition_ok a c.
Proof.
  unfold transition_ok. intros [Hab|[Ha Hb]] [Hbc|[Hb' Hc]]; subst; eauto.
Qed.

Lemma completePayment_transition s id body paymentId :
  transition_ok (status_of s paymentId)
    (status_of (final (run env (completePayment env id body) s)) paymentId).
Proof.
  destruct (completePayment_cases s id body)
    as [(-> & _)|[(p & slotId & Hl & Hst & _ & ->)
                 |[(p & slotId & x & Hl & Hst & _ & _ & ->)|(slotId & ->)]]];
    cbn [final]; try (by left).
  - unfold status_of. cbn.
    destruct (decide (id = paymentId)) as [<-|Hne];
      [|left; by rewrite lookup_insert_ne].
    right. rewrite lookup_insert_eq. destruct Hl as (-> & _). cbn. rewrite Hst. eauto.
  - unfold status_of. cbn.
    destruct (decide (id = paymentId)) as [<-|Hne];
      [|left; by rewrite lookup_insert_ne].
    right. rewrite lookup_insert_eq. destruct Hl as (-> & _). cbn. rewrite Hst. eauto.
Qed.

(** X1.  Whatever [completePayment] calls run one after another, the status
    of any payment only moves forward: it stays as it is, or goes from
    PENDING to COMPLETED or from PENDING to FAILED.  A COMPLETED or FAILED
    payment keeps its status, no payment becomes PENDING again, and no
    payment appears or disappears. *)
Theorem payment_status_moves_forward calls s paymentId :
  transition_ok (status_of s paymentId) (status_of (after_calls env calls s) paymentId).
Proof.
  revert s. induction calls as [|[id body] calls IH]; intros s; cbn; [by left|].
  eapply transition_ok_trans; [apply completePayment_transition|apply IH].
Qed.

(** X2.  What a [completePayment] request can change.  It leaves the
    bookings, users, stations and RJs as they are, creates and deletes
    nothing, and changes no payment but the one of the request.  A slot it
    changes is the slot of that payment's booking, it becomes BOOKED, and
    this happens only in a request that succeeds with the right signature
    and leaves the payment COMPLETED. *)
Theorem completePayment_frame s id body :
  let r := run env (completePayment env id body) s in
  bookings (final r) = bookings s
  /\ users (final r) = users s
  /\ stations (final r) = stations s
  /\ rjs (final r) = rjs s
  /\ (forall paymentId, paymentId <> id ->
                        payments (final r) !! paymentId = payments s !! paymentId)
  /\ (forall paymentId, is_Some (payments (final r) !! paymentId)
                        <-> is_Some (payments s !! paymentId))
  /\ (forall slotId,
         slots (final r) !! slotId = slots s !! slotId
         \/ exists x p,
              slots s !! slotId = Some x
              /\ slots (final r) !! slotId = Some (booked_slot x)
              /\ linked s id p slotId
              /\ CompleteBody.razorpaySignature body
                 = createHmac_sha256_hex env (RAZORPAY_KEYSECRET env)
                     (CompleteBody.razorpayOrderId body +:+ "|"
                      +:+ CompleteBody.razorpayPaymentId body)
              /\ is_inr (result r) = true
              /\ status_of (final r) id = Some PaymentStatus.COMPLETED).
Proof.
  cbv zeta.
  destruct (completePayment_cases s id body)
    as [(-> & _)|[(p & slotId & Hl & Hst & _ & ->)
                 |[(p & slotId & x & Hl & Hst & Hsig & Hx & ->)|(slotId & ->)]]];
    cbn [final result]; try (repeat split; eauto; fail).
  - repeat split; cbn; eauto.
    + intros paymentId Hne. by rewrite lookup_insert_ne.
    + destruct (decide (id = paymentId)) as [<-|Hne];
        [intros _; destruct Hl as (-> & _); eauto|by rewrite lookup_insert_ne].
    + destruct (decide (id = paymentId)) as [<-|Hne];
        [by rewrite lookup_insert_eq|by rewrite lookup_insert_ne].
  - repeat split; cbn; eauto.
    + intros paymentId Hne. by rewrite lookup_insert_ne.
    + destruct (decide (id = paymentId)) as [<-|Hne];
        [intros _; destruct Hl as (-> & _); eauto|by rewrite lookup_insert_ne].
    + destruct (decide (id = paymentId)) as [<-|Hne];
        [by rewrite lookup_insert_eq|by rewrite lookup_insert_ne].
    + intros slotId'.
      destruct (decide (slotId = slotId')) as [<-|Hne];
        [|left; by rewrite lookup_insert_ne].
      right. exists x, p. rewrite lookup_insert_eq. repeat split; try done; try apply Hl.
      unfold status_of. cbn. by rewrite lookup_insert_eq.
Qed.

Lemma completePayment_keeps_booked_is_paid s id body :
  booked_is_paid s ->
  booked_is_paid (final (run env (completePayment env id body) s)).
Proof.
  intros Hinv.
  destruct (completePayment_cases s id body)
    as [(-> & _)|[(p & slotId & Hl & Hst & _ & ->)
                 |[(p & slotId & x & Hl & Hst & Hsig & Hx & ->)|(slotId & ->)]]];
    cbn [final]; try done.
  - intros sid y Hy Hb. cbn in Hy.
    destruct (Hinv sid y Hy Hb) as (pid & q & b & Hq & Hqs & Hqb & Hbs).
    exists pid, q, b. cbn. repeat split; try done.
    rewrite lookup_insert_ne; [done|]. intros <-.
    destruct Hl as (Hp & _). congruence.
  - intros sid y Hy Hb. cbn in Hy.
    destruct (decide (slotId = sid)) as [<-|Hne].
    + destruct Hl as (Hp & (b & Hb' & Hs) & _).
      exists id, (completed_payment body p), b. cbn.
      rewrite lookup_insert_eq. by repeat split.
    + rewrite lookup_insert_ne in Hy by done.
      destruct (Hinv sid y Hy Hb) as (pid & q & b & Hq & Hqs & Hqb & Hbs).
      exists pid, q, b. cbn. repeat split; try done.
      rewrite lookup_insert_ne; [done|]. intros <-.
      destruct Hl as (Hp & _). congruence.
Qed.

(** X3.  No slot is BOOKED without a completed payment behind it, as long
    as [completePayment] calls run one after another: if every BOOKED slot
    of the store is the slot of the booking of a COMPLETED payment, it is
    still so after any list of calls. *)
Theorem booked_slots_stay_paid calls s :
  booked_is_paid s -> booked_is_paid (after_calls env calls s).
Proof.
  revert s. induction calls as [|[id body] calls IH]; intros s Hinv; cbn; [done|].
  by apply IH, completePayment_keeps_booked_is_paid.
Qed.

End Paths.

(** ** [completePayment]: a forged callback that overlaps the genuine one *)

Section Overlap.

Context (env : Env).

(** X4.  The write of FAILED is an update by id that looks at no status.
    When a callback with a wrong signature and the genuine callback for the
    same PENDING payment both load the payment before either writes, and
    the genuine one commits first, the late write of FAILED lands on the
    COMPLETED payment: the genuine request has answered success, the slot is
    BOOKED, and the payment ends FAILED. *)
Theorem late_failure_overwrites_completed s id good bad p slotId x :
  details_present id good = true ->
  details_present id bad = true ->
  linked s id p slotId ->
  Payment.paymentStatus p = PaymentStatus.PENDING ->
  Payment.razorpayOrderId p = Some (CompleteBody.razorpayOrderId good) ->
  CompleteBody.razorpayOrderId bad = CompleteBody.razorpayOrderId good ->
  generatedSignature env (CompleteBody.razorpayOrderId good)
    (CompleteBody.razorpayPaymentId good) = CompleteBody.razorpaySignature good ->
  generatedSignature env (CompleteBody.razorpayOrderId bad)
    (CompleteBody.razorpayPaymentId bad) <> CompleteBody.razorpaySignature bad ->
  slots s !! slotId = Some x ->
  paymentId_taken s id (CompleteBody.razorpayPaymentId good) = false ->
  forall reqs s' tr,
    run_schedule env [0; 1; 1; 0]
      [completePayment env id bad; completePayment env id good] s [] = (reqs, s', tr) ->
    reqs = [Throw err_signature;
            Return (CompleteResult.mk msg_completed (Payment.bookingId p) slotId)]
    /\ payments s' !! id = Some (failed_payment (completed_payment good p))
    /\ status_of s' id = Some PaymentStatus.FAILED
    /\ slots s' !! slotId = Some (booked_slot x)
    /\ tr = [EvWrite (commit_writes id good slotId) true;
             EvWrite [W_payment_update id failed_data] true].
Proof.
  intros Hg Hb (Hp & (b & Hbk & Hs) & Hf) Hst Ho Hob Hsg Hsb Hx Ht reqs s' tr.
  unfold details_present in Hg, Hb. apply negb_true_iff in Hg, Hb.
  apply String.eqb_neq in Hsb. rewrite Hob in Hsb.
  unfold completePayment. rewrite Hg, Hb, Hob.
  cbn. unfold payment_findUnique_exec. rewrite Hp, Hbk. cbn.
  rewrite Hs, Hf, Hst, Ho. cbn.
  change (bool_decide (PaymentStatus.PENDING = PaymentStatus.COMPLETED)) with false.
  change (bool_decide (PaymentStatus.PENDING = PaymentStatus.PENDING)) with true.
  cbn. rewrite String.eqb_refl. rewrite Hsb. cbn.
  rewrite Hp, Hbk. cbn. rewrite Hs, Hf, Hst, Ho. cbn.
  change (bool_decide (PaymentStatus.PENDING = PaymentStatus.COMPLETED)) with false.
  change (bool_decide (PaymentStatus.PENDING = PaymentStatus.PENDING)) with true.
  cbn. rewrite String.eqb_refl, Hsg, String.eqb_refl. cbn.
  unfold payment_update_exec, advertisementSlot_update_exec.
  rewrite Hp. cbn. rewrite Ht. cbn. rewrite Hx. cbn. rewrite lookup_insert_eq. cbn.
  intros [= <- <- <-]. cbn. rewrite !lookup_insert_eq.
  repeat split. unfold status_of. cbn. by rewrite lookup_insert_eq.
Qed.

End Overlap.

(** ** What the store lets a payment write do *)

Section PaymentWrites.

Context (env : Env).

Lemma map_any_true {V} (f : string -> V -> bool) (m : gmap string V) :
  map_any f m = true <-> exists k v, m !! k = Some v /\ f k v = true.
Proof.
  unfold map_any. rewrite existsb_exists. split.
  - intros ([k v] & Hin & Hf). exists k, v. split; [|done].
    by apply elem_of_map_to_list, list_elem_of_In.
  - intros (k & v & Hk & Hf). exists (k, v). split; [|done].
    by apply list_elem_of_In, elem_of_map_to_list.
Qed.

Lemma opt_eqb_true a b : opt_eqb a b = true <-> a = Some b.
Proof.
  destruct a as [x|]; cbn; [|done].
  rewrite String.eqb_eq. split; congruence.
Qed.

Lemma payment_create_inv d s r s' :
  payment_create_exec env d s = inr (r, s') ->
  exists p,
    payments s !! auto_ObjectId env s = None
    /\ s' = set_payments (insert (auto_ObjectId env s) p) s
    /\ Payment.bookingId p = PaymentCreateInput.booking_connect d
    /\ Payment.razorpayOrderId p = Some (PaymentCreateInput.razorpayOrderId d)
    /\ Payment.razorpayPaymentId p = None
    /\ (forall k q, payments s !! k = Some q ->
                    Payment.bookingId q <> PaymentCreateInput.booking_connect d
                    /\ Payment.razorpayOrderId q
                       <> Some (PaymentCreateInput.razorpayOrderId d)).
Proof.
  unfold payment_create_exec.
  case_bool_decide as Hid; [done|].
  destruct (negb _ || negb _); [done|].
  destruct (map_any _ (payments s)) eqn:Hb; [done|].
  destruct (map_any _ (payments s)) eqn:Ho in |- *; [done|].
  intros [= <- <-]. eexists. repeat split.
  - destruct (payments s !! auto_ObjectId env s) eqn:E; [|done]. destruct Hid. eauto.
  - pose proof (proj1 (map_any_false _ _) Hb k q H) as Hf. cbn in Hf.
    by apply String.eqb_neq in Hf.
  - pose proof (proj1 (map_any_false _ _) Ho k q H) as Hf. cbn in Hf.
    intros Heq. apply opt_eqb_true in Heq. congruence.
Qed.

End PaymentWrites.

(** ** Strings *)

Lemma slice0_length n s : String.length (slice0 n s) <= n.
Proof.
  unfold slice0. revert s. induction n as [|n IH]; intros [|c s]; cbn; try lia.
  specialize (IH s). lia.
Qed.

Lemma slice0_prefix n s : String.prefix (slice0 n s) s = true.
Proof.
  unfold slice0. revert s. induction n as [|n IH]; intros [|c s]; cbn; try done.
  destruct (Ascii.ascii_dec c c); [apply IH|done].
Qed.

(** ** [createPayment]: every path *)

Section CreatePaymentPaths.

Context (env : Env).

Lemma createPayment_catch_throws {A} (error : Exception) :
  createPayment_catch (A := A) error = Throw (createPayment_error error).
Proof.
  unfold createPayment_error, createPayment_catch.
  destruct error as [m st|e|e|m]; try reflexivity.
  - by destruct (String.eqb (PrismaError.code e) "P2002").
  - destruct (RazorpayError.statusCode e) as [sc|], (RazorpayError.error e) as [b|];
      try reflexivity.
    destruct (sc =? 0)%Z; [reflexivity|].
    by destruct (String.eqb (RazorpayError.code b) "BAD_REQUEST_ERROR").
Qed.

#[local] Arguments createPayment_catch : simpl never.

Lemma createPayment_run s bookingId userId amountInRupees transactionId :
  run env (createPayment env bookingId userId amountInRupees transactionId) s
  = if PrimFloat.leb amountInRupees 0
    then mkRun (inl (HttpException "Invalid payment amount provided."
                       HttpStatus.BAD_REQUEST)) s []
    else if PrimFloat.leb (Math_round (amountInRupees * 100)%float) 0
    then mkRun (inl (HttpException "Amount must be positive." HttpStatus.BAD_REQUEST)) s []
    else
      match booking_findUnique_exec bookingId s with
      | inl e => mkRun (inl e) s []
      | inr None => mkRun (inl (HttpException "Booking not found." HttpStatus.NOT_FOUND)) s []
      | inr (Some booking) =>
          if bool_decide (BookingWithStation.bookingStatus booking = BookingStatus.PENDING)
          then
            let options := order_options env bookingId userId amountInRupees transactionId in
            match orders_create env options with
            | inl e =>
                mkRun (inl (createPayment_error (RazorpayRejection e))) s
                  [EvOrderCreate options false]
            | inr order =>
                let data :=
                  payment_data bookingId userId amountInRupees transactionId order in
                match payment_create_exec env data s with
                | inl e =>
                    mkRun (inl (createPayment_error e)) s
                      [EvOrderCreate options true; EvWrite [W_payment_create data] false]
                | inr (payment, s') =>
                    let mail := payment_mail env (BookingWithStation.station booking) payment in
                    match sendMail_error env mail with
                    | Some msg =>
                        mkRun (inl (HttpException ("Error sending email: " +:+ msg)
                                      HttpStatus.INTERNAL_SERVER_ERROR)) s'
                          [EvOrderCreate options true; EvWrite [W_payment_create data] true;
                           EvSendMail mail false]
                    | None =>
                        mkRun (inr (CreatePaymentResult.mk (fst payment) (Order.id order)
                                      (Order.amount order) (Order.currency order))) s'
                          [EvOrderCreate options true; EvWrite [W_payment_create data] true;
                           EvSendMail mail true]
                    end
                end
            end
          else mkRun (inl (HttpException
                             ("Booking status ("
                              +:+ BookingStatus.to_string
                                    (BookingWithStation.bookingStatus booking)
                              +:+ ") does not allow payment.")
                             HttpStatus.BAD_REQUEST)) s []
      end.
Proof.
  unfold run, createPayment.
  destruct (PrimFloat.leb amountInRupees 0); [done|].
  destruct (PrimFloat.leb (Math_round (amountInRupees * 100)%float) 0); [done|].
  cbn. destruct (booking_findUnique_exec bookingId s) as [e|[booking|]]; cbn; [done| |done].
  case_bool_decide; cbn; [|done].
  fold (order_options env bookingId userId amountInRupees transactionId).
  destruct (orders_create env _) as [e|order]; cbn.
  { by rewrite createPayment_catch_throws. }
  fold (payment_data bookingId userId amountInRupees transactionId order).
  destruct (payment_create_exec env _ s) as [e|[payment s']]; cbn.
  { by rewrite createPayment_catch_throws. }
  unfold SendMail. cbn.
  fold (payment_mail env (BookingWithStation.station booking) payment).
  destruct (sendMail_error env _) as [msg|]; cbn; [|done].
  by rewrite createPayment_catch_throws.
Qed.

Lemma payable_found s bookingId station :
  payable s bookingId station ->
  booking_findUnique_exec bookingId s
  = inr (Some (BookingWithStation.mk BookingStatus.PENDING station)).
Proof.
  intros (b & Hb & Hst & Hs). unfold booking_findUnique_exec. by rewrite Hb, Hs, Hst.
Qed.

Lemma payment_create_ok d s :
  is_Some (bookings s !! PaymentCreateInput.booking_connect d) ->
  payment_insertable env s (PaymentCreateInput.booking_connect d)
    (PaymentCreateInput.user_connect d) (PaymentCreateInput.razorpayOrderId d) ->
  payment_create_exec env d s
  = inr ((auto_ObjectId env s, created_payment (now env) d),
         set_payments (insert (auto_ObjectId env s) (created_payment (now env) d)) s).
Proof.
  intros Hb (Hid & Hu & Hfree). unfold payment_create_exec.
  rewrite Hid. rewrite bool_decide_eq_false_2 by (intros [? ?]; done).
  rewrite (bool_decide_eq_true_2 _ Hb), (bool_decide_eq_true_2 _ Hu). cbn.
  rewrite (proj2 (map_any_false _ _)); cycle 1.
  { intros k q Hk. apply String.eqb_neq. by apply (Hfree k q Hk). }
  rewrite (proj2 (map_any_false _ _)); [done|].
  intros k q Hk. apply not_true_is_false. intros Heq.
  apply opt_eqb_true in Heq. by apply (Hfree k q Hk).
Qed.

Lemma amount_accepted_guards a :
  amount_accepted a = true ->
  PrimFloat.leb a 0 = false /\ PrimFloat.leb (Math_round (a * 100)%float) 0 = false.
Proof.
  unfold amount_accepted. intros H. apply andb_true_iff in H as [H1 H2].
  by apply negb_true_iff in H1, H2.
Qed.

(** X6.  [createPayment] takes a payment only for a booking that is there
    and still PENDING: a missing booking is a 404, a booking that is
    APPROVED or REJECTED a 400 that names its status, and in both cases no
    order is asked of the gateway and nothing is stored. *)
Theorem createPayment_booking_guard s bookingId userId amountInRupees transactionId :
  amount_accepted amountInRupees = true ->
  forall r, r = run env (createPayment env bookingId userId amountInRupees transactionId) s ->
  (bookings s !! bookingId = None ->
   result r = inl (HttpException "Booking not found." HttpStatus.NOT_FOUND)
   /\ final r = s /\ trace r = [])
  /\ (forall b station,
         bookings s !! bookingId = Some b ->
         stations s !! Booking.stationId b = Some station ->
         Booking.bookingStatus b <> BookingStatus.PENDING ->
         result r = inl (HttpException
                           ("Booking status ("
                            +:+ BookingStatus.to_string (Booking.bookingStatus b)
                            +:+ ") does not allow payment.")
                           HttpStatus.BAD_REQUEST)
         /\ final r = s /\ trace r = []).
Proof.
  intros Ha r ->. apply amount_accepted_guards in Ha as [H1 H2].
  rewrite createPayment_run, H1, H2. split.
  - intros Hb. unfold booking_findUnique_exec. by rewrite Hb.
  - intros b station Hb Hs Hst. unfold booking_findUnique_exec. rewrite Hb, Hs. cbn.
    by rewrite bool_decide_eq_false_2.
Qed.

(** X7.  What [createPayment] does, it does in one order and at most once:
    it asks the gateway for one order, then stores one payment, then sends
    one mail.  It stores a payment only after the gateway gave an order and
    sends a mail only after the payment is stored.  It never touches a user,
    station, RJ, slot or booking, and never changes or removes a payment
    that was there. *)
Theorem createPayment_effects s bookingId userId amountInRupees transactionId :
  let r := run env (createPayment env bookingId userId amountInRupees transactionId) s in
  createPayment_trace (trace r)
  /\ users (final r) = users s
  /\ stations (final r) = stations s
  /\ rjs (final r) = rjs s
  /\ slots (final r) = slots s
  /\ bookings (final r) = bookings s
  /\ (forall k q, payments s !! k = Some q -> payments (final r) !! k = Some q).
Proof.
  cbv zeta. rewrite createPayment_run.
  destruct (PrimFloat.leb amountInRupees 0); [by repeat split; try constructor|].
  destruct (PrimFloat.leb (Math_round (amountInRupees * 100)%float) 0);
    [by repeat split; try constructor|].
  destruct (booking_findUnique_exec bookingId s) as [e|[booking|]];
    [by repeat split; try constructor| |by repeat split; try constructor].
  case_bool_decide; [|by repeat split; try constructor].
  cbv zeta. destruct (orders_create env _) as [e|order];
    [by repeat split; try constructor|].
  destruct (payment_create_exec env _ s) as [e|[payment s']] eqn:E;
    [by repeat split; try constructor|].
  apply payment_create_inv in E as (p & Hid & -> & _).
  assert (forall k q, payments s !! k = Some q ->
                      payments (set_payments (insert (auto_ObjectId env s) p) s) !! k
                      = Some q) as Hold.
  { intros k q Hk. cbn. rewrite lookup_insert_ne; [done|]. intros <-. congruence. }
  destruct (sendMail_error env _); cbn [final trace]; repeat split; try constructor; done.
Qed.

(** X8.  Every order [createPayment] asks the gateway for carries the
    converted amount, the currency INR, the booking, user and transaction
    tag in its notes, and a receipt of at most 40 characters that begins the
    text "rcpt_", the booking id, "_" and the random suffix. *)
Theorem createPayment_order s bookingId userId amountInRupees transactionId o ok :
  In (EvOrderCreate o ok)
    (trace (run env (createPayment env bookingId userId amountInRupees transactionId) s)) ->
  OrderOptions.amount o = Math_round (amountInRupees * 100)%float
  /\ OrderOptions.currency o = "INR"
  /\ OrderOptions.bookingId (OrderOptions.notes o) = bookingId
  /\ OrderOptions.userId (OrderOptions.notes o) = userId
  /\ OrderOptions.transactionId (OrderOptions.notes o) = transactionId
  /\ String.length (OrderOptions.receipt o) <= 40
  /\ String.prefix (OrderOptions.receipt o)
       ("rcpt_" +:+ bookingId +:+ "_" +:+ randomBytes4_hex env) = true.
Proof.
  rewrite createPayment_run.
  assert (forall o', o' = order_options env bookingId userId amountInRupees transactionId ->
                     OrderOptions.amount o' = Math_round (amountInRupees * 100)%float
                     /\ OrderOptions.currency o' = "INR"
                     /\ OrderOptions.bookingId (OrderOptions.notes o') = bookingId
                     /\ OrderOptions.userId (OrderOptions.notes o') = userId
                     /\ OrderOptions.transactionId (OrderOptions.notes o') = transactionId
                     /\ String.length (OrderOptions.receipt o') <= 40
                     /\ String.prefix (OrderOptions.receipt o')
                          ("rcpt_" +:+ bookingId +:+ "_" +:+ randomBytes4_hex env) = true)
    as Hopt.
  { intros o' ->. cbn [order_options OrderOptions.amount OrderOptions.currency
                         OrderOptions.notes OrderOptions.bookingId OrderOptions.userId
                         OrderOptions.transactionId OrderOptions.receipt].
    repeat split; [apply slice0_length|apply slice0_prefix]. }
  destruct (PrimFloat.leb amountInRupees 0); [done|].
  destruct (PrimFloat.leb (Math_round (amountInRupees * 100)%float) 0); [done|].
  destruct (booking_findUnique_exec bookingId s) as [e|[booking|]]; [done| |done].
  case_bool_decide; [|done].
  cbv zeta. destruct (orders_create env _) as [e|order].
  { intros [[= <- _]|[]]. by apply Hopt. }
  destruct (payment_create_exec env _ s) as [e|[payment s']].
  { intros [[= <- _]|[Hf|[]]]; [by apply Hopt|done]. }
  destruct (sendMail_error env _);
    (intros [[= <- _]|[Hf|[Hf|[]]]]; [by apply Hopt|done|done]).
Qed.

Lemma createPayment_stored s bookingId userId amountInRupees transactionId station order :
  amount_accepted amountInRupees = true ->
  payable s bookingId station ->
  orders_create env (order_options env bookingId userId amountInRupees transactionId)
  = inr order ->
  payment_insertable env s bookingId userId (Order.id order) ->
  let data := payment_data bookingId userId amountInRupees transactionId order in
  let payment := (auto_ObjectId env s, created_payment (now env) data) in
  let mail := payment_mail env station payment in
  let s' := set_payments (insert (auto_ObjectId env s) (created_payment (now env) data)) s in
  let events := [EvOrderCreate
                   (order_options env bookingId userId amountInRupees transactionId) true;
                 EvWrite [W_payment_create data] true] in
  run env (createPayment env bookingId userId amountInRupees transactionId) s
  = match sendMail_error env mail with
    | Some msg =>
        mkRun (inl (HttpException ("Error sending email: " +:+ msg)
                      HttpStatus.INTERNAL_SERVER_ERROR)) s'
          (events ++ [EvSendMail mail false])
    | None =>
        mkRun (inr (CreatePaymentResult.mk (auto_ObjectId env s) (Order.id order)
                      (Order.amount order) (Order.currency order))) s'
          (events ++ [EvSendMail mail true])
    end.
Proof.
  intros Ha Hpay Ho Hins. cbv zeta.
  apply amount_accepted_guards in Ha as [H1 H2].
  rewrite createPayment_run, H1, H2, (payable_found s bookingId station Hpay).
  cbn [BookingWithStation.bookingStatus BookingWithStation.station].
  rewrite bool_decide_eq_true_2 by done. cbv zeta. rewrite Ho.
  rewrite payment_create_ok;
    [|destruct Hpay as (b & Hb & _); cbn; rewrite Hb; eauto|exact Hins].
  by destruct (sendMail_error env _).
Qed.

(** X9.  When the booking is payable, the gateway gives an order, the store
    has room and the mail goes out, [createPayment] answers the id of the
    new payment with the id, amount and currency of the gateway's order, and
    the store holds that payment: PENDING, for the booking and the user,
    with the converted amount, the order id recorded, and no gateway payment
    id or signature yet. *)
Theorem createPayment_success s bookingId userId amountInRupees transactionId station order :
  amount_accepted amountInRupees = true ->
  payable s bookingId station ->
  orders_create env (order_options env bookingId userId amountInRupees transactionId)
  = inr order ->
  payment_insertable env s bookingId userId (Order.id order) ->
  sendMail_error env
    (payment_mail env station
       (auto_ObjectId env s,
        created_payment (now env)
          (payment_data bookingId userId amountInRupees transactionId order))) = None ->
  forall r, r = run env (createPayment env bookingId userId amountInRupees transactionId) s ->
  result r = inr (CreatePaymentResult.mk (auto_ObjectId env s) (Order.id order)
                    (Order.amount order) (Order.currency order))
  /\ payments (final r) !! auto_ObjectId env s
     = Some (Payment.mk bookingId userId (Math_round (amountInRupees * 100)%float)
               (Order.currency order) PaymentStatus.PENDING transactionId (now env)
               (Some (Order.id order)) None None)
  /\ (forall k, k <> auto_ObjectId env s -> payments (final r) !! k = payments s !! k).
Proof.
  intros Ha Hpay Ho Hins Hmail r ->.
  rewrite (createPayment_stored s _ _ _ _ station order Ha Hpay Ho Hins). cbv zeta.
  rewrite Hmail. cbn [result final]. repeat split.
  - cbn. by rewrite lookup_insert_eq.
  - intros k Hk. cbn. by rewrite lookup_insert_ne.
Qed.

(** X10.  When everything but the mail goes well, [createPayment] fails
    with a 500 that carries the mail error, but the payment it stored
    stays: the store holds the PENDING payment with the order id, as after a
    success. *)
Theorem createPayment_mail_failure s bookingId userId amountInRupees transactionId station
  order msg :
  amount_accepted amountInRupees = true ->
  payable s bookingId station ->
  orders_create env (order_options env bookingId userId amountInRupees transactionId)
  = inr order ->
  payment_insertable env s bookingId userId (Order.id order) ->
  sendMail_error env
    (payment_mail env station
       (auto_ObjectId env s,
        created_payment (now env)
          (payment_data bookingId userId amountInRupees transactionId order))) = Some msg ->
  forall r, r = run env (createPayment env bookingId userId amountInRupees transactionId) s ->
  result r = inl (HttpException ("Error sending email: " +:+ msg)
                    HttpStatus.INTERNAL_SERVER_ERROR)
  /\ payments (final r) !! auto_ObjectId env s
     = Some (Payment.mk bookingId userId (Math_round (amountInRupees * 100)%float)
               (Order.currency order) PaymentStatus.PENDING transactionId (now env)
               (Some (Order.id order)) None None)
  /\ status_of (final r) (auto_ObjectId env s) = Some PaymentStatus.PENDING.
Proof.
  intros Ha Hpay Ho Hins Hmail r ->.
  rewrite (createPayment_stored s _ _ _ _ station order Ha Hpay Ho Hins). cbv zeta.
  rewrite Hmail. cbn [result final]. unfold status_of. cbn.
  by rewrite lookup_insert_eq.
Qed.

(** X11.  A booking has one payment.  When a payment of the booking is
    already stored, [createPayment] fails with 409 Conflict; by then the
    gateway has created the order, and the store is left as it was. *)
Theorem createPayment_second_payment s bookingId userId amountInRupees transactionId station
  order k q :
  amount_accepted amountInRupees = true ->
  payable s bookingId station ->
  orders_create env (order_options env bookingId userId amountInRupees transactionId)
  = inr order ->
  payments s !! auto_ObjectId env s = None ->
  userId ∈ users s ->
  payments s !! k = Some q ->
  Payment.bookingId q = bookingId ->
  forall r, r = run env (createPayment env bookingId userId amountInRupees transactionId) s ->
  (exists m, result r = inl (HttpException m HttpStatus.CONFLICT))
  /\ final r = s
  /\ trace r = [EvOrderCreate
                  (order_options env bookingId userId amountInRupees transactionId) true;
                EvWrite [W_payment_create
                           (payment_data bookingId userId amountInRupees transactionId
                              order)] false].
Proof.
  intros Ha (b & Hb & Hst & Hs) Ho Hid Hu Hk Hq r ->.
  apply amount_accepted_guards in Ha as [H1 H2].
  rewrite createPayment_run, H1, H2.
  unfold booking_findUnique_exec. rewrite Hb, Hs, Hst. cbn.
  rewrite bool_decide_eq_true_2 by done. cbv zeta. rewrite Ho.
  unfold payment_create_exec. rewrite Hid.
  rewrite bool_decide_eq_false_2 by (intros [? ?]; done).
  cbn [payment_data PaymentCreateInput.booking_connect PaymentCreateInput.user_connect].
  rewrite Hb. rewrite bool_decide_eq_true_2 by eauto.
  rewrite (bool_decide_eq_true_2 _ Hu). cbn [negb orb].
  rewrite (proj2 (map_any_true _ _)); [cbn; eauto|].
  exists k, q. split; [done|]. by apply String.eqb_eq.
Qed.

(** X12.  When the gateway refuses the order, [createPayment] stores
    nothing and fails with an [HttpException]: 400 when the gateway calls it
    a bad request, the gateway's own status code for its other answers, and
    500 when the failure is not an answer of the gateway at all. *)
Theorem createPayment_gateway_failure s bookingId userId amountInRupees transactionId station
  e :
  amount_accepted amountInRupees = true ->
  payable s bookingId station ->
  orders_create env (order_options env bookingId userId amountInRupees transactionId)
  = inl e ->
  forall r, r = run env (createPayment env bookingId userId amountInRupees transactionId) s ->
  final r = s
  /\ trace r = [EvOrderCreate
                  (order_options env bookingId userId amountInRupees transactionId) false]
  /\ (exists m st, result r = inl (HttpException m st)
                   /\ forall statusCode body,
                        RazorpayError.statusCode e = Some statusCode ->
                        statusCode <> 0%Z ->
                        RazorpayError.error e = Some body ->
                        st = if String.eqb (RazorpayError.code body) "BAD_REQUEST_ERROR"
                             then HttpStatus.BAD_REQUEST else statusCode)
  /\ (RazorpayError.statusCode e = None \/ RazorpayError.error e = None ->
      exists m, result r = inl (HttpException m HttpStatus.INTERNAL_SERVER_ERROR)).
Proof.
  intros Ha Hpay Ho r ->. apply amount_accepted_guards in Ha as [H1 H2].
  rewrite createPayment_run, H1, H2, (payable_found s bookingId station Hpay).
  cbn [BookingWithStation.bookingStatus]. rewrite bool_decide_eq_true_2 by done.
  cbv zeta. rewrite Ho. cbn [final trace result].
  unfold createPayment_error, createPayment_catch.
  repeat split.
  - destruct (RazorpayError.statusCode e) as [sc|], (RazorpayError.error e) as [b|];
      try (eexists _, _; split; [reflexivity|]; intros; discriminate).
    destruct (sc =? 0)%Z eqn:E0.
    + eexists _, _. split; [reflexivity|].
      intros statusCode body [= <-] Hne. apply Z.eqb_eq in E0. done.
    + destruct (String.eqb (RazorpayError.code b) "BAD_REQUEST_ERROR") eqn:Ec;
        eexists _, _; (split; [reflexivity|]);
        intros statusCode body [= <-] _ [= <-]; by rewrite Ec.
  - intros [Hn|Hn]; rewrite Hn; [eauto|].
    destruct (RazorpayError.statusCode e); eauto.
Qed.

End CreatePaymentPaths.

(** ** From the order to the booked slot *)

Section EndToEnd.

Context (env : Env).

(** X13.  A payment created by [createPayment] is completed by the callback
    that carries the order id the gateway gave and the HMAC of that order id
    and the payment id: the payment becomes COMPLETED, the slot of the
    booking becomes BOOKED, and the booking is still PENDING. *)
Theorem pay_then_complete s bookingId userId amountInRupees transactionId station order
  b slotId x body :
  amount_accepted amountInRupees = true ->
  payable s bookingId station ->
  orders_create env (order_options env bookingId userId amountInRupees transactionId)
  = inr order ->
  payment_insertable env s bookingId userId (Order.id order) ->
  bookings s !! bookingId = Some b ->
  Booking.slotId b = slotId ->
  falsy slotId = false ->
  slots s !! slotId = Some x ->
  details_present (auto_ObjectId env s) body = true ->
  CompleteBody.razorpayOrderId body = Order.id order ->
  CompleteBody.razorpaySignature body
  = createHmac_sha256_hex env (RAZORPAY_KEYSECRET env)
      (Order.id order +:+ "|" +:+ CompleteBody.razorpayPaymentId body) ->
  (forall k q, payments s !! k = Some q ->
               Payment.razorpayPaymentId q <> Some (CompleteBody.razorpayPaymentId body)) ->
  forall created completed,
    created = run env (createPayment env bookingId userId amountInRupees transactionId) s ->
    completed = run env (completePayment env (auto_ObjectId env s) body) (final created) ->
    status_of (final created) (auto_ObjectId env s) = Some PaymentStatus.PENDING
    /\ result completed = inr (CompleteResult.mk msg_completed bookingId slotId)
    /\ status_of (final completed) (auto_ObjectId env s) = Some PaymentStatus.COMPLETED
    /\ slots (final completed) !! slotId = Some (booked_slot x)
    /\ bookings (final completed) !! bookingId = Some b
    /\ Booking.bookingStatus b = BookingStatus.PENDING.
Proof.
  intros Ha Hpay Ho Hins Hb Hs Hf Hx Hd Hbo Hsig Hfree created completed -> ->.
  rewrite (createPayment_stored env s _ _ _ _ station order Ha Hpay Ho Hins). cbv zeta.
  set (data := payment_data bookingId userId amountInRupees transactionId order).
  set (pid := auto_ObjectId env s) in *.
  set (s' := set_payments (insert pid (created_payment (now env) data)) s).
  assert (final (match sendMail_error env
                         (payment_mail env station (pid, created_payment (now env) data))
                 with
                 | Some msg =>
                     mkRun (A := CreatePaymentResult.t)
                       (inl (HttpException ("Error sending email: " +:+ msg)
                               HttpStatus.INTERNAL_SERVER_ERROR)) s'
                       ([EvOrderCreate
                           (order_options env bookingId userId amountInRupees
                              transactionId) true;
                         EvWrite [W_payment_create data] true]
                        ++ [EvSendMail
                              (payment_mail env station
                                 (pid, created_payment (now env) data)) false])
                 | None =>
                     mkRun (inr (CreatePaymentResult.mk pid (Order.id order)
                                   (Order.amount order) (Order.currency order))) s'
                       ([EvOrderCreate
                           (order_options env bookingId userId amountInRupees
                              transactionId) true;
                         EvWrite [W_payment_create data] true]
                        ++ [EvSendMail
                              (payment_mail env station
                                 (pid, created_payment (now env) data)) true])
                 end) = s') as ->.
  { by destruct (sendMail_error env _). }
  assert (linked s' pid (created_payment (now env) data) slotId) as Hl.
  { repeat split; [cbn; by rewrite lookup_insert_eq| |done].
    exists b. by split. }
  assert (paymentId_taken s' pid (CompleteBody.razorpayPaymentId body) = false) as Ht.
  { apply map_any_false. intros k q Hk. cbn in Hk.
    destruct (decide (pid = k)) as [<-|Hne]; [by rewrite String.eqb_refl|].
    rewrite lookup_insert_ne in Hk by done.
    apply andb_false_iff. right. apply not_true_is_false. intros Heq.
    apply opt_eqb_true in Heq. by apply (Hfree k q Hk). }
  rewrite (completePayment_commit env s' pid body (created_payment (now env) data) slotId
             Hd Hl eq_refl); cycle 1.
  { cbn. by rewrite Hbo. }
  { unfold generatedSignature. by rewrite Hsig, Hbo. }
  change (slots s' !! slotId) with (slots s !! slotId). rewrite Hx, Ht.
  cbn [result final]. destruct Hpay as (b' & Hb' & Hst & _).
  assert (b' = b) as -> by congruence.
  repeat split; try done.
  - unfold status_of. cbn. by rewrite lookup_insert_eq.
  - unfold status_of. cbn. by rewrite lookup_insert_eq.
  - cbn. by rewrite lookup_insert_eq.
Qed.

End EndToEnd.

(** ** [remove], again *)

Section RemoveAgain.

Context (env : Env).

(** X14.  [remove] changes nothing but the slot it deletes: every other
    slot and every user, station, RJ, booking and payment is as before.
    After a removal that succeeded, a second [remove] of the same id answers
    404 and changes nothing. *)
Theorem remove_frame s id :
  let first := run env (remove env id) s in
  let second := run env (remove env id) (final first) in
  users (final first) = users s
  /\ stations (final first) = stations s
  /\ rjs (final first) = rjs s
  /\ bookings (final first) = bookings s
  /\ payments (final first) = payments s
  /\ (forall id', id' <> id -> slots (final first) !! id' = slots s !! id')
  /\ (is_inr (result first) = true ->
      slots (final first) !! id = None
      /\ (exists m, result second = inl (HttpException m HttpStatus.NOT_FOUND))
      /\ final second = final first
      /\ trace second = []).
Proof.
  cbv zeta. rewrite (remove_run env s id).
  destruct (slots s !! id) as [x|] eqn:Hx; [|by repeat split].
  destruct (0 <? bookings_of s id)%nat; [by repeat split|].
  cbn [final result]. repeat split.
  - intros id' Hne. cbn. by rewrite lookup_delete_ne.
  - cbn. by rewrite lookup_delete_eq.
  - rewrite remove_run. cbn. rewrite lookup_delete_eq. eauto.
  - rewrite remove_run. cbn. by rewrite lookup_delete_eq.
  - rewrite remove_run. cbn. by rewrite lookup_delete_eq.
Qed.

End RemoveAgain.

(** ** Through the controller *)

Section Controller.

Context (env : Env).

(** X15.  Through the controller a FAILED payment is closed to every
    callback: whatever the body carries, fields missing or not, the answer
    is a 400 and nothing is written. *)
Theorem controller_failed_is_closed s paymentId body p slotId :
  falsy paymentId = false ->
  linked s paymentId p slotId ->
  Payment.paymentStatus p = PaymentStatus.FAILED ->
  forall r, r = run env (PaymentController.completePayment env paymentId body) s ->
  (exists m, result r = inl (HttpException m HttpStatus.BAD_REQUEST))
  /\ final r = s
  /\ trace r = [].
Proof.
  intros Hid Hl Hst r ->. unfold PaymentController.completePayment.
  destruct (falsy (CompleteBody.razorpayOrderId body)
            || falsy (CompleteBody.razorpayPaymentId body)
            || falsy (CompleteBody.razorpaySignature body)) eqn:Hb; [cbn; eauto|].
  rewrite (completePayment_failed env s paymentId body p slotId); [cbn; eauto| |done..].
  unfold details_present. rewrite <- !orb_assoc, Hid. cbn. rewrite <- !orb_assoc in Hb.
  by rewrite Hb.
Qed.

(** X16.  Through the controller no payment of nothing is taken: a request
    whose amount is zero or negative, or converts to zero paise or less, or
    that names no booking or no transaction, is answered 400 before the
    gateway is asked and before anything is stored. *)
Theorem controller_refuses_empty_payment s body usr_id :
  PrimFloat.leb (CreatePaymentBody.amount body) 0 = true
  \/ PrimFloat.leb (Math_round (CreatePaymentBody.amount body * 100)%float) 0 = true
  \/ falsy (CreatePaymentBody.bookingId body) = true
  \/ falsy (CreatePaymentBody.transactionId body) = true ->
  forall r, r = run env (PaymentController.createPayment env body usr_id) s ->
  (exists m, result r = inl (HttpException m HttpStatus.BAD_REQUEST))
  /\ final r = s
  /\ trace r = [].
Proof.
  intros H r ->. unfold PaymentController.createPayment.
  destruct (PrimFloat.leb (CreatePaymentBody.amount body) 0) eqn:H1; [cbn; eauto|].
  destruct (falsy (CreatePaymentBody.bookingId body)) eqn:H2; [cbn; eauto|].
  destruct (falsy (CreatePaymentBody.transactionId body)) eqn:H3; [cbn; eauto|].
  destruct H as [H|[H|[H|H]]]; try discriminate.
  rewrite createPayment_run, H1, H. cbn. eauto.
Qed.

End Controller.

(** ** Sorting and reading lists *)

Lemma insert_sorted_perm {A} (leb : A -> A -> bool) x l :
  insert_sorted leb x l ≡ₚ x :: l.
Proof.
  induction l as [|y l IH]; cbn; [done|].
  destruct (leb x y); [done|]. rewrite IH. apply Permutation_swap.
Qed.

Lemma sort_by_perm {A} (leb : A -> A -> bool) l : sort_by leb l ≡ₚ l.
Proof.
  induction l as [|x l IH]; cbn; [done|].
  rewrite insert_sorted_perm. by rewrite IH.
Qed.

Lemma insert_sorted_sorted {A} (leb : A -> A -> bool) x l :
  total_order leb ->
  StronglySorted (fun a b => leb a b = true) l ->
  StronglySorted (fun a b => leb a b = true) (insert_sorted leb x l).
Proof.
  intros [Htot Htrans] Hs. induction Hs as [|y l Hs IH Hy]; cbn.
  - repeat constructor.
  - destruct (leb x y) eqn:E.
    + constructor; [by constructor|]. constructor; [done|].
      eapply Forall_impl; [exact Hy|]. intros z Hz. by apply (Htrans x y z).
    + constructor; [done|].
      rewrite (insert_sorted_perm leb x l). constructor; [|done].
      destruct (Htot x y); congruence.
Qed.

Lemma sort_by_sorted {A} (leb : A -> A -> bool) l :
  total_order leb -> StronglySorted (fun a b => leb a b = true) (sort_by leb l).
Proof.
  intros Ho. induction l as [|x l IH]; cbn; [constructor|].
  by apply insert_sorted_sorted.
Qed.

Lemma mapM_sum_inr {A B} (f : A -> Exception + B) l l' :
  mapM_sum f l = inr l' <-> Forall2 (fun a b => f a = inr b) l l'.
Proof.
  revert l'. induction l as [|x l IH]; intros l'; cbn.
  - split; [intros [= <-]; constructor|by inversion 1].
  - destruct (f x) as [e|y] eqn:Ex.
    + split; [done|]. inversion 1; congruence.
    + destruct (mapM_sum f l) as [e|ys].
      * split; [done|]. inversion 1 as [|? b ? bs Hb Hbs]; subst.
        apply IH in Hbs. done.
      * split.
        -- intros [= <-]. constructor; [done|]. by apply IH.
        -- inversion 1 as [|? b ? bs Hb Hbs]; subst.
           apply IH in Hbs. congruence.
Qed.

(** ** [listPaymentsByUser] *)

Section ListPayments.

Context (pf : Platform).

Lemma listPaymentsByUser_views userId s views :
  listPaymentsByUser pf userId s = inr views ->
  views = map (fun kv => view_of kv.1 kv.2) (user_rows pf userId s).
Proof.
  unfold listPaymentsByUser, payment_findMany_userId.
  destruct (mapM_sum _ (user_rows pf userId s)) as [e|rows] eqn:E; [done|].
  intros [= <-]. apply mapM_sum_inr in E.
  induction E as [|kv row l rows Hrow _ IH]; cbn; [done|].
  rewrite IH. f_equal. unfold payment_with_booking in Hrow.
  destruct (bookings s !! Payment.bookingId kv.2); [|done]. by injection Hrow as <-.
Qed.

Lemma user_rows_elem userId s k p :
  In (k, p) (user_rows pf userId s) <-> payments s !! k = Some p /\ Payment.userId p = userId.
Proof.
  unfold user_rows. rewrite <- list_elem_of_In, sort_by_perm, list_elem_of_In, filter_In.
  rewrite <- list_elem_of_In, elem_of_map_to_list. cbn. by rewrite String.eqb_eq.
Qed.

Lemma NoDup_fst_filter {A B} (f : A * B -> bool) (l : list (A * B)) :
  NoDup (map fst l) -> NoDup (map fst (List.filter f l)).
Proof.
  induction l as [|x l IH]; cbn; [done|].
  rewrite NoDup_cons. intros [Hx Hl]. destruct (f x); cbn; [|by apply IH].
  apply NoDup_cons. split; [|by apply IH].
  intros Hin. apply Hx. apply list_elem_of_In in Hin. apply list_elem_of_In.
  apply in_map_iff in Hin as (y & Hy & Hin). apply in_map_iff. exists y. split; [done|].
  by apply filter_In in Hin as [Hin _].
Qed.

(** X17.  When [listPaymentsByUser] answers, it lists the payments of the
    user and nothing else: a view is in the list exactly when it is the view
    of a stored payment of that user (its fields, with the amount in rupees:
    the stored paise divided by 100), and each payment is listed once. *)
Theorem listPaymentsByUser_content userId s views :
  listPaymentsByUser pf userId s = inr views ->
  (forall v, In v views
             <-> exists k p, payments s !! k = Some p
                             /\ Payment.userId p = userId
                             /\ v = PaymentView.mk k (Payment.bookingId p)
                                      (Payment.amountInPaise p / 100)%float
                                      (Payment.currency p) (Payment.paymentStatus p)
                                      (Payment.transactionId p) (Payment.paymentDate p)
                                      (Payment.razorpayOrderId p))
  /\ NoDup (map PaymentView.paymentId views).
Proof.
  intros Hl. rewrite (listPaymentsByUser_views userId s views Hl). repeat split.
  - intros Hin. apply in_map_iff in Hin as ([k p] & <- & Hin).
    apply user_rows_elem in Hin as [Hk Hu]. eauto.
  - intros (k & p & Hk & Hu & ->). apply in_map_iff. exists (k, p). split; [done|].
    by apply user_rows_elem.
  - rewrite map_map. cbn.
    change (fun x : string * Payment.t => x.1) with (@fst string Payment.t).
    unfold user_rows.
    match goal with
    | |- NoDup (map fst (sort_by ?leb ?l)) =>
        assert (map fst (sort_by leb l) ≡ₚ map fst l) as ->
          by apply Permutation_map, sort_by_perm
    end.
    apply NoDup_fst_filter, NoDup_fst_map_to_list.
Qed.

(** X19.  The list of [listPaymentsByUser] is newest first: whenever the
    store's order on dates is a total order, every view is at least as
    recent as every view after it. *)
Theorem listPaymentsByUser_newest_first userId s views :
  total_order (DateTime_leb pf) ->
  listPaymentsByUser pf userId s = inr views ->
  StronglySorted
    (fun a b => DateTime_leb pf (PaymentView.paymentDate b) (PaymentView.paymentDate a)
                = true) views.
Proof.
  intros [Htot Htrans] Hl. rewrite (listPaymentsByUser_views userId s views Hl).
  unfold user_rows.
  set (leb := fun a b : string * Payment.t =>
                DateTime_leb pf (Payment.paymentDate b.2) (Payment.paymentDate a.2)).
  assert (total_order leb) as Ho.
  { split; [intros a b; apply Htot|intros a b c Hab Hbc; by apply (Htrans _ _ _ Hbc)]. }
  pose proof (sort_by_sorted leb
                (List.filter (fun kv => String.eqb (Payment.userId kv.2) userId)
                   (map_to_list (payments s))) Ho) as Hs.
  induction Hs as [|x l Hs IH Hx]; cbn; constructor; [done|].
  apply Forall_forall. intros v Hin. apply list_elem_of_In in Hin.
  apply in_map_iff in Hin as (y & <- & Hin).
  rewrite Forall_forall in Hx. apply Hx. by apply list_elem_of_In.
Qed.

End ListPayments.

(** ** [AdvertisementSlotService]: reading slots *)

Section SlotReads.

Context (pf : Platform).

Import AdvertisementSlotService.

Lemma slot_booking_unique s id k b :
  slot_unique s -> bookings s !! k = Some b -> Booking.slotId b = id ->
  slot_booking s id = Some (k, b).
Proof.
  intros Hu Hk Hb. unfold slot_booking.
  destruct (List.find _ (map_to_list (bookings s))) as [[k' b']|] eqn:E.
  - apply find_some in E as [Hin Heq]. cbn in Heq. apply String.eqb_eq in Heq.
    apply list_elem_of_In, elem_of_map_to_list in Hin.
    assert (k' = k) as -> by (apply (Hu k' k b' b); congruence).
    congruence.
  - pose proof (find_none _ _ E (k, b)) as Hn. cbn in Hn.
    rewrite Hb, String.eqb_refl in Hn. discriminate Hn.
    by apply list_elem_of_In, elem_of_map_to_list.
Qed.

Lemma slot_booking_none s id :
  bookings_of s id = 0 -> slot_booking s id = None.
Proof.
  intros H0. unfold slot_booking.
  destruct (List.find _ (map_to_list (bookings s))) as [[k b]|] eqn:E; [|done].
  apply find_some in E as [Hin Heq]. cbn in Heq.
  apply list_elem_of_In, elem_of_map_to_list in Hin.
  pose proof (proj1 (map_count_zero _ _) H0 k b Hin) as Hf. cbn in Hf. congruence.
Qed.

(** X20.  [findOne] answers 404 for an id that is not in the store; for a
    slot that is, it answers the stored slot with its station, its RJ and
    its booking: the one booking that references the slot, or none when no
    booking does. *)
Theorem findOne_answer s id :
  (slots s !! id = None ->
   exists m, findOne id s = inl (HttpException m HttpStatus.NOT_FOUND))
  /\ (forall x st rj,
         slots s !! id = Some x ->
         stations s !! AdvertisementSlot.stationId x = Some st ->
         rjs s !! AdvertisementSlot.rjId x = Some rj ->
         exists bk,
           findOne id s = inr (SlotWithRelations.mk id x st rj bk)
           /\ (forall k b, slot_unique s -> bookings s !! k = Some b ->
                           Booking.slotId b = id -> bk = Some (k, b))
           /\ (bookings_of s id = 0 -> bk = None)).
Proof.
  split.
  - intros Hn. unfold findOne. rewrite Hn. unfold NotFoundException. eauto.
  - intros x st rj Hx Hst Hrj. exists (slot_booking s id). repeat split.
    + unfold findOne, with_relations, with_station_rj. rewrite Hx. cbn.
      by rewrite Hst, Hrj.
    + intros k b Hu Hk Hb. by apply slot_booking_unique.
    + apply slot_booking_none.
Qed.

Lemma slots_by_time_elem keep s k x :
  In (k, x) (slots_by_time pf keep s) <-> slots s !! k = Some x /\ keep x = true.
Proof.
  unfold slots_by_time. rewrite <- list_elem_of_In, sort_by_perm, list_elem_of_In, filter_In.
  by rewrite <- list_elem_of_In, elem_of_map_to_list.
Qed.

Lemma with_relations_id s kv v :
  with_relations s kv = inr v ->
  SlotWithRelations.id v = kv.1 /\ SlotWithRelations.slot v = kv.2.
Proof.
  unfold with_relations. destruct (with_station_rj s kv.1 kv.2); [done|].
  by intros [= <-].
Qed.

(** What a list of slots, filtered and ordered by the store and read with
    its relations, contains. *)
Lemma slot_list_content keep s views :
  mapM_sum (with_relations s) (slots_by_time pf keep s) = inr views ->
  (forall v, In v views
             <-> exists k x, slots s !! k = Some x /\ keep x = true
                             /\ with_relations s (k, x) = inr v)
  /\ NoDup (map SlotWithRelations.id views)
  /\ (total_order (DateTime_leb pf) ->
      StronglySorted
        (fun a b => DateTime_leb pf
                      (AdvertisementSlot.slotTime (SlotWithRelations.slot a))
                      (AdvertisementSlot.slotTime (SlotWithRelations.slot b)) = true)
        views).
Proof.
  intros E. apply mapM_sum_inr in E. repeat split.
  - intros Hin. apply list_elem_of_In in Hin.
    apply list_elem_of_lookup in Hin as [i Hi].
    destruct (Forall2_lookup_r _ _ _ i v E Hi) as ([k x] & Hkx & Hv').
    exists k, x. assert (In (k, x) (slots_by_time pf keep s)) as Hin'.
    { apply list_elem_of_In, list_elem_of_lookup. eauto. }
    apply slots_by_time_elem in Hin' as [Hk Hkeep]. done.
  - intros (k & x & Hk & Hkeep & Hv).
    assert ((k, x) ∈ slots_by_time pf keep s) as Hin
        by (by apply list_elem_of_In, slots_by_time_elem).
    apply list_elem_of_lookup in Hin as [i Hi].
    destruct (Forall2_lookup_l _ _ _ i _ E Hi) as (v' & Hv' & Hr).
    assert (v' = v) as -> by congruence.
    apply list_elem_of_In, list_elem_of_lookup. eauto.
  - assert (map SlotWithRelations.id views = map fst (slots_by_time pf keep s)) as ->.
    { induction E as [|kv v l vs Hv _ IH]; cbn; [done|].
      rewrite IH. f_equal. by apply with_relations_id in Hv as [-> _]. }
    unfold slots_by_time.
    match goal with
    | |- NoDup (map fst (sort_by ?leb ?l)) =>
        assert (map fst (sort_by leb l) ≡ₚ map fst l) as ->
          by apply Permutation_map, sort_by_perm
    end.
    apply NoDup_fst_filter, NoDup_fst_map_to_list.
  - intros Ho.
    pose proof (sort_by_sorted
                  (fun a b : string * AdvertisementSlot.t =>
                     DateTime_leb pf (AdvertisementSlot.slotTime a.2)
                       (AdvertisementSlot.slotTime b.2))
                  (List.filter (fun kv => keep kv.2) (map_to_list (slots s)))) as Hs.
    fold (slots_by_time pf keep s) in Hs.
    assert (total_order
              (fun a b : string * AdvertisementSlot.t =>
                 DateTime_leb pf (AdvertisementSlot.slotTime a.2)
                   (AdvertisementSlot.slotTime b.2))) as Ho'.
    { destruct Ho as [Htot Htrans]. split; [intros a b; apply Htot|].
      intros a b c. apply Htrans. }
    specialize (Hs Ho'). clear Ho'.
    induction E as [|kv v l vs Hv E IH]; [constructor|].
    apply StronglySorted_inv in Hs as [Hs Hall]. constructor; [by apply IH|].
    apply with_relations_id in Hv as [_ Hslot]. rewrite Hslot.
    clear IH Hs. induction E as [|kv' v' l' vs' Hv' E' IH']; constructor.
    + apply with_relations_id in Hv' as [_ ->]. by inversion Hall.
    + apply IH'. by inversion Hall.
Qed.

(** X21.  When [findAll] answers, it lists the slots of the store and
    nothing else, each once, earliest first (whenever the store's order on
    dates is a total order). *)
Theorem findAll_content s views :
  findAll pf s = inr views ->
  (forall v, In v views
             <-> exists k x, slots s !! k = Some x /\ with_relations s (k, x) = inr v)
  /\ NoDup (map SlotWithRelations.id views)
  /\ (total_order (DateTime_leb pf) ->
      StronglySorted
        (fun a b => DateTime_leb pf
                      (AdvertisementSlot.slotTime (SlotWithRelations.slot a))
                      (AdvertisementSlot.slotTime (SlotWithRelations.slot b)) = true)
        views).
Proof.
  intros E. destruct (slot_list_content (fun _ => true) s views E) as (H1 & H2 & H3).
  repeat split; try done.
  - intros Hin. apply H1 in Hin as (k & x & Hk & _ & Hv). eauto.
  - intros (k & x & Hk & Hv). apply H1. eauto.
Qed.

(** X22.  The filter of [findAllAvailableSlotsWithFilter] is the status
    its upper-cased text names.  With no text, or an empty one, the answer
    is the answer of [findAll].  With a text that names a status in upper
    case, every slot listed has that status and every slot of that status
    is listed.  With any other text the method throws. *)
Theorem filter_by_status s :
  findAllAvailableSlotsWithFilter pf None s = findAll pf s
  /\ findAllAvailableSlotsWithFilter pf (Some EmptyString) s = findAll pf s
  /\ (forall v st views,
         falsy v = false ->
         toUpperCase pf v = SlotStatus_to_string st ->
         findAllAvailableSlotsWithFilter pf (Some v) s = inr views ->
         forall w, In w views
                   <-> exists k x, slots s !! k = Some x
                                   /\ AdvertisementSlot.availabilityStatus x = st
                                   /\ with_relations s (k, x) = inr w)
  /\ (forall v,
         falsy v = false ->
         (forall st, toUpperCase pf v <> SlotStatus_to_string st) ->
         is_inr (findAllAvailableSlotsWithFilter pf (Some v) s) = false).
Proof.
  split; [done|]. split; [done|]. split.
  - intros v st views Hv Hup Hl w.
    unfold findAllAvailableSlotsWithFilter in Hl. rewrite Hv, Hup in Hl.
    assert (SlotStatus_of_string (SlotStatus_to_string st) = Some st) as Hst
        by (by destruct st).
    rewrite Hst in Hl.
    destruct (slot_list_content _ s views Hl) as (Hc & _). split.
    + intros Hin. apply Hc in Hin as (k & x & Hk & Hkeep & Hw).
      apply bool_decide_eq_true in Hkeep. eauto.
    + intros (k & x & Hk & Hx & Hw).
      apply Hc. exists k, x. repeat split; try done. by apply bool_decide_eq_true.
  - intros v Hv Hno. unfold findAllAvailableSlotsWithFilter. rewrite Hv.
    unfold SlotStatus_of_string.
    destruct (String.eqb_spec (toUpperCase pf v) "AVAILABLE") as [E|_];
      [by destruct (Hno SlotStatus.AVAILABLE)|].
    destruct (String.eqb_spec (toUpperCase pf v) "BOOKED") as [E|_];
      [by destruct (Hno SlotStatus.BOOKED)|done].
Qed.

End SlotReads.

(** ** [AdvertisementSlotService]: writing slots *)

Section SlotWrites.

Context (env : Env) (pf : Platform).

Import AdvertisementSlotService.

Lemma slot_at_true stationId rjId slotTime x :
  slot_at stationId rjId slotTime x = true
  <-> AdvertisementSlot.stationId x = stationId
      /\ AdvertisementSlot.rjId x = rjId
      /\ AdvertisementSlot.slotTime x = slotTime.
Proof.
  unfold slot_at. rewrite !andb_true_iff, !String.eqb_eq. tauto.
Qed.

Lemma create_duplicate data s iso k x :
  Date_toISOString_of pf (CreateSlotDto.slotTime data) = Some iso ->
  slots s !! k = Some x ->
  slot_at (CreateSlotDto.stationId data) (CreateSlotDto.rjId data) iso x = true ->
  create env pf data s
  = (inl (BadRequestException
            "A slot already exists for this station, RJ, and exact time."), s).
Proof.
  intros Hiso Hk Hx. unfold create. rewrite Hiso. cbv zeta.
  assert (map_any (fun _ x => slot_at (CreateSlotDto.stationId data)
                                (CreateSlotDto.rjId data) iso x) (slots s) = true) as ->;
    [|done].
  apply map_any_true. eauto.
Qed.

(** X23.  [create] refuses with 400, and leaves the store as it is, a slot
    whose station, RJ and time (in ISO form) are those of a slot the store
    already has. *)
Theorem create_refuses_duplicate data s iso k x :
  Date_toISOString_of pf (CreateSlotDto.slotTime data) = Some iso ->
  slots s !! k = Some x ->
  AdvertisementSlot.stationId x = CreateSlotDto.stationId data ->
  AdvertisementSlot.rjId x = CreateSlotDto.rjId data ->
  AdvertisementSlot.slotTime x = iso ->
  create env pf data s
  = (inl (HttpException "A slot already exists for this station, RJ, and exact time."
            HttpStatus.BAD_REQUEST), s).
Proof.
  intros Hiso Hk H1 H2 H3. apply (create_duplicate data s iso k x Hiso Hk).
  by apply slot_at_true.
Qed.

(** X24.  When no slot has the station, RJ and time, the station and the RJ
    exist and the store has room, [create] stores the slot AVAILABLE, with
    the time in ISO form and the price given, and answers it with its
    station and RJ; [findOne] then finds it, and a second [create] of the
    same data is refused with 400 and changes nothing. *)
Theorem create_then_create data s iso st rj :
  Date_toISOString_of pf (CreateSlotDto.slotTime data) = Some iso ->
  (forall k x, slots s !! k = Some x ->
               ~ (AdvertisementSlot.stationId x = CreateSlotDto.stationId data
                  /\ AdvertisementSlot.rjId x = CreateSlotDto.rjId data
                  /\ AdvertisementSlot.slotTime x = iso)) ->
  slots s !! auto_ObjectId env s = None ->
  stations s !! CreateSlotDto.stationId data = Some st ->
  rjs s !! CreateSlotDto.rjId data = Some rj ->
  forall id x s',
    id = auto_ObjectId env s ->
    x = AdvertisementSlot.mk (CreateSlotDto.stationId data) (CreateSlotDto.rjId data) iso
          SlotStatus.AVAILABLE (CreateSlotDto.price data) ->
    s' = set_slots (insert id x) s ->
    create env pf data s = (inr (SlotWithStationRj.mk id x st rj), s')
    /\ (exists bk, findOne id s' = inr (SlotWithRelations.mk id x st rj bk))
    /\ create env pf data s'
       = (inl (HttpException "A slot already exists for this station, RJ, and exact time."
                 HttpStatus.BAD_REQUEST), s').
Proof.
  intros Hiso Hfree Hid Hst Hrj id x s' -> -> ->. repeat split.
  - unfold create. rewrite Hiso. cbv zeta.
    assert (map_any (fun _ x => slot_at (CreateSlotDto.stationId data)
                                  (CreateSlotDto.rjId data) iso x) (slots s) = false) as ->.
    { apply map_any_false. intros k x Hk.
      destruct (slot_at _ _ _ x) eqn:E; [|done].
      apply slot_at_true in E. by destruct (Hfree k x Hk). }
    unfold slot_create_exec. cbv zeta.
    rewrite bool_decide_eq_false_2 by (rewrite Hid; by intros [? ?]).
    unfold with_station_rj. cbn. by rewrite Hst, Hrj.
  - eexists. unfold findOne, with_relations, with_station_rj. cbn.
    rewrite lookup_insert_eq. cbn. by rewrite Hst, Hrj.
  - eapply create_duplicate; [exact Hiso| |].
    + cbn. apply lookup_insert_eq.
    + by apply slot_at_true.
Qed.

Lemma create_cases data s :
  (create env pf data s).2 = s
  \/ exists iso x,
      Date_toISOString_of pf (CreateSlotDto.slotTime data) = Some iso
      /\ map_any (fun _ y => slot_at (CreateSlotDto.stationId data)
                               (CreateSlotDto.rjId data) iso y) (slots s) = false
      /\ slots s !! auto_ObjectId env s = None
      /\ x = AdvertisementSlot.mk (CreateSlotDto.stationId data) (CreateSlotDto.rjId data)
               iso SlotStatus.AVAILABLE (CreateSlotDto.price data)
      /\ (create env pf data s).2 = set_slots (insert (auto_ObjectId env s) x) s.
Proof.
  unfold create.
  destruct (Date_toISOString_of pf _) as [iso|] eqn:Hiso; [|by left]. cbv zeta.
  destruct (map_any _ (slots s)) eqn:Hany; [by left|].
  unfold slot_create_exec. cbv zeta. case_bool_decide as Hid; [by left|].
  destruct (with_station_rj _ _ _) as [e|v]; [by left|].
  right. exists iso. eexists. repeat split; try done.
  destruct (slots s !! auto_ObjectId env s) eqn:E; [|done]. destruct Hid. eauto.
Qed.

(** X25.  [create] keeps the slots distinct: when no two slots of the
    store have the same station, RJ and time, none have after [create],
    whatever it is asked to create.  It also keeps every slot the store had,
    and every booking and payment. *)
Theorem create_keeps_slots_distinct data s :
  slot_keys_unique s ->
  slot_keys_unique (create env pf data s).2
  /\ (forall k x, slots s !! k = Some x -> slots (create env pf data s).2 !! k = Some x)
  /\ bookings (create env pf data s).2 = bookings s
  /\ payments (create env pf data s).2 = payments s.
Proof.
  intros Hu.
  destruct (create_cases data s) as [->|(iso & x & Hiso & Hany & Hid & Hx & ->)];
    [done|].
  repeat split; try done.
  - intros i j y z Hi Hj Hsame. cbn in Hi, Hj.
    pose proof (proj1 (map_any_false _ _) Hany) as Hno.
    destruct (decide (i = auto_ObjectId env s)) as [->|Hi'];
      destruct (decide (j = auto_ObjectId env s)) as [->|Hj']; [done| | |].
    + rewrite lookup_insert_eq in Hi. rewrite lookup_insert_ne in Hj by done.
      injection Hi as <-. specialize (Hno j z Hj). cbn in Hno.
      assert (slot_at (CreateSlotDto.stationId data) (CreateSlotDto.rjId data) iso z = true)
        as Ht; [|congruence].
      apply slot_at_true. destruct Hsame as (H1 & H2 & H3). subst x. cbn in *. by repeat split.
    + rewrite lookup_insert_eq in Hj. rewrite lookup_insert_ne in Hi by done.
      injection Hj as <-. specialize (Hno i y Hi). cbn in Hno.
      assert (slot_at (CreateSlotDto.stationId data) (CreateSlotDto.rjId data) iso y = true)
        as Ht; [|congruence].
      apply slot_at_true. destruct Hsame as (H1 & H2 & H3). subst x. cbn in *. by repeat split.
    + rewrite lookup_insert_ne in Hi, Hj by done. by apply (Hu i j y z).
  - intros k y Hk. cbn. rewrite lookup_insert_ne; [done|]. intros <-. congruence.
Qed.

Lemma update_cases id data s :
  (update pf id data s).2 = s
  \/ exists x x',
      slots s !! id = Some x
      /\ is_inr (update pf id data s).1 = true
      /\ (update pf id data s).2 = set_slots (insert id x') s.
Proof.
  unfold update. destruct (slots s !! id) as [x|] eqn:Hx; [|by left].
  cbv zeta. unfold slot_update_exec. rewrite Hx. cbn.
  destruct (match UpdateSlotDto.slotTime data with
            | Some t => DateTime_of_string pf t
            | None => Some (AdvertisementSlot.slotTime x)
            end) as [t|]; [|by left].
  destruct (with_station_rj _ _ _) as [e|v]; [by left|].
  right. by eexists _, _.
Qed.

(** X26.  [update] answers 404 for an id that is not in the store and then
    changes nothing.  In every case it leaves every other slot as it was,
    neither adds nor removes a slot, and leaves the bookings and payments
    alone. *)
Theorem update_frame id data s :
  (slots s !! id = None ->
   (exists m, (update pf id data s).1 = inl (HttpException m HttpStatus.NOT_FOUND))
   /\ (update pf id data s).2 = s)
  /\ (forall k, k <> id -> slots (update pf id data s).2 !! k = slots s !! k)
  /\ (forall k, is_Some (slots (update pf id data s).2 !! k) <-> is_Some (slots s !! k))
  /\ bookings (update pf id data s).2 = bookings s
  /\ payments (update pf id data s).2 = payments s.
Proof.
  split.
  { intros Hn. unfold update. rewrite Hn. unfold NotFoundException. split; eauto. }
  destruct (update_cases id data s) as [->|(x & x' & Hx & _ & ->)]; [done|].
  repeat split; try done.
  - intros k Hk. cbn. by rewrite lookup_insert_ne.
  - cbn. destruct (decide (k = id)) as [->|Hk].
    + by rewrite Hx.
    + by rewrite lookup_insert_ne.
  - cbn. destruct (decide (k = id)) as [->|Hk].
    + rewrite lookup_insert_eq. eauto.
    + by rewrite lookup_insert_ne.
Qed.

(** X27.  [update] has no duplicate check: moving a slot to the time of
    another slot of the same station and RJ succeeds, and leaves two slots
    with the same station, RJ and time, which [create] would have
    refused. *)
Theorem update_makes_duplicates s a b xa xb st rj t :
  a <> b ->
  slots s !! a = Some xa ->
  slots s !! b = Some xb ->
  AdvertisementSlot.stationId xb = AdvertisementSlot.stationId xa ->
  AdvertisementSlot.rjId xb = AdvertisementSlot.rjId xa ->
  stations s !! AdvertisementSlot.stationId xb = Some st ->
  rjs s !! AdvertisementSlot.rjId xb = Some rj ->
  DateTime_of_string pf t = Some (AdvertisementSlot.slotTime xa) ->
  forall r, r = update pf b (UpdateSlotDto.mk None None (Some t) None) s ->
  is_inr r.1 = true
  /\ slots r.2 !! a = Some xa
  /\ (exists xb', slots r.2 !! b = Some xb' /\ same_slot_key xa xb')
  /\ ~ slot_keys_unique r.2.
Proof.
  intros Hab Ha Hb Hs Hr Hst Hrj Ht r ->.
  assert (update pf b (UpdateSlotDto.mk None None (Some t) None) s
          = (inr (SlotWithStationRj.mk b
                    (AdvertisementSlot.mk (AdvertisementSlot.stationId xb)
                       (AdvertisementSlot.rjId xb) (AdvertisementSlot.slotTime xa)
                       (AdvertisementSlot.availabilityStatus xb)
                       (AdvertisementSlot.price xb)) st rj),
             set_slots (insert b
                          (AdvertisementSlot.mk (AdvertisementSlot.stationId xb)
                             (AdvertisementSlot.rjId xb) (AdvertisementSlot.slotTime xa)
                             (AdvertisementSlot.availabilityStatus xb)
                             (AdvertisementSlot.price xb))) s)) as ->.
  { unfold update. rewrite Hb. cbv zeta. unfold slot_update_exec. rewrite Hb. cbn.
    rewrite Ht. unfold with_station_rj. cbn. by rewrite Hst, Hrj. }
  assert (same_slot_key xa
            (AdvertisementSlot.mk (AdvertisementSlot.stationId xb)
               (AdvertisementSlot.rjId xb) (AdvertisementSlot.slotTime xa)
               (AdvertisementSlot.availabilityStatus xb) (AdvertisementSlot.price xb)))
    as Hsame by (by repeat split).
  cbn [fst snd]. repeat split; try done.
  - cbn. by rewrite lookup_insert_ne.
  - eexists. split; [cbn; apply lookup_insert_eq|done].
  - intros Hu. apply Hab. eapply (Hu a b); [|cbn; apply lookup_insert_eq|exact Hsame].
    cbn. by rewrite lookup_insert_ne.
Qed.

End SlotWrites.

(** ** What the readers see after the writers *)

Section Views.

Context (env : Env) (pf : Platform).

Import AdvertisementSlotService.

(** X28.  After a verified payment the slot is shown as taken: [findOne]
    answers the slot BOOKED together with the booking of the payment, and
    the list of the slots filtered by the status AVAILABLE does not contain
    it. *)
Theorem slot_view_after_payment s paymentId body p slotId x b st rj :
  details_present paymentId body = true ->
  payments s !! paymentId = Some p ->
  bookings s !! Payment.bookingId p = Some b ->
  Booking.slotId b = slotId ->
  falsy slotId = false ->
  Payment.paymentStatus p = PaymentStatus.PENDING ->
  Payment.razorpayOrderId p = Some (CompleteBody.razorpayOrderId body) ->
  generatedSignature env (CompleteBody.razorpayOrderId body)
    (CompleteBody.razorpayPaymentId body) = CompleteBody.razorpaySignature body ->
  paymentId_taken s paymentId (CompleteBody.razorpayPaymentId body) = false ->
  slots s !! slotId = Some x ->
  stations s !! AdvertisementSlot.stationId x = Some st ->
  rjs s !! AdvertisementSlot.rjId x = Some rj ->
  slot_unique s ->
  forall s', s' = final (run env (completePayment env paymentId body) s) ->
  findOne slotId s'
  = inr (SlotWithRelations.mk slotId (booked_slot x) st rj (Some (Payment.bookingId p, b)))
  /\ (forall v views,
         falsy v = false ->
         toUpperCase pf v = "AVAILABLE" ->
         findAllAvailableSlotsWithFilter pf (Some v) s' = inr views ->
         ~ In slotId (map SlotWithRelations.id views)).
Proof.
  intros Hd Hp Hb Hs Hf Hst Ho Hsig Hfree Hx Hstn Hrj Hu s' ->.
  rewrite (completePayment_commit env s paymentId body p slotId Hd
             (conj Hp (conj (ex_intro _ b (conj Hb Hs)) Hf)) Hst Ho Hsig).
  rewrite Hx, Hfree. cbn [final]. split.
  - unfold findOne, with_relations, with_station_rj. cbn.
    rewrite lookup_insert_eq. cbn. rewrite Hstn, Hrj. do 2 f_equal.
    apply slot_booking_unique; [|done|done].
    intros i j bi bj Hi Hj. cbn in Hi, Hj. by apply Hu.
  - intros v views Hv Hup Hl Hin.
    unfold findAllAvailableSlotsWithFilter in Hl. rewrite Hv, Hup in Hl. cbn in Hl.
    destruct (slot_list_content pf _ _ views Hl) as (Hc & _).
    apply in_map_iff in Hin as (w & Hw & Hin).
    apply Hc in Hin as (k & y & Hk & Hkeep & Hy).
    apply with_relations_id in Hy as [Hy1 Hy2]. cbn in Hy1.
    assert (k = slotId) as -> by congruence.
    cbn in Hk. rewrite lookup_insert_eq in Hk. injection Hk as <-.
    apply bool_decide_eq_true in Hkeep. discriminate Hkeep.
Qed.

(** X29.  A payment that [createPayment] stored is in the list of its user:
    when the list could be read before, it can be read after, and it shows
    the new payment PENDING, for the booking, with the amount rounded to
    paise and given back in rupees, and the order id of the gateway. *)
Theorem created_payment_is_listed s bookingId userId amountInRupees transactionId station
  order :
  amount_accepted amountInRupees = true ->
  payable s bookingId station ->
  orders_create env (order_options env bookingId userId amountInRupees transactionId)
  = inr order ->
  payment_insertable env s bookingId userId (Order.id order) ->
  is_inr (listPaymentsByUser pf userId s) = true ->
  forall s', s' = final (run env (createPayment env bookingId userId amountInRupees
                                    transactionId) s) ->
  exists views,
    listPaymentsByUser pf userId s' = inr views
    /\ In (PaymentView.mk (auto_ObjectId env s) bookingId
             (Math_round (amountInRupees * 100) / 100)%float (Order.currency order)
             PaymentStatus.PENDING transactionId (now env) (Some (Order.id order)))
          views.
Proof.
  intros Ha Hpay Ho Hins Hread s' ->.
  rewrite (createPayment_stored env s _ _ _ _ station order Ha Hpay Ho Hins). cbv zeta.
  set (p := created_payment (now env) _).
  set (s' := set_payments (insert (auto_ObjectId env s) p) s).
  assert (final (match sendMail_error env
                         (payment_mail env station (auto_ObjectId env s, p)) with
                 | Some msg => _
                 | None => _
                 end) = s') as -> by (by destruct (sendMail_error env _)).
  destruct (listPaymentsByUser pf userId s) as [e|old] eqn:Hold; [done|].
  destruct (listPaymentsByUser pf userId s') as [e|views] eqn:Hnew.
  - exfalso.
    assert (is_inr (listPaymentsByUser pf userId s') = true) as Hc;
      [|by rewrite Hnew in Hc].
    assert (is_inr (listPaymentsByUser pf userId s) = true) as Hok by (by rewrite Hold).
    unfold listPaymentsByUser, payment_findMany_userId in *.
    destruct (mapM_sum (payment_with_booking s) (user_rows pf userId s)) as [?|rows] eqn:E;
      [done|].
    apply mapM_sum_inr in E.
    destruct (mapM_sum (payment_with_booking s') (user_rows pf userId s')) as [e'|rows']
      eqn:E'; [|done].
    exfalso. clear Hnew Hold Hok.
    assert (forall l, (forall k q, In (k, q) l ->
                         is_Some (bookings s' !! Payment.bookingId q)) ->
                      is_inr (mapM_sum (payment_with_booking s') l) = true) as Hgen.
    { induction l as [|[k q] l IH]; [done|]. intros Hall. cbn.
      unfold payment_with_booking at 1.
      destruct (Hall k q (or_introl eq_refl)) as [bq Hbq]. cbn in Hbq |- *. rewrite Hbq.
      assert (is_inr (mapM_sum (payment_with_booking s') l) = true) as Hl
          by (apply IH; intros k' q' Hin; apply (Hall k' q'); by right).
      by destruct (mapM_sum (payment_with_booking s') l). }
    assert (is_inr (mapM_sum (payment_with_booking s') (user_rows pf userId s')) = true)
      as Hc; [|by rewrite E' in Hc].
    apply Hgen. intros k q Hin. apply user_rows_elem in Hin as [Hk Hq].
    cbn in Hk. destruct (decide (k = auto_ObjectId env s)) as [->|Hne].
    + rewrite lookup_insert_eq in Hk. injection Hk as <-.
      destruct Hpay as (bk & Hbk & _). cbn. rewrite Hbk. eauto.
    + rewrite lookup_insert_ne in Hk by done.
      assert ((k, q) ∈ user_rows pf userId s) as Hin
          by (by apply list_elem_of_In, user_rows_elem).
      apply list_elem_of_lookup in Hin as [i Hi].
      destruct (Forall2_lookup_l _ _ _ i _ E Hi) as (row & _ & Hrow).
      unfold payment_with_booking in Hrow. cbn in Hrow.
      cbn. destruct (bookings s !! Payment.bookingId q); [eauto|done].
  - exists views. split; [done|].
    rewrite (listPaymentsByUser_views pf userId s' views Hnew).
    apply in_map_iff. exists (auto_ObjectId env s, p). split; [done|].
    apply user_rows_elem. split; [cbn; apply lookup_insert_eq|done].
Qed.

End Views.

(** ** The scenario, property by property *)

Lemma scenario_booked_is_paid : booked_is_paid Demo.store.
Proof.
  intros slotId x Hk Hb. unfold Demo.store in Hk. cbn [slots] in Hk.
  apply lookup_singleton_Some in Hk as [<- <-]. discriminate Hb.
Qed.

(** The genuine callback of the demo books the slot, and the slot has its
    completed payment behind it. *)
Lemma booked_slots_stay_paid_witness :
  booked_is_paid Demo.store
  /\ booked_is_paid (after_calls Demo.env [("p1", Demo.good)] Demo.store).
Proof.
  split; [exact scenario_booked_is_paid|].
  exact (booked_slots_stay_paid Demo.env [("p1", Demo.good)] Demo.store
           scenario_booked_is_paid).
Defined.

(** The tampered callback and the genuine one, overlapping. *)
Lemma late_failure_overwrites_completed_witness :
  details_present "p1" Demo.good = true
  /\ details_present "p1" Demo.tampered = true
  /\ linked Demo.store "p1" Demo.payment1 "s1"
  /\ generatedSignature Demo.env (CompleteBody.razorpayOrderId Demo.tampered)
       (CompleteBody.razorpayPaymentId Demo.tampered)
     <> CompleteBody.razorpaySignature Demo.tampered
  /\ (let end_ := run_schedule Demo.env [0; 1; 1; 0]
                    [completePayment Demo.env "p1" Demo.tampered;
                     completePayment Demo.env "p1" Demo.good] Demo.store [] in
      end_.1.1 = [Throw err_signature; Return (CompleteResult.mk msg_completed "b1" "s1")]
      /\ payments end_.1.2 !! "p1"
         = Some (failed_payment (completed_payment Demo.good Demo.payment1))
      /\ status_of end_.1.2 "p1" = Some PaymentStatus.FAILED
      /\ slots end_.1.2 !! "s1" = Some (booked_slot Demo.slot1)
      /\ end_.2 = [EvWrite (commit_writes "p1" Demo.good "s1") true;
                   EvWrite [W_payment_update "p1" failed_data] true]).
Proof.
  split; [reflexivity|]. split; [reflexivity|]. split; [exact demo_linked|].
  split; [exact demo_tampered_mismatch|].
  exact (late_failure_overwrites_completed Demo.env Demo.store "p1" Demo.good Demo.tampered
           Demo.payment1 "s1" Demo.slot1 eq_refl eq_refl demo_linked eq_refl eq_refl
           eq_refl eq_refl demo_tampered_mismatch eq_refl eq_refl _ _ _ eq_refl).
Defined.

(** A payment for a booking that is not there. *)
Lemma createPayment_booking_guard_witness :
  amount_accepted 150%float = true
  /\ bookings Demo.store !! "b9" = None
  /\ (let r := run Demo.env (createPayment Demo.env "b9" "u1" 150%float "txn9") Demo.store in
      result r = inl (HttpException "Booking not found." HttpStatus.NOT_FOUND)
      /\ final r = Demo.store /\ trace r = []).
Proof.
  split; [reflexivity|]. split; [reflexivity|].
  exact (proj1 (createPayment_booking_guard Demo.env Demo.store "b9" "u1" 150%float "txn9"
                  eq_refl _ eq_refl) eq_refl).
Defined.

Lemma scenario_payable : payable Scenario.store3 "b2" Demo.station1.
Proof. exists Scenario.booking2. by repeat split. Qed.

Lemma scenario_payments s k q :
  payments s = {[ "p1" := Demo.payment1 ]} -> payments s !! k = Some q ->
  k = "p1" /\ q = Demo.payment1.
Proof. intros -> Hk. by apply lookup_singleton_Some in Hk as [<- <-]. Qed.

Lemma scenario_insertable env :
  auto_ObjectId env Scenario.store3 = "new1" ->
  payment_insertable env Scenario.store3 "b2" "u1" "order_2".
Proof.
  intros Hid. unfold payment_insertable. rewrite Hid. split; [reflexivity|].
  split; [by vm_compute|].
  intros k q Hk. apply (scenario_payments Scenario.store3 k q eq_refl) in Hk as [-> ->].
  split; discriminate.
Qed.

(** The order asked for the payment of 150 rupees for the booking "b2". *)
Lemma createPayment_order_witness :
  In (EvOrderCreate (order_options Demo.env "b2" "u1" 150%float "txn2") true)
    (trace (run Demo.env (createPayment Demo.env "b2" "u1" 150%float "txn2")
              Scenario.store3))
  /\ (let o := order_options Demo.env "b2" "u1" 150%float "txn2" in
      OrderOptions.amount o = 15000%float
      /\ OrderOptions.currency o = "INR"
      /\ OrderOptions.bookingId (OrderOptions.notes o) = "b2"
      /\ OrderOptions.userId (OrderOptions.notes o) = "u1"
      /\ OrderOptions.transactionId (OrderOptions.notes o) = "txn2"
      /\ String.length (OrderOptions.receipt o) <= 40
      /\ String.prefix (OrderOptions.receipt o) "rcpt_b2_a1b2c3d4" = true).
Proof.
  assert (In (EvOrderCreate (order_options Demo.env "b2" "u1" 150%float "txn2") true)
            (trace (run Demo.env (createPayment Demo.env "b2" "u1" 150%float "txn2")
                      Scenario.store3))) as Hin by (left; reflexivity).
  split; [exact Hin|].
  exact (createPayment_order Demo.env Scenario.store3 "b2" "u1" 150%float "txn2" _ true Hin).
Defined.

(** The payment of 150 rupees for the booking "b2". *)
Lemma createPayment_success_witness :
  amount_accepted 150%float = true
  /\ payable Scenario.store3 "b2" Demo.station1
  /\ orders_create Demo.env (order_options Demo.env "b2" "u1" 150%float "txn2")
     = inr Scenario.order2
  /\ payment_insertable Demo.env Scenario.store3 "b2" "u1" "order_2"
  /\ (let r := run Demo.env (createPayment Demo.env "b2" "u1" 150%float "txn2")
                 Scenario.store3 in
      result r = inr (CreatePaymentResult.mk "new1" "order_2" 15000%float "INR")
      /\ payments (final r) !! "new1" = Some Scenario.payment2
      /\ (forall k, k <> "new1" -> payments (final r) !! k = payments Scenario.store3 !! k)).
Proof.
  split; [reflexivity|]. split; [exact scenario_payable|]. split; [reflexivity|].
  split; [exact (scenario_insertable Demo.env eq_refl)|].
  exact (createPayment_success Demo.env Scenario.store3 "b2" "u1" 150%float "txn2"
           Demo.station1 Scenario.order2 eq_refl scenario_payable eq_refl
           (scenario_insertable Demo.env eq_refl) eq_refl _ eq_refl).
Defined.

(** The same payment with the mail server down: a 500, and the payment is
    stored. *)
Lemma createPayment_mail_failure_witness :
  amount_accepted 150%float = true
  /\ payable Scenario.store3 "b2" Demo.station1
  /\ payment_insertable Scenario.env_mail_down Scenario.store3 "b2" "u1" "order_2"
  /\ (let r := run Scenario.env_mail_down
                 (createPayment Scenario.env_mail_down "b2" "u1" 150%float "txn2")
                 Scenario.store3 in
      result r = inl (HttpException "Error sending email: connect ECONNREFUSED"
                        HttpStatus.INTERNAL_SERVER_ERROR)
      /\ payments (final r) !! "new1" = Some Scenario.payment2
      /\ status_of (final r) "new1" = Some PaymentStatus.PENDING).
Proof.
  split; [reflexivity|]. split; [exact scenario_payable|].
  split; [exact (scenario_insertable Scenario.env_mail_down eq_refl)|].
  exact (createPayment_mail_failure Scenario.env_mail_down Scenario.store3 "b2" "u1"
           150%float "txn2" Demo.station1 Scenario.order2 "connect ECONNREFUSED" eq_refl
           scenario_payable eq_refl (scenario_insertable Scenario.env_mail_down eq_refl)
           eq_refl _ eq_refl).
Defined.

Lemma scenario_payable_b1 : payable Demo.store "b1" Demo.station1.
Proof. exists Demo.booking1. by repeat split. Qed.

(** A second payment for the booking "b1" of the demo, which has one. *)
Lemma createPayment_second_payment_witness :
  amount_accepted 200%float = true
  /\ payable Demo.store "b1" Demo.station1
  /\ payments Demo.store !! "p1" = Some Demo.payment1
  /\ Payment.bookingId Demo.payment1 = "b1"
  /\ (let r := run Demo.env (createPayment Demo.env "b1" "u1" 200%float "txn9")
                 Demo.store in
      (exists m, result r = inl (HttpException m HttpStatus.CONFLICT))
      /\ final r = Demo.store
      /\ trace r = [EvOrderCreate (order_options Demo.env "b1" "u1" 200%float "txn9") true;
                    EvWrite [W_payment_create
                               (payment_data "b1" "u1" 200%float "txn9"
                                  (Order.mk "order_2" 20000%float "INR"))] false]).
Proof.
  split; [reflexivity|]. split; [exact scenario_payable_b1|]. split; [reflexivity|].
  split; [reflexivity|].
  exact (createPayment_second_payment Demo.env Demo.store "b1" "u1" 200%float "txn9"
           Demo.station1 (Order.mk "order_2" 20000%float "INR") "p1" Demo.payment1
           eq_refl scenario_payable_b1 eq_refl eq_refl
           (proj2 (elem_of_singleton (C := gset string) "u1" "u1") eq_refl)
           eq_refl eq_refl _ eq_refl).
Defined.

(** The payment of 150 rupees when the gateway refuses the order. *)
Lemma createPayment_gateway_failure_witness :
  amount_accepted 150%float = true
  /\ payable Scenario.store3 "b2" Demo.station1
  /\ orders_create Scenario.env_gateway_down
       (order_options Scenario.env_gateway_down "b2" "u1" 150%float "txn2")
     = inl Scenario.refusal
  /\ (let r := run Scenario.env_gateway_down
                 (createPayment Scenario.env_gateway_down "b2" "u1" 150%float "txn2")
                 Scenario.store3 in
      final r = Scenario.store3
      /\ trace r = [EvOrderCreate
                      (order_options Scenario.env_gateway_down "b2" "u1" 150%float "txn2")
                      false]
      /\ (exists m st,
             result r = inl (HttpException m st)
             /\ forall statusCode body,
                  RazorpayError.statusCode Scenario.refusal = Some statusCode ->
                  statusCode <> 0%Z ->
                  RazorpayError.error Scenario.refusal = Some body ->
                  st = if String.eqb (RazorpayError.code body) "BAD_REQUEST_ERROR"
                       then HttpStatus.BAD_REQUEST else statusCode)
      /\ (RazorpayError.statusCode Scenario.refusal = None
          \/ RazorpayError.error Scenario.refusal = None ->
          exists m, result r = inl (HttpException m HttpStatus.INTERNAL_SERVER_ERROR))).
Proof.
  split; [reflexivity|]. split; [exact scenario_payable|]. split; [reflexivity|].
  exact (createPayment_gateway_failure Scenario.env_gateway_down Scenario.store3 "b2" "u1"
           150%float "txn2" Demo.station1 Scenario.refusal eq_refl scenario_payable eq_refl
           _ eq_refl).
Defined.

Lemma scenario_pay_2_free k q :
  payments Scenario.store3 !! k = Some q -> Payment.razorpayPaymentId q <> Some "pay_2".
Proof.
  intros Hk. by apply (scenario_payments Scenario.store3 k q eq_refl) in Hk as [-> ->].
Qed.

(** The payment of 150 rupees for the booking "b2", and the callback of the
    gateway for its order. *)
Lemma pay_then_complete_witness :
  amount_accepted 150%float = true
  /\ payable Scenario.store3 "b2" Demo.station1
  /\ payment_insertable Demo.env Scenario.store3 "b2" "u1" "order_2"
  /\ bookings Scenario.store3 !! "b2" = Some Scenario.booking2
  /\ slots Scenario.store3 !! "s2" = Some Demo.slot2
  /\ details_present "new1" Scenario.callback2 = true
  /\ (let created := run Demo.env (createPayment Demo.env "b2" "u1" 150%float "txn2")
                       Scenario.store3 in
      let completed := run Demo.env (completePayment Demo.env "new1" Scenario.callback2)
                         (final created) in
      status_of (final created) "new1" = Some PaymentStatus.PENDING
      /\ result completed = inr (CompleteResult.mk msg_completed "b2" "s2")
      /\ status_of (final completed) "new1" = Some PaymentStatus.COMPLETED
      /\ slots (final completed) !! "s2" = Some (booked_slot Demo.slot2)
      /\ bookings (final completed) !! "b2" = Some Scenario.booking2
      /\ Booking.bookingStatus Scenario.booking2 = BookingStatus.PENDING).
Proof.
  split; [reflexivity|]. split; [exact scenario_payable|].
  split; [exact (scenario_insertable Demo.env eq_refl)|].
  split; [reflexivity|]. split; [reflexivity|]. split; [reflexivity|].
  exact (pay_then_complete Demo.env Scenario.store3 "b2" "u1" 150%float "txn2"
           Demo.station1 Scenario.order2 Scenario.booking2 "s2" Demo.slot2
           Scenario.callback2 eq_refl scenario_payable eq_refl
           (scenario_insertable Demo.env eq_refl) eq_refl eq_refl eq_refl eq_refl eq_refl
           eq_refl eq_refl scenario_pay_2_free _ _ eq_refl eq_refl).
Defined.

Lemma scenario_linked_failed :
  linked Demo.store_failed "p1" (failed_payment Demo.payment1) "s1".
Proof. repeat split. exists Demo.booking1. by split. Qed.

(** A callback with an empty body for the FAILED payment of the demo. *)
Lemma controller_failed_is_closed_witness :
  falsy "p1" = false
  /\ linked Demo.store_failed "p1" (failed_payment Demo.payment1) "s1"
  /\ Payment.paymentStatus (failed_payment Demo.payment1) = PaymentStatus.FAILED
  /\ (let r := run Demo.env
                 (PaymentController.completePayment Demo.env "p1" Scenario.empty_body)
                 Demo.store_failed in
      (exists m, result r = inl (HttpException m HttpStatus.BAD_REQUEST))
      /\ final r = Demo.store_failed
      /\ trace r = []).
Proof.
  split; [reflexivity|]. split; [exact scenario_linked_failed|]. split; [reflexivity|].
  exact (controller_failed_is_closed Demo.env Demo.store_failed "p1" Scenario.empty_body
           (failed_payment Demo.payment1) "s1" eq_refl scenario_linked_failed eq_refl
           _ eq_refl).
Defined.

(** A payment of 0.004 rupees, which is no paise. *)
Lemma controller_refuses_empty_payment_witness :
  PrimFloat.leb (Math_round (CreatePaymentBody.amount Scenario.nothing * 100)%float) 0 = true
  /\ (let r := run Demo.env (PaymentController.createPayment Demo.env Scenario.nothing "u1")
                 Scenario.store3 in
      (exists m, result r = inl (HttpException m HttpStatus.BAD_REQUEST))
      /\ final r = Scenario.store3
      /\ trace r = []).
Proof.
  split; [reflexivity|].
  exact (controller_refuses_empty_payment Demo.env Scenario.store3 Scenario.nothing "u1"
           (or_intror (or_introl eq_refl)) _ eq_refl).
Defined.

Lemma string_compare_trans a :
  forall b c, String.compare a b <> Gt -> String.compare b c <> Gt ->
              String.compare a c <> Gt.
Proof.
  induction a as [|x a IH]; intros [|y b] [|z c]; cbn; try done.
  unfold Ascii.compare.
  destruct (N.compare_spec (Ascii.N_of_ascii x) (Ascii.N_of_ascii y)) as [E1|E1|E1];
    destruct (N.compare_spec (Ascii.N_of_ascii y) (Ascii.N_of_ascii z)) as [E2|E2|E2];
    try done; intros H1 H2.
  - rewrite E1, E2, N.compare_refl. by apply (IH b c).
  - rewrite E1. by rewrite (proj2 (N.compare_lt_iff _ _) E2).
  - rewrite <- E2. by rewrite (proj2 (N.compare_lt_iff _ _) E1).
  - by rewrite (proj2 (N.compare_lt_iff _ _) (N.lt_trans _ _ _ E1 E2)).
Qed.

Lemma scenario_total_order : total_order (DateTime_leb Scenario.pf).
Proof.
  split; [apply String.leb_total|].
  intros a b c. cbn. unfold String.leb. intros H1 H2.
  pose proof (string_compare_trans a b c) as H.
  destruct (String.compare a b); destruct (String.compare b c); try done;
    destruct (String.compare a c); try done; by destruct H.
Qed.

(** The two payments of the user "u1". *)
Lemma listPaymentsByUser_content_witness :
  listPaymentsByUser Scenario.pf "u1" Scenario.store4
  = inr [view_of "p2" Scenario.payment2_completed; view_of "p1" Demo.payment1]
  /\ (let views := [view_of "p2" Scenario.payment2_completed; view_of "p1" Demo.payment1] in
      (forall v, In v views
                 <-> exists k p, payments Scenario.store4 !! k = Some p
                                 /\ Payment.userId p = "u1"
                                 /\ v = PaymentView.mk k (Payment.bookingId p)
                                          (Payment.amountInPaise p / 100)%float
                                          (Payment.currency p) (Payment.paymentStatus p)
                                          (Payment.transactionId p) (Payment.paymentDate p)
                                          (Payment.razorpayOrderId p))
      /\ NoDup (map PaymentView.paymentId views)).
Proof.
  split; [reflexivity|].
  exact (listPaymentsByUser_content Scenario.pf "u1" Scenario.store4 _ eq_refl).
Defined.

(** The later payment comes first. *)
Lemma listPaymentsByUser_newest_first_witness :
  total_order (DateTime_leb Scenario.pf)
  /\ listPaymentsByUser Scenario.pf "u1" Scenario.store4
     = inr [view_of "p2" Scenario.payment2_completed; view_of "p1" Demo.payment1]
  /\ StronglySorted
       (fun a b => DateTime_leb Scenario.pf (PaymentView.paymentDate b)
                     (PaymentView.paymentDate a) = true)
       [view_of "p2" Scenario.payment2_completed; view_of "p1" Demo.payment1].
Proof.
  split; [exact scenario_total_order|]. split; [reflexivity|].
  exact (listPaymentsByUser_newest_first Scenario.pf "u1" Scenario.store4 _
           scenario_total_order eq_refl).
Defined.

(** The two slots of the demo, the booked one and the free one. *)
Lemma findAll_content_witness :
  AdvertisementSlotService.findAll Scenario.pf Demo.store2
  = inr [SlotWithRelations.mk "s1" Demo.slot1 Demo.station1 Demo.rj1
           (Some ("b1", Demo.booking1));
         SlotWithRelations.mk "s2" Demo.slot2 Demo.station1 Demo.rj1 None]
  /\ (let views := [SlotWithRelations.mk "s1" Demo.slot1 Demo.station1 Demo.rj1
                      (Some ("b1", Demo.booking1));
                    SlotWithRelations.mk "s2" Demo.slot2 Demo.station1 Demo.rj1 None] in
      (forall v, In v views
                 <-> exists k x, slots Demo.store2 !! k = Some x
                                 /\ AdvertisementSlotService.with_relations Demo.store2 (k, x)
                                    = inr v)
      /\ NoDup (map SlotWithRelations.id views)
      /\ (total_order (DateTime_leb Scenario.pf) ->
          StronglySorted
            (fun a b => DateTime_leb Scenario.pf
                          (AdvertisementSlot.slotTime (SlotWithRelations.slot a))
                          (AdvertisementSlot.slotTime (SlotWithRelations.slot b)) = true)
            views)).
Proof.
  split; [reflexivity|].
  exact (findAll_content Scenario.pf Demo.store2 _ eq_refl).
Defined.

(** A slot at the time of the first slot of the demo. *)
Lemma create_refuses_duplicate_witness :
  Date_toISOString_of Scenario.pf (CreateSlotDto.slotTime Scenario.again)
  = Some "2025-02-01T10:00:00.000Z"
  /\ slots Demo.store !! "s1" = Some Demo.slot1
  /\ AdvertisementSlotService.create Demo.env Scenario.pf Scenario.again Demo.store
     = (inl (HttpException "A slot already exists for this station, RJ, and exact time."
               HttpStatus.BAD_REQUEST), Demo.store).
Proof.
  split; [reflexivity|]. split; [reflexivity|].
  exact (create_refuses_duplicate Demo.env Scenario.pf Scenario.again Demo.store _ "s1"
           Demo.slot1 eq_refl eq_refl eq_refl eq_refl eq_refl).
Defined.

Lemma scenario_march_free k x :
  slots Demo.store !! k = Some x ->
  ~ (AdvertisementSlot.stationId x = "st1" /\ AdvertisementSlot.rjId x = "rj1"
     /\ AdvertisementSlot.slotTime x = "2025-03-01T00:00:00.000Z").
Proof.
  intros Hk. unfold Demo.store in Hk. cbn [slots] in Hk.
  apply lookup_singleton_Some in Hk as [<- <-]. by intros (_ & _ & ?).
Qed.

(** A slot on the first of March, created twice. *)
Lemma create_then_create_witness :
  Date_toISOString_of Scenario.pf (CreateSlotDto.slotTime Scenario.march)
  = Some "2025-03-01T00:00:00.000Z"
  /\ slots Demo.store !! auto_ObjectId Demo.env Demo.store = None
  /\ (let s' := set_slots (insert "new1" Scenario.march_slot) Demo.store in
      AdvertisementSlotService.create Demo.env Scenario.pf Scenario.march Demo.store
      = (inr (SlotWithStationRj.mk "new1" Scenario.march_slot Demo.station1 Demo.rj1), s')
      /\ (exists bk, AdvertisementSlotService.findOne "new1" s'
                     = inr (SlotWithRelations.mk "new1" Scenario.march_slot Demo.station1
                              Demo.rj1 bk))
      /\ AdvertisementSlotService.create Demo.env Scenario.pf Scenario.march s'
         = (inl (HttpException "A slot already exists for this station, RJ, and exact time."
                   HttpStatus.BAD_REQUEST), s')).
Proof.
  split; [reflexivity|]. split; [reflexivity|].
  exact (create_then_create Demo.env Scenario.pf Scenario.march Demo.store _ Demo.station1
           Demo.rj1 eq_refl scenario_march_free eq_refl eq_refl eq_refl _ _ _ eq_refl
           eq_refl eq_refl).
Defined.

Lemma scenario_slots s k x :
  slots s = <["s2" := Demo.slot2]> {[ "s1" := Demo.slot1 ]} -> slots s !! k = Some x ->
  (k = "s1" /\ x = Demo.slot1) \/ (k = "s2" /\ x = Demo.slot2).
Proof.
  intros -> Hk. apply lookup_insert_Some in Hk as [[<- <-]|[_ Hk]]; [by right|].
  apply lookup_singleton_Some in Hk as [<- <-]. by left.
Qed.

Lemma scenario_slot_keys_unique : slot_keys_unique Demo.store2.
Proof.
  intros i j x y Hi Hj (_ & _ & Ht).
  apply (scenario_slots Demo.store2 i x eq_refl) in Hi as [[-> ->]|[-> ->]];
    apply (scenario_slots Demo.store2 j y eq_refl) in Hj as [[-> ->]|[-> ->]];
    done.
Qed.

(** The slots of the demo stay distinct when the slot of March is added. *)
Lemma create_keeps_slots_distinct_witness :
  slot_keys_unique Demo.store2
  /\ (let s' := (AdvertisementSlotService.create Demo.env Scenario.pf Scenario.march
                   Demo.store2).2 in
      slot_keys_unique s'
      /\ (forall k x, slots Demo.store2 !! k = Some x -> slots s' !! k = Some x)
      /\ bookings s' = bookings Demo.store2
      /\ payments s' = payments Demo.store2).
Proof.
  split; [exact scenario_slot_keys_unique|].
  exact (create_keeps_slots_distinct Demo.env Scenario.pf Scenario.march Demo.store2
           scenario_slot_keys_unique).
Defined.

(** The second slot of the demo moved to the time of the first. *)
Lemma update_makes_duplicates_witness :
  "s1" <> "s2"
  /\ slots Demo.store2 !! "s1" = Some Demo.slot1
  /\ slots Demo.store2 !! "s2" = Some Demo.slot2
  /\ DateTime_of_string Scenario.pf "2025-02-01T10:00:00.000Z"
     = Some (AdvertisementSlot.slotTime Demo.slot1)
  /\ (let r := AdvertisementSlotService.update Scenario.pf "s2" Scenario.move Demo.store2 in
      is_inr r.1 = true
      /\ slots r.2 !! "s1" = Some Demo.slot1
      /\ (exists xb', slots r.2 !! "s2" = Some xb' /\ same_slot_key Demo.slot1 xb')
      /\ ~ slot_keys_unique r.2).
Proof.
  assert ("s1" <> "s2") as Hne by discriminate.
  split; [exact Hne|]. split; [reflexivity|]. split; [reflexivity|]. split; [reflexivity|].
  exact (update_makes_duplicates Scenario.pf Demo.store2 "s1" "s2" Demo.slot1 Demo.slot2
           Demo.station1 Demo.rj1 "2025-02-01T10:00:00.000Z" Hne eq_refl eq_refl eq_refl
           eq_refl eq_refl eq_refl eq_refl _ eq_refl).
Defined.

Lemma scenario_slot_unique : slot_unique Demo.store.
Proof.
  intros i j bi bj Hi Hj _. unfold Demo.store in Hi, Hj. cbn [bookings] in Hi, Hj.
  apply lookup_singleton_Some in Hi as [<- _].
  by apply lookup_singleton_Some in Hj as [<- _].
Qed.

(** The slot of the demo after the genuine callback. *)
Lemma slot_view_after_payment_witness :
  details_present "p1" Demo.good = true
  /\ payments Demo.store !! "p1" = Some Demo.payment1
  /\ bookings Demo.store !! "b1" = Some Demo.booking1
  /\ slots Demo.store !! "s1" = Some Demo.slot1
  /\ slot_unique Demo.store
  /\ (let s' := final (run Demo.env (completePayment Demo.env "p1" Demo.good) Demo.store) in
      AdvertisementSlotService.findOne "s1" s'
      = inr (SlotWithRelations.mk "s1" (booked_slot Demo.slot1) Demo.station1 Demo.rj1
               (Some ("b1", Demo.booking1)))
      /\ (forall v views,
             falsy v = false ->
             toUpperCase Scenario.pf v = "AVAILABLE" ->
             AdvertisementSlotService.findAllAvailableSlotsWithFilter Scenario.pf (Some v) s'
             = inr views ->
             ~ In "s1" (map SlotWithRelations.id views))).
Proof.
  split; [reflexivity|]. split; [reflexivity|]. split; [reflexivity|].
  split; [reflexivity|]. split; [exact scenario_slot_unique|].
  exact (slot_view_after_payment Demo.env Scenario.pf Demo.store "p1" Demo.good
           Demo.payment1 "s1" Demo.slot1 Demo.booking1 Demo.station1 Demo.rj1 eq_refl
           eq_refl eq_refl eq_refl eq_refl eq_refl eq_refl eq_refl eq_refl eq_refl eq_refl
           eq_refl scenario_slot_unique _ eq_refl).
Defined.

(** The payment of 150 rupees in the list of the user "u1". *)
Lemma created_payment_is_listed_witness :
  amount_accepted 150%float = true
  /\ payable Scenario.store3 "b2" Demo.station1
  /\ payment_insertable Demo.env Scenario.store3 "b2" "u1" "order_2"
  /\ is_inr (listPaymentsByUser Scenario.pf "u1" Scenario.store3) = true
  /\ (let s' := final (run Demo.env (createPayment Demo.env "b2" "u1" 150%float "txn2")
                         Scenario.store3) in
      exists views,
        listPaymentsByUser Scenario.pf "u1" s' = inr views
        /\ In (PaymentView.mk "new1" "b2" 150%float "INR" PaymentStatus.PENDING "txn2"
                 "2025-01-01T00:00:00.000Z" (Some "order_2")) views).
Proof.
  split; [reflexivity|]. split; [exact scenario_payable|].
  split; [exact (scenario_insertable Demo.env eq_refl)|]. split; [reflexivity|].
  exact (created_payment_is_listed Demo.env Scenario.pf Scenario.store3 "b2" "u1" 150%float
           "txn2" Demo.station1 Scenario.order2 eq_refl scenario_payable eq_refl
           (scenario_insertable Demo.env eq_refl) eq_refl _ eq_refl).
Defined.
